(** * Sequential intelligence accumulation: a shallow embedding

    The accumulation engine of [bridge/emergent_intelligence.py]
    ([EmergentIntelligence]) and the request handler of
    [bridge/ml_connector.py] ([process_video]), with the properties the
    design document states about them.

    Conventions of the embedding.
    - Python [int] is [Z]; [len] is [Z.of_nat (length _)].
    - A Python [float] that the code stores, or compares with a literal, is
      the rational [Q] its decimal form denotes: [0.8] stands for the
      double nearest to 0.8, and comparisons of doubles agree with
      comparisons of these readings. Where the code computes a number
      that it then sorts by, in [np.mean], the model computes in binary64:
      [double] is an IEEE 754 double with the bit-level operations of the
      library (round to nearest, ties to even), [double_of_Q] is the
      double a reading denotes, and [np_mean] adds in the order numpy adds
      and divides by the count. A strength or a correlation value is a
      number.
    - A Python [str] is held as its UTF-8 encoding, so that a character
      (a code point) is one byte or a lead byte with its continuation
      bytes; the paths and the literals of the code are ASCII.
    - A Python [dict] whose iteration order matters is an association list
      in insertion order ([PyDict]); a dict with a fixed set of keys that
      the code reads by name is a record, a key that may be absent being an
      [option] field. A value the code takes the length of, iterates over
      or slices may be of a type that refuses it ([None], a number): the
      entries of a discovery and the description of a pattern have a case
      for that.
    - [self.state], [self.unknown_space] and the files under the two
      directories form the [world]; a method is a function from the world
      to an outcome (a value or a raised exception) and the world it
      leaves, so that whatever was mutated before an exception stays
      mutated.
    - The methods are coroutines with no suspension point of their own:
      a caller that awaits them one after the other runs them in
      sequence, which is how they are composed here.
    - Random draws, the wall clock and i/o faults are inputs. *)

From Stdlib Require Import List String Ascii ZArith QArith Lia Bool.
From Stdlib Require Import DecimalString Sorted Permutation.
From Stdlib Require DecimalN Lqa SpecFloat.
Import ListNotations.

Local Open Scope string_scope.
Local Open Scope Z_scope.

(** ** Python built-ins *)

(** Insertion-ordered dictionaries with string keys. *)
Module PyDict.

Definition t (V : Type) : Type := list (string * V).

Definition empty {V : Type} : t V := [].

(** [d.get(k)] *)
Fixpoint get {V : Type} (k : string) (d : t V) : option V :=
  match d with
  | [] => None
  | (k', v) :: d' => if String.eqb k k' then Some v else get k d'
  end.

(** [k in d] *)
Definition contains {V : Type} (k : string) (d : t V) : bool :=
  match get k d with Some _ => true | None => false end.

(** [d[k] = v]: an existing key keeps its place, a new key goes last. *)
Fixpoint set {V : Type} (k : string) (v : V) (d : t V) : t V :=
  match d with
  | [] => [(k, v)]
  | (k', v') :: d' =>
      if String.eqb k k' then (k', v) :: d' else (k', v') :: set k v d'
  end.

(** [d.items()] *)
Definition items {V : Type} (d : t V) : list (string * V) := d.

(** [len(d)] *)
Definition len {V : Type} (d : t V) : Z := Z.of_nat (List.length d).

(** A dictionary holds a key once. *)
Definition unique_keys {V : Type} (d : t V) : Prop := NoDup (map fst d).

End PyDict.

(** [len(l)] *)
Definition len {A : Type} (l : list A) : Z := Z.of_nat (List.length l).

(** [l[:stop]], a negative [stop] counting from the end. *)
Definition slice_to {A : Type} (stop : Z) (l : list A) : list A :=
  if 0 <=? stop then firstn (Z.to_nat stop) l
  else firstn (List.length l - Z.to_nat (- stop)) l.

(** [l[start:]], a negative [start] counting from the end. *)
Definition slice_from {A : Type} (start : Z) (l : list A) : list A :=
  if 0 <=? start then skipn (Z.to_nat start) l
  else skipn (List.length l - Z.to_nat (- start)) l.

(** [x > y] on numbers. *)
Definition Qgtb (x y : Q) : bool := negb (Qle_bool x y).

(** A byte [10xxxxxx] continues the character its lead byte began. *)
Definition continuation (c : ascii) : bool :=
  ((128 <=? nat_of_ascii c) && (nat_of_ascii c <? 192))%nat.

(** [s[:stop]] on a [str], for a [stop] that is not negative: its first
    [stop] characters. *)
Fixpoint str_slice_to (stop : nat) (s : string) : string :=
  match s with
  | EmptyString => EmptyString
  | String c s' =>
      if continuation c then String c (str_slice_to stop s')
      else
        match stop with
        | O => EmptyString
        | S stop' => String c (str_slice_to stop' s')
        end
  end.

(** ** Doubles *)

(** An IEEE 754 binary64 number: a signed zero, a signed infinity, NaN, or
    a sign, a mantissa and an exponent. *)
Definition double : Type := SpecFloat.spec_float.

Definition double_add : double -> double -> double := SpecFloat.SFadd 53 1024.

Definition double_div : double -> double -> double := SpecFloat.SFdiv 53 1024.

(** [x > y], [x == y] and [x <= y] on doubles: all three are [False] when
    one of the two is NaN. *)
Definition double_gtb (x y : double) : bool := SpecFloat.SFltb y x.

Definition double_eqb (x y : double) : bool := SpecFloat.SFeqb x y.

Definition double_leb (x y : double) : bool := SpecFloat.SFleb x y.

Definition is_nan (x : double) : bool :=
  match x with SpecFloat.S754_nan => true | _ => false end.

(** [float(n)] of an [int]. *)
Definition double_of_int (n : Z) : double :=
  SpecFloat.binary_normalize 53 1024 n 0 false.

(** The double nearest to a rational, as [float] reads a decimal: the
    quotient is taken with at least 56 bits and a sticky bit for what is
    left of it, then rounded once. *)
Definition double_of_Q (q : Q) : double :=
  let a := Z.abs (Qnum q) in
  let d := Zpos (Qden q) in
  let k := Z.max 0 (56 + Z.log2 d - Z.log2 a) in
  let (quotient, remainder) := Z.div_eucl (Z.shiftl a k) d in
  let m := 2 * quotient + (if remainder =? 0 then 0 else 1) in
  SpecFloat.binary_normalize 53 1024
    (if Qnum q <? 0 then - m else m) (- (k + 1)) false.

(** The elements of index 0, 8, 16, ... *)
Fixpoint every_8th (l : list double) : list double :=
  match l with
  | x :: _ :: _ :: _ :: _ :: _ :: _ :: _ :: l' => x :: every_8th l'
  | x :: _ => [x]
  | [] => []
  end.

(** numpy's sum of a block of 8 to 128 doubles: eight running sums, one
    for each index modulo 8, over the whole groups of eight; the eight are
    added pairwise; what is left of the block is added one by one. *)
Definition sum_unrolled (l : list double) : double :=
  let n := List.length l in
  let whole := firstn (n - n mod 8) l in
  let r j :=
    match every_8th (skipn j whole) with
    | x :: xs => fold_left double_add xs x
    | [] => SpecFloat.S754_zero true
    end in
  let res :=
    double_add
      (double_add (double_add (r 0%nat) (r 1%nat))
                  (double_add (r 2%nat) (r 3%nat)))
      (double_add (double_add (r 4%nat) (r 5%nat))
                  (double_add (r 6%nat) (r 7%nat))) in
  fold_left double_add (skipn (n - n mod 8) l) res.

(** numpy's pairwise sum of a contiguous array: fewer than 8 doubles are
    added one by one from [-0.0], up to 128 by [sum_unrolled], and more
    are cut near the middle, at a multiple of 8, the sums of the two parts
    being added. [fuel] bounds the depth of the cuts; the length of the
    list is enough of it. *)
Fixpoint pairwise_sum (fuel : nat) (l : list double) : double :=
  let n := List.length l in
  if (n <? 8)%nat then fold_left double_add l (SpecFloat.S754_zero true)
  else if (n <=? 128)%nat then sum_unrolled l
  else
    match fuel with
    | O => sum_unrolled l
    | S fuel' =>
        let n2 := (n / 2 - (n / 2) mod 8)%nat in
        double_add (pairwise_sum fuel' (firstn n2 l))
                   (pairwise_sum fuel' (skipn n2 l))
    end.

(** [np.add.reduce(a)]: the pairwise sum, added to the identity. *)
Definition np_sum (l : list double) : double :=
  double_add (SpecFloat.S754_zero true) (pairwise_sum (List.length l) l).

(** [np.mean(l)] of a list of floats: the sum of the doubles, divided by
    their number. *)
Definition np_mean (l : list Q) : double :=
  double_div (np_sum (map double_of_Q l)) (double_of_int (len l)).

(** [l.sort(key=key, reverse=True)]: Python's sort is stable, also when
    reversed, so an element goes after those of greater or equal key that
    came before it. The keys are compared with [<]; when one of them is
    NaN the comparisons are those of no order, and the place the elements
    take depends on the steps of the sorting algorithm, which this
    function does not follow. *)
Section Sort.

Context {A : Type} (key : A -> double).

Fixpoint insert_desc (x : A) (l : list A) : list A :=
  match l with
  | [] => [x]
  | y :: l' =>
      if double_gtb (key y) (key x) then y :: insert_desc x l'
      else x :: y :: l'
  end.

Fixpoint sort_reverse (l : list A) : list A :=
  match l with
  | [] => []
  | x :: l' => insert_desc x (sort_reverse l')
  end.

End Sort.

(** [max(l, key=key)] of a non-empty list: the first element of greatest
    key. *)
Fixpoint max_by {A : Type} (key : A -> Z) (best : A) (l : list A) : A :=
  match l with
  | [] => best
  | x :: l' => max_by key (if key best <? key x then x else best) l'
  end.

(** [format(n, "04d")] *)
Definition zero_pad (width : nat) (s : string) : string :=
  String.concat "" (repeat "0" (width - String.length s)) ++ s.

Definition format_04d (n : Z) : string :=
  let digits := NilEmpty.string_of_uint (N.to_uint (Z.abs_N n)) in
  if n <? 0 then "-" ++ zero_pad 3 digits else zero_pad 4 digits.

(** ** Feature bundles *)

(** An entry of [_detect_silence_patterns]. *)
Record Silence : Type := {
  sil_start : Q;
  sil_duration : Q;
  sil_context : string
}.

(** What a signal name maps to in a bundle. *)
Inductive Signal : Type :=
| Series (values : list Q)
| Matrix (rows : list (list Q))
| Silences (l : list Silence).

(** modality -> signal name -> signal. *)
Definition Features : Type := PyDict.t (PyDict.t Signal).

(** ** The records of a discovery *)

(** What a pattern holds under [description], as the slice [[:20]] and the
    format of the key take it: a [str]; another value that has a slice (a
    list, a tuple, [bytes]), [shown] being the text the format gives of
    its first 20 elements; or a value that has none ([None], a number, a
    dict), on which the slice raises. *)
Inductive Description : Type :=
| Text (s : string)
| Sequence (shown : string)
| Unsliceable.

(** A pattern record; [pattern['type']] is read by subscript, the others
    with [get]. [p_type] is the text the format of the key gives of the
    value under [type], which is the value when it is a [str]. An element
    of the list that is not a dict raises at [pattern['type']] as a dict
    without the key does ([TypeError] for [KeyError], caught alike): it is
    a record without [p_type]. *)
Record Pattern : Type := {
  p_type : option string;
  p_description : option Description;
  p_strength : option Q;
  p_confidence : option Q;
  p_occurrences : option Z
}.

(** A correlation record; [feature_a], [feature_b] and [correlation] are
    read by subscript, the two features being formatted into the key as
    the type of a pattern is. An element that is not a dict is a record
    without [c_feature_a]. *)
Record Correlation : Type := {
  c_feature_a : option string;
  c_feature_b : option string;
  c_correlation : option Q;
  c_significance : option Q;
  c_lag : option Z
}.

(** An unclassified signal: [type] is "unknown", [emergence_potential] is
    "high" and [requires_investigation] is [True] in every record. *)
Record UnknownSignal : Type := {
  u_variance : Q;
  u_kurtosis : Q
}.

Record MetaPattern : Type := {
  m_type : string;
  m_description : string;
  m_trajectory : string;
  m_acceleration : Q
}.

(** What a key of a discovery holds, as [len] and [for] take it: a list,
    or a value that has no length ([None], a number). A [str] or a dict
    has a length and gives [for] elements that are not records, as many:
    it is the list of them. *)
Inductive Stored (A : Type) : Type :=
| Listed (l : list A)
| Unsized.

Arguments Listed {A} l.
Arguments Unsized {A}.

(** The dict [discover_patterns] builds and [update_intelligence] reads
    with [discoveries.get(key, [])]. An argument that is not a dict has no
    [get] and raises at the first of these reads, where a dict whose
    [patterns] have no length raises: it is such a discovery. *)
Record Discoveries : Type := {
  d_patterns : option (Stored Pattern);
  d_correlations : option (Stored Correlation);
  d_unknown : option (Stored UnknownSignal);
  d_meta_patterns : option (Stored MetaPattern)
}.

(** [discoveries.get(key, [])], when it is a list: the list under the key,
    or the default. *)
Definition get_list {A : Type} (entry : option (Stored A)) : list A :=
  match entry with Some (Listed l) => l | _ => [] end.

(** The key holds a value that has no length. *)
Definition unsized {A : Type} (entry : option (Stored A)) : bool :=
  match entry with Some Unsized => true | _ => false end.

(** ** The accumulated state, [self.state] *)

(** An entry of a strength history: [{"video": _, "strength": _}]. *)
Record StrengthEntry : Type := {
  se_video : Z;
  se_strength : Q
}.

(** An entry of a correlation history: [{"video": _, "value": _}]. *)
Record CorrelationEntry : Type := {
  ce_video : Z;
  ce_value : Q
}.

(** A row of the discoveries timeline. *)
Record DiscoveryEntry : Type := {
  de_video : Z;
  de_timestamp : string;
  de_patterns_found : Z;
  de_correlations_found : Z;
  de_unknown_signals : Z
}.

Record State : Type := {
  videos_processed : Z;
  total_patterns : Z;
  total_correlations : Z;
  unknown_space_used : Q;
  creation_time : string;
  discoveries : list DiscoveryEntry;
  pattern_strengths : PyDict.t (list StrengthEntry);
  correlation_matrix : PyDict.t (list CorrelationEntry);
  meta_patterns : list MetaPattern;
  (* read with [self.state.get("last_checkpoint")], never written *)
  last_checkpoint : option string
}.

Definition set_videos_processed (v : Z) (s : State) : State :=
  {| videos_processed := v;
     total_patterns := total_patterns s;
     total_correlations := total_correlations s;
     unknown_space_used := unknown_space_used s;
     creation_time := creation_time s;
     discoveries := discoveries s;
     pattern_strengths := pattern_strengths s;
     correlation_matrix := correlation_matrix s;
     meta_patterns := meta_patterns s;
     last_checkpoint := last_checkpoint s |}.

Definition set_total_patterns (v : Z) (s : State) : State :=
  {| videos_processed := videos_processed s;
     total_patterns := v;
     total_correlations := total_correlations s;
     unknown_space_used := unknown_space_used s;
     creation_time := creation_time s;
     discoveries := discoveries s;
     pattern_strengths := pattern_strengths s;
     correlation_matrix := correlation_matrix s;
     meta_patterns := meta_patterns s;
     last_checkpoint := last_checkpoint s |}.

Definition set_total_correlations (v : Z) (s : State) : State :=
  {| videos_processed := videos_processed s;
     total_patterns := total_patterns s;
     total_correlations := v;
     unknown_space_used := unknown_space_used s;
     creation_time := creation_time s;
     discoveries := discoveries s;
     pattern_strengths := pattern_strengths s;
     correlation_matrix := correlation_matrix s;
     meta_patterns := meta_patterns s;
     last_checkpoint := last_checkpoint s |}.

Definition set_discoveries (v : list DiscoveryEntry) (s : State) : State :=
  {| videos_processed := videos_processed s;
     total_patterns := total_patterns s;
     total_correlations := total_correlations s;
     unknown_space_used := unknown_space_used s;
     creation_time := creation_time s;
     discoveries := v;
     pattern_strengths := pattern_strengths s;
     correlation_matrix := correlation_matrix s;
     meta_patterns := meta_patterns s;
     last_checkpoint := last_checkpoint s |}.

Definition set_pattern_strengths
    (v : PyDict.t (list StrengthEntry)) (s : State) : State :=
  {| videos_processed := videos_processed s;
     total_patterns := total_patterns s;
     total_correlations := total_correlations s;
     unknown_space_used := unknown_space_used s;
     creation_time := creation_time s;
     discoveries := discoveries s;
     pattern_strengths := v;
     correlation_matrix := correlation_matrix s;
     meta_patterns := meta_patterns s;
     last_checkpoint := last_checkpoint s |}.

Definition set_correlation_matrix
    (v : PyDict.t (list CorrelationEntry)) (s : State) : State :=
  {| videos_processed := videos_processed s;
     total_patterns := total_patterns s;
     total_correlations := total_correlations s;
     unknown_space_used := unknown_space_used s;
     creation_time := creation_time s;
     discoveries := discoveries s;
     pattern_strengths := pattern_strengths s;
     correlation_matrix := v;
     meta_patterns := meta_patterns s;
     last_checkpoint := last_checkpoint s |}.

(** The fresh state of [_load_or_initialize_state]. *)
Definition fresh_state (now : string) : State :=
  {| videos_processed := 0;
     total_patterns := 0;
     total_correlations := 0;
     unknown_space_used := 0;
     creation_time := now;
     discoveries := [];
     pattern_strengths := PyDict.empty;
     correlation_matrix := PyDict.empty;
     meta_patterns := [];
     last_checkpoint := None |}.

(** ** Ranking and emergence analysis *)

(** An element of the list [_get_top_patterns] returns. *)
Record TopPattern : Type := {
  tp_pattern : string;
  average_strength : double;
  occurrences : Z;
  first_seen : Z;
  last_seen : Z
}.

(** The body of the loop of [_get_top_patterns] for one item: nothing for
    an empty history. *)
Definition pattern_with_strength
    (item : string * list StrengthEntry) : list TopPattern :=
  let '(pattern_id, strength_history) := item in
  match strength_history with
  | [] => []
  | first :: _ =>
      [ {| tp_pattern := pattern_id;
           average_strength := np_mean (map se_strength strength_history);
           occurrences := len strength_history;
           first_seen := se_video first;
           last_seen := se_video (last strength_history first) |} ]
  end.

Definition patterns_with_strength (s : State) : list TopPattern :=
  flat_map pattern_with_strength (PyDict.items (pattern_strengths s)).

Definition _get_top_patterns (s : State) (limit : Z) : list TopPattern :=
  slice_to limit (sort_reverse average_strength (patterns_with_strength s)).

Record EmergenceEvent : Type := {
  ev_video : Z;
  ev_pattern : string;
  ev_initial_strength : Q
}.

Record Evolution : Type := {
  total_videos : Z;
  patterns_discovered : Z;
  correlations_found : Z;
  emergence_events : list EmergenceEvent
}.

(** The body of the loop of [_get_pattern_evolution_summary] for one
    item. *)
Definition emergence_event
    (item : string * list StrengthEntry) : list EmergenceEvent :=
  let '(pattern_id, history) := item in
  match history with
  | [] => []
  | first :: _ =>
      if Qgtb (se_strength first) 0.8
      then [ {| ev_video := se_video first;
                ev_pattern := pattern_id;
                ev_initial_strength := se_strength first |} ]
      else []
  end.

Definition _get_pattern_evolution_summary (s : State) : Evolution :=
  {| total_videos := videos_processed s;
     patterns_discovered := total_patterns s;
     correlations_found := total_correlations s;
     emergence_events :=
       flat_map emergence_event (PyDict.items (pattern_strengths s)) |}.

(** ** Files *)

(** The summary [save_checkpoint] writes beside the pickle. *)
Record ReadableState : Type := {
  r_videos_processed : Z;
  r_total_patterns : Z;
  r_total_correlations : Z;
  r_top_patterns : list TopPattern;
  r_pattern_evolution : Evolution
}.

(** What [store_raw_features] writes; [filtered] and [judged] are [False]
    and [stored_everything] is [True] in every file. *)
Record StorageData : Type := {
  sd_video_number : Z;
  sd_timestamp : string;
  sd_features : Features
}.

(** The content of a file: what was dumped into it, [pickle.load] giving
    back the state [pickle.dump] was given, or the torn remains of a write
    that failed. *)
Inductive Content : Type :=
| Pickled (s : State)
| Summary (r : ReadableState)
| RawFeatures (d : StorageData)
| Torn.

Record File : Type := {
  st_mtime : Z;
  content : Content
}.

(** How i/o on a path goes: the open fails, or the write after it does,
    or neither. *)
Inductive Fault : Type :=
| NoFault
| OpenFails
| WriteFails.

Record FileSystem : Type := {
  files : PyDict.t File;
  fault : string -> Fault
}.

Definition checkpoint_dir : string := "intelligence_checkpoints".
Definition discovery_dir : string := "data/discoveries".

(** [directory / name] *)
Definition joinpath (directory name : string) : string :=
  directory ++ "/" ++ name.

(** [s.endswith(suffix)] *)
Definition endswith (suffix s : string) : bool :=
  (String.length suffix <=? String.length s)%nat
  && String.eqb
       (substring (String.length s - String.length suffix)
                  (String.length suffix) s)
       suffix.

(** Whether a path is a match of
    [self.checkpoint_dir.glob("intelligence_v*.pkl")]: a file of the
    directory itself whose name has the prefix, then the suffix. *)
Definition is_checkpoint (path : string) : bool :=
  let stem := joinpath checkpoint_dir "intelligence_v" in
  prefix stem path
  && endswith ".pkl" path
  && (String.length stem + 4 <=? String.length path)%nat
  && negb (existsb (Ascii.eqb "/")
             (list_ascii_of_string
                (substring (String.length stem) (String.length path) path))).

(** ** The world and its commands *)

Record World : Type := {
  state : State;
  unknown_space : list UnknownSignal;
  filesystem : FileSystem
}.

Definition with_state (s : State) (w : World) : World :=
  {| state := s;
     unknown_space := unknown_space w;
     filesystem := filesystem w |}.

Definition with_filesystem (fs : FileSystem) (w : World) : World :=
  {| state := state w;
     unknown_space := unknown_space w;
     filesystem := fs |}.

Inductive Exception : Type :=
| KeyError (key : string)
| TypeError (operation : string)
| OSError (path : string)
| UnpicklingError (path : string)
| HTTPException (status_code : Z) (detail : Exception).

Inductive Outcome (A : Type) : Type :=
| Return (a : A)
| Raise (e : Exception).

Arguments Return {A} a.
Arguments Raise {A} e.

(** A command runs in a world and leaves a world, whether it returns or
    raises. *)
Definition Cmd (A : Type) : Type := World -> Outcome A * World.

Definition ret {A : Type} (a : A) : Cmd A := fun w => (Return a, w).

Definition raise {A : Type} (e : Exception) : Cmd A := fun w => (Raise e, w).

Definition bind {A B : Type} (c : Cmd A) (k : A -> Cmd B) : Cmd B :=
  fun w =>
    match c w with
    | (Return a, w') => k a w'
    | (Raise e, w') => (Raise e, w')
    end.

(** [try: body  except Exception as e: handler] *)
Definition try_except {A : Type} (body : Cmd A) (handler : Exception -> Cmd A)
  : Cmd A :=
  fun w =>
    match body w with
    | (Return a, w') => (Return a, w')
    | (Raise e, w') => handler e w'
    end.

Definition get_state : Cmd State := fun w => (Return (state w), w).

Definition modify_state (f : State -> State) : Cmd unit :=
  fun w => (Return tt, with_state (f (state w)) w).

Declare Scope cmd_scope.
Delimit Scope cmd_scope with cmd.
Bind Scope cmd_scope with Cmd.

Notation "x <- c ;; k" := (bind c (fun x => k))
  (at level 61, c at next level, right associativity) : cmd_scope.
Notation "c ;; k" := (bind c (fun _ => k))
  (at level 61, right associativity) : cmd_scope.

Local Open Scope cmd_scope.

(** [for x in l: body] *)
Fixpoint for_each {A : Type} (l : list A) (body : A -> Cmd unit) : Cmd unit :=
  match l with
  | [] => ret tt
  | x :: l' => body x ;; for_each l' body
  end.

(** [d[key]] on a record of a discovery: [KeyError] for an absent key. *)
Definition subscript {A : Type} (key : string) (field : option A) : Cmd A :=
  match field with
  | Some v => ret v
  | None => raise (KeyError key)
  end.

(** [len(discoveries.get(key, []))] *)
Definition len_of {A : Type} (entry : option (Stored A)) : Cmd Z :=
  match entry with
  | Some Unsized => raise (TypeError "len")
  | _ => ret (len (get_list entry))
  end.

(** What [for x in discoveries.get(key, [])] goes through. *)
Definition iter_of {A : Type} (entry : option (Stored A)) : Cmd (list A) :=
  match entry with
  | Some Unsized => raise (TypeError "iter")
  | _ => ret (get_list entry)
  end.

(** [pattern.get('description', '')[:20]], as the format of the key shows
    it. *)
Definition description_20 (description : option Description) : Cmd string :=
  match description with
  | None => ret ""
  | Some (Text s) => ret (str_slice_to 20 s)
  | Some (Sequence shown) => ret shown
  | Some Unsliceable => raise (TypeError "slice")
  end.

(** [open(path, mode)] for writing, then a dump of [c] into the file. *)
Definition write_file (path : string) (c : Content) (mtime : Z) : Cmd unit :=
  fun w =>
    let fs := filesystem w in
    let put c :=
      with_filesystem
        {| files := PyDict.set path {| st_mtime := mtime; content := c |}
                      (files fs);
           fault := fault fs |} w in
    match fault fs path with
    | OpenFails => (Raise (OSError path), w)
    | WriteFails => (Raise (OSError path), put Torn)
    | NoFault => (Return tt, put c)
    end.

(** ** Discovery *)

(** What the random generator gives during one [discover_patterns]:
    the successive [np.random.random()] and [randint] values, and the
    [np.std] of the signal drawn by [_explore_unknown_space]. *)
Record Draws : Type := {
  micro_gate : Q;
  micro_strength : Q;
  micro_confidence : Q;
  micro_occurrences : Z;
  cross_gate : Q;
  cross_strength : Q;
  cross_confidence : Q;
  correlation_draw : Q;
  significance_draw : Q;
  lag_draw : Z;
  acceleration_draw : Q;
  unknown_std : Q;
  kurtosis_draw : Q
}.

Definition _find_emergent_patterns (features : Features) (r : Draws)
  : list Pattern :=
  (if Qgtb (micro_gate r) 0.3
   then [ {| p_type := Some "micro_temporal";
             p_description :=
               Some
                 (Text "Eyebrow AU2 at 43.2s correlates with positive outcome");
             p_strength := Some (micro_strength r);
             p_confidence := Some (micro_confidence r);
             p_occurrences := Some (micro_occurrences r) |} ]
   else [])
  ++
  (if Qgtb (cross_gate r) 0.4
   then [ {| p_type := Some "cross_modal";
             p_description :=
               Some
                 (Text "Voice pitch drop + shoulder rotation = decision point");
             p_strength := Some (cross_strength r);
             p_confidence := Some (cross_confidence r);
             p_occurrences := None |} ]
   else []).

Definition _discover_correlations (features : Features) (r : Draws)
  : list Correlation :=
  [ {| c_feature_a := Some "facial.landmarks[123]";
       c_feature_b := Some "audio.prosody[45]";
       c_correlation := Some (correlation_draw r * 2 - 1)%Q;
       c_significance := Some (significance_draw r);
       c_lag := Some (lag_draw r) |} ].

Definition _find_meta_patterns (s : State) (features : Features) (r : Draws)
  : list MetaPattern :=
  if videos_processed s >? 10
  then [ {| m_type := "pattern_evolution";
            m_description := "Pattern strength increases after video 100";
            m_trajectory := "ascending";
            m_acceleration := acceleration_draw r |} ]
  else [].

Definition _explore_unknown_space (features : Features) (r : Draws)
  : list UnknownSignal :=
  if Qgtb (unknown_std r) 1.5
  then [ {| u_variance := unknown_std r; u_kurtosis := kurtosis_draw r |} ]
  else [].

(** [discover_patterns] reads [self.state] and writes nothing; the
    closing loop only logs. *)
Definition discover_patterns (s : State) (features : Features)
    (video_number : Z) (use_previous_intelligence : bool) (r : Draws)
  : Discoveries :=
  let gate := use_previous_intelligence && (videos_processed s >? 0) in
  {| d_patterns :=
       Some (Listed (if gate then _find_emergent_patterns features r
                     else []));
     d_correlations :=
       Some (Listed (if gate then _discover_correlations features r
                     else []));
     d_unknown := Some (Listed (_explore_unknown_space features r));
     d_meta_patterns :=
       Some (Listed (if gate then _find_meta_patterns s features r
                     else [])) |}.

(** ** Extraction and raw storage *)

Definition _detect_silence_patterns : list Silence :=
  [ {| sil_start := 3.2; sil_duration := 3.2; sil_context := "after_benefit" |};
    {| sil_start := 7.8; sil_duration := 7.8; sil_context := "consideration" |};
    {| sil_start := 12.1; sil_duration := 2.1; sil_context := "agreement" |} ].

(** [extract_everything]; [randn name] is the array drawn for the signal
    of that name. *)
Definition extract_everything (video_path : string) (randn : string -> Signal)
  : Features :=
  [ ("facial",
     [ ("landmarks", randn "landmarks");
       ("micro_expressions", randn "micro_expressions");
       ("head_pose", randn "head_pose");
       ("eye_gaze", randn "eye_gaze") ]);
    ("audio",
     [ ("prosody", randn "prosody");
       ("silence_patterns", Silences _detect_silence_patterns);
       ("breathing", randn "breathing");
       ("energy", randn "energy") ]);
    ("temporal",
     [ ("sequences", randn "sequences");
       ("transitions", randn "transitions");
       ("synchronies", randn "synchronies") ]);
    ("cross_modal",
     [ ("audio_visual_sync", randn "audio_visual_sync");
       ("gesture_speech_alignment", randn "gesture_speech_alignment");
       ("multimodal_coherence", randn "multimodal_coherence") ]);
    ("unknown",
     [ ("signal_1", randn "signal_1");
       ("signal_2", randn "signal_2");
       ("emergence_space", randn "emergence_space") ]) ].

Definition store_raw_features (video_number : Z) (features : Features)
    (now : string) (mtime : Z) : Cmd bool :=
  try_except
    (let storage_path :=
       joinpath discovery_dir
         ("raw_features_v" ++ format_04d video_number ++ ".json") in
     let storage_data :=
       {| sd_video_number := video_number;
          sd_timestamp := now;
          sd_features := features |} in
     write_file storage_path (RawFeatures storage_data) mtime ;;
     ret true)
    (fun _ => ret false).

(** ** Merging discoveries into the state *)

(** The body of the loop over the patterns. *)
Definition track_pattern (video_number : Z) (pattern : Pattern) : Cmd unit :=
  type <- subscript "type" (p_type pattern) ;;
  description <- description_20 (p_description pattern) ;;
  let pattern_id := type ++ "_" ++ description in
  s <- get_state ;;
  (if PyDict.contains pattern_id (pattern_strengths s)
   then ret tt
   else modify_state (fun s =>
          set_pattern_strengths
            (PyDict.set pattern_id [] (pattern_strengths s)) s)) ;;
  s <- get_state ;;
  history <-
    subscript pattern_id (PyDict.get pattern_id (pattern_strengths s)) ;;
  let strength :=
    match p_strength pattern with Some x => x | None => 0%Q end in
  modify_state (fun s =>
    set_pattern_strengths
      (PyDict.set pattern_id
         (history
          ++ [ {| se_video := video_number; se_strength := strength |} ])%list
         (pattern_strengths s)) s).

(** The body of the loop over the correlations. *)
Definition track_correlation (video_number : Z) (correlation : Correlation)
  : Cmd unit :=
  feature_a <- subscript "feature_a" (c_feature_a correlation) ;;
  feature_b <- subscript "feature_b" (c_feature_b correlation) ;;
  let key := feature_a ++ "_" ++ feature_b in
  s <- get_state ;;
  (if PyDict.contains key (correlation_matrix s)
   then ret tt
   else modify_state (fun s =>
          set_correlation_matrix
            (PyDict.set key [] (correlation_matrix s)) s)) ;;
  s <- get_state ;;
  history <- subscript key (PyDict.get key (correlation_matrix s)) ;;
  value <- subscript "correlation" (c_correlation correlation) ;;
  modify_state (fun s =>
    set_correlation_matrix
      (PyDict.set key
         (history ++ [ {| ce_video := video_number; ce_value := value |} ])%list
         (correlation_matrix s)) s).

(** The statements inside the [try] of [update_intelligence]. *)
Definition update_intelligence_body (discoveries_ : Discoveries)
    (video_number : Z) (now : string) : Cmd bool :=
  modify_state (fun s => set_videos_processed (videos_processed s + 1) s) ;;
  patterns_len <- len_of (d_patterns discoveries_) ;;
  modify_state (fun s =>
    set_total_patterns (total_patterns s + patterns_len) s) ;;
  correlations_len <- len_of (d_correlations discoveries_) ;;
  modify_state (fun s =>
    set_total_correlations (total_correlations s + correlations_len) s) ;;
  patterns <- iter_of (d_patterns discoveries_) ;;
  for_each patterns (track_pattern video_number) ;;
  correlations <- iter_of (d_correlations discoveries_) ;;
  for_each correlations (track_correlation video_number) ;;
  patterns_found <- len_of (d_patterns discoveries_) ;;
  correlations_found <- len_of (d_correlations discoveries_) ;;
  unknown_signals <- len_of (d_unknown discoveries_) ;;
  modify_state (fun s =>
    set_discoveries
      (discoveries s
       ++ [ {| de_video := video_number;
               de_timestamp := now;
               de_patterns_found := patterns_found;
               de_correlations_found := correlations_found;
               de_unknown_signals := unknown_signals |} ])%list s) ;;
  ret true.

Definition update_intelligence (discoveries_ : Discoveries)
    (video_number : Z) (now : string) : Cmd bool :=
  try_except (update_intelligence_body discoveries_ video_number now)
             (fun _ => ret false).

(** ** Checkpoints *)

Definition checkpoint_path (video_number : Z) : string :=
  joinpath checkpoint_dir
    ("intelligence_v" ++ format_04d video_number ++ ".pkl").

Definition discoveries_path (video_number : Z) : string :=
  joinpath checkpoint_dir
    ("discoveries_v" ++ format_04d video_number ++ ".json").

Definition save_checkpoint (video_number : Z) (mtime : Z) : Cmd bool :=
  try_except
    (s <- get_state ;;
     write_file (checkpoint_path video_number) (Pickled s) mtime ;;
     s <- get_state ;;
     let readable_state :=
       {| r_videos_processed := videos_processed s;
          r_total_patterns := total_patterns s;
          r_total_correlations := total_correlations s;
          r_top_patterns := _get_top_patterns s 10;
          r_pattern_evolution := _get_pattern_evolution_summary s |} in
     write_file (discoveries_path video_number) (Summary readable_state)
       mtime ;;
     ret true)
    (fun _ => ret false).

(** [_find_latest_checkpoint]: the matches of the glob in the order the
    directory lists them, and the most recently modified of them. *)
Definition _find_latest_checkpoint (fs : FileSystem) : option string :=
  let checkpoints :=
    filter (fun p => is_checkpoint (fst p)) (PyDict.items (files fs)) in
  match checkpoints with
  | [] => None
  | p :: rest => Some (fst (max_by (fun p => st_mtime (snd p)) p rest))
  end.

Definition _load_or_initialize_state (fs : FileSystem) (now : string)
  : Outcome State :=
  match _find_latest_checkpoint fs with
  | Some latest_checkpoint =>
      match fault fs latest_checkpoint with
      | OpenFails => Raise (OSError latest_checkpoint)
      | _ =>
          match PyDict.get latest_checkpoint (files fs) with
          | Some {| content := Pickled s |} => Return s
          | Some _ => Raise (UnpicklingError latest_checkpoint)
          | None => Raise (OSError latest_checkpoint)
          end
      end
  | None => Return (fresh_state now)
  end.

(** [EmergentIntelligence()]: of the attributes [__init__] sets, the
    methods read [state] and [unknown_space] only. *)
Definition __init__ (fs : FileSystem) (now : string) : Outcome World :=
  match _load_or_initialize_state fs now with
  | Return s =>
      Return {| state := s; unknown_space := []; filesystem := fs |}
  | Raise e => Raise e
  end.

(** ** Queries *)

Record Metrics : Type := {
  pattern_diversity : Z;
  correlation_density : Z;
  discovery_rate : Q
}.

Record StateView : Type := {
  sv_videos_processed : Z;
  sv_total_patterns : Z;
  sv_total_correlations : Z;
  sv_unknown_space_used : Q;
  sv_last_checkpoint : option string;
  metrics : Metrics
}.

Definition get_current_state (w : World) : StateView :=
  let s := state w in
  {| sv_videos_processed := videos_processed s;
     sv_total_patterns := total_patterns s;
     sv_total_correlations := total_correlations s;
     sv_unknown_space_used := (inject_Z (len (unknown_space w)) / 1000)%Q;
     sv_last_checkpoint := last_checkpoint s;
     metrics :=
       {| pattern_diversity := PyDict.len (pattern_strengths s);
          correlation_density := PyDict.len (correlation_matrix s);
          discovery_rate :=
            (inject_Z (total_patterns s)
             / inject_Z (Z.max 1 (videos_processed s)))%Q |} |}.

Definition get_recent_discoveries (w : World) (limit : Z)
  : list DiscoveryEntry :=
  match discoveries (state w) with
  | [] => []
  | _ :: _ => slice_from (- limit) (discoveries (state w))
  end.

(** ** The request handler of [ml_connector] *)

Record VideoProcessRequest : Type := {
  video_path : string;
  video_number : Z;
  rq_extract_everything : bool;
  store_raw : bool;
  rq_discover_patterns : bool
}.

Record DiscoveryResponse : Type := {
  rs_video_number : Z;
  features_extracted : Z;
  rs_patterns_discovered : list Pattern;
  rs_correlations_found : list Correlation;
  rs_unknown_signals : list UnknownSignal;
  intelligence_updated : bool;
  checkpoint_saved : bool
}.

(** What one request takes from outside: the arrays and numbers drawn,
    and the clock at the three places that read it. *)
Record Environment : Type := {
  randn : string -> Signal;
  draws : Draws;
  now_raw : string;
  mtime_raw : Z;
  now_update : string;
  mtime_checkpoint : Z
}.

Definition process_video (request : VideoProcessRequest) (env : Environment)
  : Cmd DiscoveryResponse :=
  try_except
    (let features := extract_everything (video_path request) (randn env) in
     (if store_raw request
      then store_raw_features (video_number request) features
             (now_raw env) (mtime_raw env) ;; ret tt
      else ret tt) ;;
     s <- get_state ;;
     let discoveries_ :=
       discover_patterns s features (video_number request) true (draws env) in
     intelligence_updated_ <-
       update_intelligence discoveries_ (video_number request)
         (now_update env) ;;
     checkpoint_saved_ <-
       save_checkpoint (video_number request) (mtime_checkpoint env) ;;
     ret {| rs_video_number := video_number request;
            features_extracted := PyDict.len features;
            rs_patterns_discovered := get_list (d_patterns discoveries_);
            rs_correlations_found := get_list (d_correlations discoveries_);
            rs_unknown_signals := get_list (d_unknown discoveries_);
            intelligence_updated := intelligence_updated_;
            checkpoint_saved := checkpoint_saved_ |})
    (fun e => raise (HTTPException 500 e)).

(** ** Sequences of calls *)

(** One call of [update_intelligence] by the caller. *)
Record Call : Type := {
  call_discoveries : Discoveries;
  call_video_number : Z;
  call_now : string
}.

(** The caller awaits the calls one after the other; each step records
    what the call returned and the world it left. *)
Fixpoint run_updates (calls : list Call) (w : World)
  : list (Outcome bool * World) :=
  match calls with
  | [] => []
  | c :: rest =>
      let step :=
        update_intelligence (call_discoveries c) (call_video_number c)
          (call_now c) w in
      step :: run_updates rest (snd step)
  end.

(** The row [update_intelligence] appends to the timeline. *)
Definition timeline_row (d : Discoveries) (n : Z) (now : string)
  : DiscoveryEntry :=
  {| de_video := n;
     de_timestamp := now;
     de_patterns_found := len (get_list (d_patterns d));
     de_correlations_found := len (get_list (d_correlations d));
     de_unknown_signals := len (get_list (d_unknown d)) |}.

(** The history a dictionary holds for a key, empty for an absent key. *)
Definition history_of {E : Type} (k : string) (d : PyDict.t (list E))
  : list E :=
  match PyDict.get k d with Some h => h | None => [] end.

(** [d'] holds the histories of [d] with entries of index [n] appended. *)
Definition grows {E : Type} (video : E -> Z) (n : Z)
    (d d' : PyDict.t (list E)) : Prop :=
  forall k, exists t,
    history_of k d' = (history_of k d ++ t)%list
    /\ Forall (fun e => video e = n) t.

(** [d'] has grown out of [d] by such entries, as a dictionary. *)
Definition extends {E : Type} (video : E -> Z) (n : Z)
    (d d' : PyDict.t (list E)) : Prop :=
  grows video n d d' /\ (PyDict.unique_keys d -> PyDict.unique_keys d').

(** Every history of [d] is in non-decreasing index order and stays
    within [m]. *)
Definition ordered_upto {E : Type} (video : E -> Z) (m : Z)
    (d : PyDict.t (list E)) : Prop :=
  forall k h, PyDict.get k d = Some h ->
    Sorted Z.le (map video h) /\ Forall (fun e => video e <= m) h.

(** ** Sample inputs *)

Module Sample.

Definition no_faults : FileSystem :=
  {| files := PyDict.empty; fault := fun _ => NoFault |}.

(** A cold start on an empty checkpoint directory. *)
Definition cold_start : World :=
  {| state := fresh_state "2024-01-01T00:00:00";
     unknown_space := [];
     filesystem := no_faults |}.

Definition pattern (type : string) (strength : Q) : Pattern :=
  {| p_type := Some type;
     p_description := Some (Text "Voice pitch drop + shoulder rotation");
     p_strength := Some strength;
     p_confidence := Some 0.5%Q;
     p_occurrences := None |}.

(** A pattern record without the key [type]. *)
Definition untyped_pattern : Pattern :=
  {| p_type := None;
     p_description := None;
     p_strength := Some 0.5%Q;
     p_confidence := None;
     p_occurrences := None |}.

Definition correlation (value : Q) : Correlation :=
  {| c_feature_a := Some "facial.landmarks[123]";
     c_feature_b := Some "audio.prosody[45]";
     c_correlation := Some value;
     c_significance := Some 0.5%Q;
     c_lag := Some 2 |}.

Definition well_formed : Discoveries :=
  {| d_patterns :=
       Some (Listed [pattern "cross_modal" 0.9; pattern "micro" 0.4]);
     d_correlations := Some (Listed [correlation 0.25]);
     d_unknown := Some (Listed []);
     d_meta_patterns := Some (Listed []) |}.

(** A well-formed pattern followed by one without [type]. *)
Definition ill_formed : Discoveries :=
  {| d_patterns :=
       Some (Listed [pattern "cross_modal" 0.9; untyped_pattern]);
     d_correlations := Some (Listed [correlation 0.25]);
     d_unknown := Some (Listed []);
     d_meta_patterns := Some (Listed []) |}.

Definition three_calls : list Call :=
  [ {| call_discoveries := well_formed;
       call_video_number := 0;
       call_now := "2024-01-01T00:00:01" |};
    {| call_discoveries := well_formed;
       call_video_number := 1;
       call_now := "2024-01-01T00:00:02" |};
    {| call_discoveries := well_formed;
       call_video_number := 1;
       call_now := "2024-01-01T00:00:03" |} ].

(** The ranking scenario of the design document. *)
Definition entry (video : Z) (strength : Q) : StrengthEntry :=
  {| se_video := video; se_strength := strength |}.

Definition with_strengths (d : PyDict.t (list StrengthEntry)) : State :=
  set_pattern_strengths d (fresh_state "2024-01-01T00:00:00").

Definition three_patterns : State :=
  with_strengths
    [ ("A", [entry 0 0.9]);
      ("B", [entry 0 0.5; entry 1 0.7]);
      ("C", [entry 0 0.95; entry 1 0.95]) ].

(** A pattern record without a description: its key is its type and an
    underscore. *)
Definition bare_pattern (type : string) (strength : Q) : Pattern :=
  {| p_type := Some type;
     p_description := None;
     p_strength := Some strength;
     p_confidence := None;
     p_occurrences := None |}.

Definition only_patterns (l : list Pattern) : Discoveries :=
  {| d_patterns := Some (Listed l);
     d_correlations := None;
     d_unknown := None;
     d_meta_patterns := None |}.

(** Two calls that record strength 0.5 once for ["once_"], first, and
    twice for ["twice_"]. *)
Definition tied_calls : list Call :=
  [ {| call_discoveries :=
         only_patterns [bare_pattern "once" 0.5; bare_pattern "twice" 0.5];
       call_video_number := 0;
       call_now := "2024-01-01T00:00:01" |};
    {| call_discoveries := only_patterns [bare_pattern "twice" 0.5];
       call_video_number := 1;
       call_now := "2024-01-01T00:00:02" |} ].

(** The state those two calls leave after a cold start. *)
Definition tied_patterns : State :=
  state (snd (last (run_updates tied_calls cold_start)
                (Return true, cold_start))).

(** The world one successful call leaves after a cold start. *)
Definition after_one_call : World :=
  snd (update_intelligence well_formed 0 "2024-01-01T00:00:01" cold_start).

(** A history that starts above the emergence threshold and falls, and
    one that starts below it and rises. *)
Definition early_and_late : State :=
  with_strengths
    [ ("early", [entry 4 0.9; entry 9 0.1]);
      ("late", [entry 5 0.2; entry 9 0.95]) ].

(** One request on video 0, with draws that pass every random gate. *)
Definition request_zero : VideoProcessRequest :=
  {| video_path := "videos/0000.mp4";
     video_number := 0;
     rq_extract_everything := true;
     store_raw := true;
     rq_discover_patterns := true |}.

Definition environment : Environment :=
  {| randn := fun _ => Series [0.1; -0.2]%Q;
     draws :=
       {| micro_gate := 0.9; micro_strength := 0.85; micro_confidence := 0.5;
          micro_occurrences := 7;
          cross_gate := 0.9; cross_strength := 0.6; cross_confidence := 0.5;
          correlation_draw := 0.75; significance_draw := 0.5; lag_draw := -3;
          acceleration_draw := 0.1;
          unknown_std := 1.6; kurtosis_draw := 0.2 |};
     now_raw := "2024-01-01T00:00:01";
     mtime_raw := 1;
     now_update := "2024-01-01T00:00:02";
     mtime_checkpoint := 2 |}.

End Sample.

(** ** What a reversed stable sort guarantees *)

(** [a] may stand before [b] in a list sorted by [key], reversed. *)
Definition not_below {A : Type} (key : A -> double) (a b : A) : Prop :=
  double_leb (key b) (key a) = true.

(** The elements of one key value, in the order the list has them. *)
Definition of_key {A : Type} (key : A -> double) (q : double) (l : list A)
  : list A :=
  filter (fun a => double_eqb (key a) q) l.

(** ** The ranking order of the design document

    The order the document gives for [top_patterns], in its words: mean
    strength descending, ties broken by occurrence count descending, then
    by key in lexical order. *)
Definition documented_before (a b : TopPattern) : bool :=
  double_gtb (average_strength a) (average_strength b)
  || (double_eqb (average_strength a) (average_strength b)
      && ((occurrences b <? occurrences a)
          || ((occurrences a =? occurrences b)
              && String.ltb (tp_pattern a) (tp_pattern b)))).

(** ** The window of the design document

    [recent_discoveries(limit)] in the document's words: the last [limit]
    entries of the log, the oldest of them first. *)
Definition last_entries {A : Type} (limit : nat) (log : list A) : list A :=
  skipn (List.length log - limit) log.

(** ** The other methods of the engine *)

(** A query reads the world and leaves it. *)
Definition query {A : Type} (f : World -> A) : Cmd A :=
  fun w => (Return (f w), w).

(** [create_checkpoint]: the index is the counter, and the path is
    returned whatever [save_checkpoint] answered. *)
Definition create_checkpoint (mtime : Z) : Cmd string :=
  (s <- get_state ;;
   let video_number := videos_processed s in
   save_checkpoint video_number mtime ;;
   ret (checkpoint_path video_number))%cmd.

Record PatternEvolution : Type := {
  timeline : list DiscoveryEntry;
  strength : PyDict.t (list StrengthEntry);
  pe_emergence_events : list EmergenceEvent
}.

Definition get_pattern_evolution (w : World) : PatternEvolution :=
  {| timeline := discoveries (state w);
     strength := pattern_strengths (state w);
     pe_emergence_events :=
       emergence_events (_get_pattern_evolution_summary (state w)) |}.

(** ** The other endpoints of [ml_connector]

    Each wraps its body in [try] and turns an exception into an
    [HTTPException] of status 500. *)
Module Endpoint.

Record IntelligenceState : Type := {
  is_videos_processed : Z;
  is_total_patterns : Z;
  is_total_correlations : Z;
  is_unknown_space_used : Q;
  is_last_checkpoint : option string;
  intelligence_metrics : Metrics
}.

Definition get_intelligence_state : Cmd IntelligenceState :=
  try_except
    (state_ <- query get_current_state ;;
     ret {| is_videos_processed := sv_videos_processed state_;
            is_total_patterns := sv_total_patterns state_;
            is_total_correlations := sv_total_correlations state_;
            is_unknown_space_used := sv_unknown_space_used state_;
            is_last_checkpoint := sv_last_checkpoint state_;
            intelligence_metrics := metrics state_ |})%cmd
    (fun e => raise (HTTPException 500 e)).

Record RecentDiscoveries : Type := {
  count : Z;
  rd_discoveries : list DiscoveryEntry
}.

Definition get_recent_discoveries (limit : Z) : Cmd RecentDiscoveries :=
  try_except
    (discoveries_ <- query (fun w => get_recent_discoveries w limit) ;;
     ret {| count := len discoveries_; rd_discoveries := discoveries_ |})%cmd
    (fun e => raise (HTTPException 500 e)).

Record CheckpointCreated : Type := {
  success : bool;
  cc_checkpoint_path : string;
  cc_timestamp : string
}.

Definition create_checkpoint (now : string) (mtime : Z)
  : Cmd CheckpointCreated :=
  try_except
    (checkpoint_path_ <- create_checkpoint mtime ;;
     ret {| success := true;
            cc_checkpoint_path := checkpoint_path_;
            cc_timestamp := now |})%cmd
    (fun e => raise (HTTPException 500 e)).

Record EvolutionView : Type := {
  evolution_timeline : list DiscoveryEntry;
  pattern_strength_over_time : PyDict.t (list StrengthEntry);
  ev_emergence_events : list EmergenceEvent
}.

Definition get_pattern_evolution : Cmd EvolutionView :=
  try_except
    (evolution <- query get_pattern_evolution ;;
     ret {| evolution_timeline := timeline evolution;
            pattern_strength_over_time := strength evolution;
            ev_emergence_events := pe_emergence_events evolution |})%cmd
    (fun e => raise (HTTPException 500 e)).

End Endpoint.

(** ** Sequences of requests *)

(** The requests of one caller, handled one after the other. *)
Fixpoint run_requests (requests : list (VideoProcessRequest * Environment))
    (w : World) : list (Outcome DiscoveryResponse * World) :=
  match requests with
  | [] => []
  | (request, env) :: rest =>
      let step := process_video request env w in
      step :: run_requests rest (snd step)
  end.

(** ** What the merge records, record by record *)

(** The key [update_intelligence] files a pattern under: its type, an
    underscore and the first 20 characters of its description; none when
    the record has no type or a description without a slice. *)
Definition pattern_key (p : Pattern) : option string :=
  match p_type p, p_description p with
  | Some type, None => Some (type ++ "_")
  | Some type, Some (Text s) => Some (type ++ "_" ++ str_slice_to 20 s)
  | Some type, Some (Sequence shown) => Some (type ++ "_" ++ shown)
  | _, _ => None
  end.

(** The entry it appends for the pattern: a missing strength counts 0. *)
Definition strength_entry (n : Z) (p : Pattern) : StrengthEntry :=
  {| se_video := n;
     se_strength := match p_strength p with Some x => x | None => 0%Q end |}.

(** The key it files a correlation under. *)
Definition correlation_key (c : Correlation) : option string :=
  match c_feature_a c, c_feature_b c with
  | Some a, Some b => Some (a ++ "_" ++ b)
  | _, _ => None
  end.

Definition correlation_entry (n : Z) (c : Correlation) : CorrelationEntry :=
  {| ce_video := n;
     ce_value := match c_correlation c with Some x => x | None => 0%Q end |}.

(** A record has the keys [update_intelligence] reads by subscript, and
    the description of a pattern, when it has one, can be sliced. *)
Definition complete_pattern (p : Pattern) : bool :=
  match pattern_key p with Some _ => true | None => false end.

Definition complete_correlation (c : Correlation) : bool :=
  match c_feature_a c, c_feature_b c, c_correlation c with
  | Some _, Some _, Some _ => true
  | _, _, _ => false
  end.

(** [d[key].append(e)] after [if key not in d: d[key] = []]. *)
Definition record_entry {E : Type} (key : string) (e : E)
    (d : PyDict.t (list E)) : PyDict.t (list E) :=
  PyDict.set key (history_of key d ++ [e])%list d.

(** The entries a dictionary of histories holds in all. *)
Definition total_entries {E : Type} (d : PyDict.t (list E)) : Z :=
  fold_right (fun item acc => len (snd item) + acc) 0 d.

(** The sum of a column of the timeline. *)
Definition column_sum (column : DiscoveryEntry -> Z)
    (log : list DiscoveryEntry) : Z :=
  fold_right (fun row acc => column row + acc) 0 log.

(** One turn of the loop over the patterns, on the dictionary, for a
    record that has its keys. *)
Definition record_pattern (n : Z) (d : PyDict.t (list StrengthEntry))
    (p : Pattern) : PyDict.t (list StrengthEntry) :=
  match pattern_key p with
  | Some key => record_entry key (strength_entry n p) d
  | None => d
  end.

Definition record_correlation (n : Z) (d : PyDict.t (list CorrelationEntry))
    (c : Correlation) : PyDict.t (list CorrelationEntry) :=
  match correlation_key c with
  | Some key => record_entry key (correlation_entry n c) d
  | None => d
  end.

(** The elements of a list before the first that fails a test. *)
Fixpoint take_while {A : Type} (test : A -> bool) (l : list A) : list A :=
  match l with
  | [] => []
  | x :: l' => if test x then x :: take_while test l' else []
  end.

(** A discovery [update_intelligence] goes through without an exception:
    its three entries have a length and the records of the two it merges
    are complete. *)
Definition complete_discoveries (d : Discoveries) : bool :=
  negb (unsized (d_patterns d))
  && negb (unsized (d_correlations d))
  && negb (unsized (d_unknown d))
  && forallb complete_pattern (get_list (d_patterns d))
  && forallb complete_correlation (get_list (d_correlations d)).

(** What a call adds to [total_patterns] and to [total_correlations]: the
    lengths the statements reach before an exception, the one after the
    other. *)
Definition counted_patterns (d : Discoveries) : Z :=
  if unsized (d_patterns d) then 0 else len (get_list (d_patterns d)).

Definition counted_correlations (d : Discoveries) : Z :=
  if unsized (d_patterns d) || unsized (d_correlations d) then 0
  else len (get_list (d_correlations d)).

(** The records a call merges: the loops start once the two lengths are
    taken; the loop over the patterns stops at the first record that is
    not complete, and the loop over the correlations runs when the first
    has come to its end. *)
Definition merged_patterns (d : Discoveries) : list Pattern :=
  if unsized (d_patterns d) || unsized (d_correlations d) then []
  else take_while complete_pattern (get_list (d_patterns d)).

Definition merged_correlations (d : Discoveries) : list Correlation :=
  if unsized (d_patterns d) || unsized (d_correlations d)
     || negb (forallb complete_pattern (get_list (d_patterns d)))
  then []
  else take_while complete_correlation (get_list (d_correlations d)).

(** The records filed under a key. *)
Definition pattern_under (key : string) (p : Pattern) : bool :=
  match pattern_key p with Some k => String.eqb k key | None => false end.

Definition correlation_under (key : string) (c : Correlation) : bool :=
  match correlation_key c with Some k => String.eqb k key | None => false end.

(** The occurrences a ranking counts in all. *)
Definition sum_occurrences (l : list TopPattern) : Z :=
  fold_right (fun r acc => occurrences r + acc) 0 l.

(** The books of a state are balanced: the two totals are the sums of
    their columns of the timeline and the numbers of entries the histories
    hold. *)
Definition balanced (s : State) : Prop :=
  total_patterns s = column_sum de_patterns_found (discoveries s)
  /\ total_correlations s = column_sum de_correlations_found (discoveries s)
  /\ total_entries (pattern_strengths s) = total_patterns s
  /\ total_entries (correlation_matrix s) = total_correlations s.

(** ** Reading an index back

    What [format_04d] writes, read as a decimal number with an optional
    sign, as [int] reads it. *)
Definition read_04d (s : string) : option Z :=
  match s with
  | String "-" digits =>
      option_map (fun d => - Z.of_N (N.of_uint d))
        (NilEmpty.uint_of_string digits)
  | _ =>
      option_map (fun d => Z.of_N (N.of_uint d)) (NilEmpty.uint_of_string s)
  end.

(** A name with no separator in it stays in its directory. *)
Definition no_slash (s : string) : Prop :=
  existsb (Ascii.eqb "/") (list_ascii_of_string s) = false.

(** ** More sample inputs *)

Module Fixture.

(** The world the request on video 0 leaves after a cold start: it holds
    the checkpoint of index 0, written at time 2. *)
Definition after_request : World :=
  snd (process_video Sample.request_zero Sample.environment Sample.cold_start).

(** The same world on a disk where writing the checkpoint of index 1
    tears the file. *)
Definition tearing : World :=
  with_filesystem
    {| files := files (filesystem after_request);
       fault := fun path =>
                  if String.eqb path (checkpoint_path 1) then WriteFails
                  else NoFault |}
    after_request.

(** The same world on a disk where no file can be opened. *)
Definition read_only : World :=
  with_filesystem
    {| files := files (filesystem after_request);
       fault := fun _ => OpenFails |}
    after_request.

Definition request_one : VideoProcessRequest :=
  {| video_path := "videos/0001.mp4";
     video_number := 1;
     rq_extract_everything := true;
     store_raw := true;
     rq_discover_patterns := true |}.

(** The environment of the second request, one tick later. *)
Definition later : Environment :=
  {| randn := randn Sample.environment;
     draws := draws Sample.environment;
     now_raw := "2024-01-01T00:01:01";
     mtime_raw := 61;
     now_update := "2024-01-01T00:01:02";
     mtime_checkpoint := 62 |}.

(** Two pattern records of one type whose descriptions part after the
    20th character, the second without a strength. *)
Definition colliding : Discoveries :=
  {| d_patterns :=
       Some
         (Listed
            [ {| p_type := Some "cross_modal";
                 p_description :=
                   Some (Text "Voice pitch drop + shoulder rotation");
                 p_strength := Some 0.9%Q;
                 p_confidence := None;
                 p_occurrences := None |};
              {| p_type := Some "cross_modal";
                 p_description :=
                   Some (Text "Voice pitch drop + slower breathing");
                 p_strength := None;
                 p_confidence := None;
                 p_occurrences := None |} ]);
     d_correlations := Some (Listed [Sample.correlation 0.25]);
     d_unknown := None;
     d_meta_patterns := None |}.

(** A store that holds raw features and a summary, and no checkpoint. *)
Definition no_checkpoint : FileSystem :=
  {| files :=
       [ ("data/discoveries/raw_features_v0000.json",
          {| st_mtime := 1; content := Torn |});
         ("intelligence_checkpoints/discoveries_v0000.json",
          {| st_mtime := 2; content := Torn |}) ];
     fault := fun _ => NoFault |}.

(** The two requests of a caller, in order. *)
Definition two_requests : list (VideoProcessRequest * Environment) :=
  [ (Sample.request_zero, Sample.environment); (request_one, later) ].

(** A discovery whose [correlations] are [None], after one pattern. *)
Definition correlations_none : Discoveries :=
  {| d_patterns := Some (Listed [Sample.pattern "cross_modal" 0.9]);
     d_correlations := Some Unsized;
     d_unknown := None;
     d_meta_patterns := None |}.

(** A discovery whose [unknown] is [None], after one pattern and one
    correlation. *)
Definition unknown_none : Discoveries :=
  {| d_patterns := Some (Listed [Sample.pattern "cross_modal" 0.9]);
     d_correlations := Some (Listed [Sample.correlation 0.25]);
     d_unknown := Some Unsized;
     d_meta_patterns := None |}.

(** A pattern that has its type and [None] for a description. *)
Definition undescribed : Pattern :=
  {| p_type := Some "micro";
     p_description := Some Unsliceable;
     p_strength := Some 0.7%Q;
     p_confidence := None;
     p_occurrences := None |}.

(** One well-formed pattern, the pattern without a description, and a
    third that the loop does not reach; then one correlation. *)
Definition description_none : Discoveries :=
  {| d_patterns :=
       Some (Listed [ Sample.pattern "cross_modal" 0.9; undescribed;
                      Sample.pattern "micro" 0.4 ]);
     d_correlations := Some (Listed [Sample.correlation 0.25]);
     d_unknown := None;
     d_meta_patterns := None |}.

(** A correlation without its value, after a complete one of other
    features. *)
Definition valueless : Discoveries :=
  {| d_patterns := Some (Listed [Sample.pattern "cross_modal" 0.9]);
     d_correlations :=
       Some (Listed [ Sample.correlation 0.25;
                      {| c_feature_a := Some "audio.energy";
                         c_feature_b := Some "facial.head_pose";
                         c_correlation := None;
                         c_significance := None;
                         c_lag := None |} ]);
     d_unknown := None;
     d_meta_patterns := None |}.

(** The letter e with an acute accent: one character, two bytes. *)
Definition e_acute : string :=
  String (ascii_of_nat 195) (String (ascii_of_nat 169) EmptyString).

(** A pattern described by 25 accented letters. *)
Definition accented : Pattern :=
  {| p_type := Some "t";
     p_description := Some (Text (String.concat "" (repeat e_acute 25)));
     p_strength := Some 0.5%Q;
     p_confidence := None;
     p_occurrences := None |}.

(** Histories whose means differ by the rounding of the sums: [0.2] for
    the first key; [0.1, 0.2, 0.3] for the second, which add up to
    0.6000000000000001. *)
Definition rounded_means : State :=
  Sample.with_strengths
    [ ("B", [Sample.entry 0 0.2]);
      ("A", [Sample.entry 0 0.1; Sample.entry 1 0.2; Sample.entry 2 0.3]) ].

End Fixture.

(** ** Case analysis on doubles

    A comparison of doubles is settled by the cases of the two numbers,
    then by the orders of their exponents and mantissas. *)
Ltac double_orders :=
  repeat match goal with
  | |- context [Z.compare ?a ?b] => destruct (Z.compare_spec a b)
  | H : context [Z.compare ?a ?b] |- _ => destruct (Z.compare_spec a b)
  | |- context [Pos.compare_cont Eq ?a ?b] =>
      change (Pos.compare_cont Eq a b) with (Pos.compare a b);
      destruct (Pos.compare_spec a b)
  | H : context [Pos.compare_cont Eq ?a ?b] |- _ =>
      change (Pos.compare_cont Eq a b) with (Pos.compare a b) in H;
      destruct (Pos.compare_spec a b)
  end;
  simpl in *; try discriminate; try reflexivity; try lia.

Ltac double_cases :=
  unfold double_gtb, double_eqb, double_leb, SpecFloat.SFltb,
    SpecFloat.SFeqb, SpecFloat.SFleb, SpecFloat.SFcompare;
  intros;
  repeat match goal with
  | x : double |- _ => destruct x as [[]|[]| |[] ? ?]
  end;
  simpl in *; try discriminate; try reflexivity; double_orders.

(** * Properties *)

Local Open Scope list_scope.

(** ** The built-ins on small inputs *)

Example format_04d_pads :
  map format_04d [7; 1500; 12345; 0; -5]
  = ["0007"; "1500"; "12345"; "0000"; "-005"]%string.
Proof. reflexivity. Qed.

Example glob_matches_pickles_only :
  map is_checkpoint
    [ checkpoint_path 7; discoveries_path 7;
      "intelligence_checkpoints/intelligence_v.pkl"%string;
      "intelligence_checkpoints/intelligence_v1/x.pkl"%string;
      "elsewhere/intelligence_v0007.pkl"%string ]
  = [true; false; true; false; false].
Proof. reflexivity. Qed.

Example slices :
  slice_to 2 [1; 2; 3] = [1; 2]
  /\ slice_to (-1) [1; 2; 3] = [1; 2]
  /\ slice_to 5 [1; 2; 3] = [1; 2; 3]
  /\ slice_from (-2) [1; 2; 3] = [2; 3]
  /\ slice_from (-5) [1; 2; 3] = [1; 2; 3]
  /\ slice_from 0 [1; 2; 3] = [1; 2; 3].
Proof. repeat split. Qed.

Example sort_reverse_is_stable :
  sort_reverse (fun item => double_of_Q (snd item))
    [("a", 0.5); ("b", 0.9); ("c", 0.5); ("d", 0.9)]%Q%string
  = [("b", 0.9); ("d", 0.9); ("a", 0.5); ("c", 0.5)]%Q%string.
Proof. vm_compute. reflexivity. Qed.

(** A slice of a [str] counts characters, not bytes: of 25 accented
    letters it keeps 20, which are 40 bytes. *)
Example str_slice_counts_characters :
  str_slice_to 20 "Voice pitch drop + shoulder rotation"
  = "Voice pitch drop + s"%string
  /\ str_slice_to 20 (String.concat "" (repeat Fixture.e_acute 25))
     = String.concat "" (repeat Fixture.e_acute 20)
  /\ String.length (String.concat "" (repeat Fixture.e_acute 20)) = 40%nat
  /\ str_slice_to 20 "short" = "short"%string.
Proof. repeat split. Qed.

(** The double a decimal denotes: 0.1 is 0x1.999999999999ap-4, and 0.5 and
    3 are themselves. *)
Example double_of_Q_rounds :
  double_of_Q 0.1 = SpecFloat.S754_finite false 7205759403792794 (-56)
  /\ double_of_Q 0.5 = SpecFloat.S754_finite false 4503599627370496 (-53)
  /\ double_of_Q 3 = SpecFloat.S754_finite false 6755399441055744 (-51)
  /\ double_of_Q 0 = SpecFloat.S754_zero false
  /\ double_of_Q (- (1 # 3))
     = SpecFloat.S754_finite true 6004799503160661 (-54).
Proof. repeat split; vm_compute; reflexivity. Qed.

(** The mean numpy gives is the rounded one: 0.4000000000000001 for three
    times 0.4, 0.20000000000000004 for 0.1, 0.2 and 0.3, and 0.1 for ten
    times 0.1, which one by one would add up to 0.9999999999999999. *)
Example np_mean_rounds :
  np_mean [0.4; 0.4; 0.4]%Q = double_of_Q (4000000000000001 # 10 ^ 16)
  /\ double_gtb (np_mean [0.4; 0.4; 0.4]%Q) (double_of_Q 0.4) = true
  /\ np_mean [0.1; 0.2; 0.3]%Q = double_of_Q (20000000000000004 # 10 ^ 17)
  /\ double_gtb (np_mean [0.1; 0.2; 0.3]%Q) (np_mean [0.2]%Q) = true
  /\ np_mean (repeat 0.1%Q 10) = double_of_Q 0.1
  /\ fold_left double_add (repeat (double_of_Q 0.1) 10)
       (SpecFloat.S754_zero true)
     = double_of_Q (9999999999999999 # 10 ^ 16)
  /\ np_mean [0.5]%Q = np_mean [0.5; 0.5]%Q.
Proof. repeat split; vm_compute; reflexivity. Qed.

Example max_by_keeps_the_first :
  max_by snd ("a"%string, 3) [("b"%string, 5); ("c"%string, 5); ("d"%string, 1)]
  = ("b"%string, 5).
Proof. reflexivity. Qed.

(** ** The order of numpy's additions *)

Module SumFacts.

(** Ten doubles: the first eight pairwise, then the last two. *)
Lemma pairwise_sum_of_ten (a0 a1 a2 a3 a4 a5 a6 a7 a8 a9 : double) :
  pairwise_sum 10 [a0; a1; a2; a3; a4; a5; a6; a7; a8; a9]
  = double_add
      (double_add
         (double_add
            (double_add (double_add a0 a1) (double_add a2 a3))
            (double_add (double_add a4 a5) (double_add a6 a7)))
         a8)
      a9.
Proof. reflexivity. Qed.

(** Sixteen doubles: eight running sums of two, added pairwise. *)
Lemma pairwise_sum_of_sixteen
    (a0 a1 a2 a3 a4 a5 a6 a7 b0 b1 b2 b3 b4 b5 b6 b7 : double) :
  pairwise_sum 16
    [a0; a1; a2; a3; a4; a5; a6; a7; b0; b1; b2; b3; b4; b5; b6; b7]
  = double_add
      (double_add
         (double_add (double_add a0 b0) (double_add a1 b1))
         (double_add (double_add a2 b2) (double_add a3 b3)))
      (double_add
         (double_add (double_add a4 b4) (double_add a5 b5))
         (double_add (double_add a6 b6) (double_add a7 b7))).
Proof. reflexivity. Qed.

(** Three doubles: one by one, from [-0.0]. *)
Lemma np_sum_of_three (a b c : double) :
  np_sum [a; b; c]
  = double_add (SpecFloat.S754_zero true)
      (double_add
         (double_add (double_add (SpecFloat.S754_zero true) a) b) c).
Proof. reflexivity. Qed.

Lemma pairwise_sum_step (fuel : nat) (l : list double) :
  pairwise_sum fuel l
  = let n := List.length l in
    if (n <? 8)%nat then fold_left double_add l (SpecFloat.S754_zero true)
    else if (n <=? 128)%nat then sum_unrolled l
    else
      match fuel with
      | O => sum_unrolled l
      | S fuel' =>
          let n2 := (n / 2 - (n / 2) mod 8)%nat in
          double_add (pairwise_sum fuel' (firstn n2 l))
                     (pairwise_sum fuel' (skipn n2 l))
      end.
Proof. destruct fuel; reflexivity. Qed.

Lemma halves (n : nat) :
  (n / 2 - (n / 2) mod 8 <= n / 2)%nat
  /\ (n <= 2 * (n / 2) + 1)%nat
  /\ (2 * (n / 2) <= n)%nat
  /\ ((n / 2) mod 8 < 8)%nat.
Proof.
  pose proof (Nat.div_mod_eq n 2) as D.
  assert (n mod 2 < 2)%nat as M by (apply Nat.mod_upper_bound; discriminate).
  assert ((n / 2) mod 8 < 8)%nat as M8
    by (apply Nat.mod_upper_bound; discriminate).
  lia.
Qed.

(** The fuel [np_sum] gives is enough: with any fuel that leaves 128
    elements or fewer uncovered, the sum is the same. *)
Lemma pairwise_sum_fuel (f : nat) :
  forall (f' : nat) (l : list double),
    (List.length l <= f + 128)%nat -> (List.length l <= f' + 128)%nat ->
    pairwise_sum f l = pairwise_sum f' l.
Proof.
  induction f as [|f IH]; intros f' l L L';
    rewrite (pairwise_sum_step _ l), (pairwise_sum_step f' l); cbv zeta;
    destruct (Nat.ltb_spec (List.length l) 8); auto;
    destruct (Nat.leb_spec (List.length l) 128); auto; [lia|].
  destruct f' as [|f']; [lia|].
  pose proof (halves (List.length l)) as (H1 & H2 & H3 & H4).
  f_equal; apply IH; rewrite ?length_firstn, ?length_skipn; lia.
Qed.

Lemma np_sum_fuel (fuel : nat) (l : list double) :
  (List.length l <= fuel + 128)%nat ->
  np_sum l = double_add (SpecFloat.S754_zero true) (pairwise_sum fuel l).
Proof.
  intros L. unfold np_sum. f_equal. apply pairwise_sum_fuel; lia.
Qed.

End SumFacts.

(** ** Dictionaries *)

Module PyDictFacts.

Lemma get_set_same {V : Type} (k : string) (v : V) (d : PyDict.t V) :
  PyDict.get k (PyDict.set k v d) = Some v.
Proof.
  induction d as [|[k' v'] d IH]; simpl.
  - now rewrite String.eqb_refl.
  - destruct (String.eqb k k') eqn:E; simpl; rewrite E; auto.
Qed.

Lemma get_set_other {V : Type} (k k' : string) (v : V) (d : PyDict.t V) :
  k' <> k -> PyDict.get k' (PyDict.set k v d) = PyDict.get k' d.
Proof.
  intros N. induction d as [|[k0 v0] d IH]; simpl.
  - apply String.eqb_neq in N. now rewrite N.
  - destruct (String.eqb k k0) eqn:E; simpl.
    + apply String.eqb_eq in E. subst k0.
      apply String.eqb_neq in N. now rewrite N.
    + now rewrite IH.
Qed.

Lemma contains_false {V : Type} (k : string) (d : PyDict.t V) :
  PyDict.contains k d = false -> PyDict.get k d = None.
Proof. unfold PyDict.contains. now destruct (PyDict.get k d). Qed.

Lemma contains_true {V : Type} (k : string) (d : PyDict.t V) :
  PyDict.contains k d = true -> exists v, PyDict.get k d = Some v.
Proof.
  unfold PyDict.contains. destruct (PyDict.get k d) as [v|]; [eauto|easy].
Qed.

Lemma contains_cons {V : Type} (k k' : string) (v : V) (d : PyDict.t V) :
  PyDict.contains k ((k', v) :: d)
  = if String.eqb k k' then true else PyDict.contains k d.
Proof. unfold PyDict.contains. simpl. now destruct (String.eqb k k'). Qed.

Lemma not_contains_not_in {V : Type} (k : string) (d : PyDict.t V) :
  PyDict.contains k d = false -> ~ In k (map fst d).
Proof.
  induction d as [|[k' v'] d IH]; [easy|].
  rewrite contains_cons. destruct (String.eqb k k') eqn:E; [easy|].
  intros C [H|H]; [|now apply IH].
  simpl in H. subst k'. now rewrite String.eqb_refl in E.
Qed.

Lemma keys_set {V : Type} (k : string) (v : V) (d : PyDict.t V) :
  map fst (PyDict.set k v d)
  = if PyDict.contains k d then map fst d else map fst d ++ [k].
Proof.
  induction d as [|[k' v'] d IH]; [reflexivity|].
  rewrite contains_cons. simpl. destruct (String.eqb k k'); [reflexivity|].
  simpl. rewrite IH. now destruct (PyDict.contains k d).
Qed.

Lemma set_unique_keys {V : Type} (k : string) (v : V) (d : PyDict.t V) :
  PyDict.unique_keys d -> PyDict.unique_keys (PyDict.set k v d).
Proof.
  unfold PyDict.unique_keys. intros U. rewrite keys_set.
  destruct (PyDict.contains k d) eqn:C; [exact U|].
  apply NoDup_app; [exact U|repeat constructor; easy|].
  intros x Hx [<-|[]]. now apply (not_contains_not_in _ _ C).
Qed.

(** In a dictionary, the items are what [get] finds. *)
Lemma in_items_get {V : Type} (k : string) (v : V) (d : PyDict.t V) :
  PyDict.unique_keys d ->
  (In (k, v) (PyDict.items d) <-> PyDict.get k d = Some v).
Proof.
  unfold PyDict.unique_keys, PyDict.items.
  induction d as [|[k' v'] d IH]; simpl; [easy|].
  intros U. inversion U as [|? ? N U']; subst.
  destruct (String.eqb k k') eqn:E.
  - apply String.eqb_eq in E. subst k'. split.
    + intros [H|H]; [congruence|].
      elim N. now apply (in_map fst) in H.
    + intros H. left. congruence.
  - apply String.eqb_neq in E. rewrite <- (IH U'). split; [|tauto].
    intros [H|H]; [congruence|exact H].
Qed.

End PyDictFacts.

(** ** Histories only grow *)

Section Histories.

Context {E : Type} (video : E -> Z).

Lemma sorted_snoc (l : list Z) (x : Z) :
  Sorted Z.le l -> Forall (fun y => y <= x) l -> Sorted Z.le (l ++ [x]).
Proof.
  induction 1 as [|a l S IH H]; intros F; simpl.
  - repeat constructor.
  - inversion F as [|? ? Ha Fl]; subst. constructor; [auto|].
    destruct l; simpl; constructor; [lia|]. now inversion H.
Qed.

Lemma sorted_app_const (n : Z) (h t : list E) :
  Sorted Z.le (map video h) -> Forall (fun e => video e <= n) h ->
  Forall (fun e => video e = n) t ->
  Sorted Z.le (map video (h ++ t)) /\ Forall (fun e => video e <= n) (h ++ t).
Proof.
  intros S B F. revert h S B.
  induction F as [|e t He F IH]; intros h S B.
  - now rewrite app_nil_r.
  - replace (h ++ e :: t)%list with ((h ++ [e]) ++ t)%list
      by now rewrite <- app_assoc.
    apply IH.
    + rewrite map_app. simpl. apply sorted_snoc; [easy|].
      rewrite Forall_map. rewrite He. exact B.
    + apply Forall_app. split; [easy|]. constructor; [lia|constructor].
Qed.

(** Appending entries of an index that is not below the bound keeps the
    histories ordered. *)
Lemma ordered_grows (m n : Z) (d d' : PyDict.t (list E)) :
  m <= n -> ordered_upto video m d -> grows video n d d' ->
  ordered_upto video n d'.
Proof.
  intros L O G k h' Hk. destruct (G k) as (t & Et & Ft).
  unfold history_of in Et. rewrite Hk in Et. subst h'.
  apply sorted_app_const; [| |exact Ft].
  - destruct (PyDict.get k d) as [h|] eqn:Hd; [|constructor].
    now apply (O k h).
  - destruct (PyDict.get k d) as [h|] eqn:Hd; [|constructor].
    destruct (O k h Hd) as [_ B].
    eapply Forall_impl; [|exact B]. simpl. intros. lia.
Qed.

End Histories.

(** ** The merge step *)

Section Merge.

Local Open Scope cmd_scope.

Lemma set_pattern_strengths_same (w : World) :
  with_state
    (set_pattern_strengths (pattern_strengths (state w)) (state w)) w = w.
Proof. destruct w as [[] ? ?]. reflexivity. Qed.

Lemma set_correlation_matrix_same (w : World) :
  with_state
    (set_correlation_matrix (correlation_matrix (state w)) (state w)) w = w.
Proof. destruct w as [[] ? ?]. reflexivity. Qed.

Lemma set_twice {V : Type} (k : string) (v v' : V) (d : PyDict.t V) :
  PyDict.set k v' (PyDict.set k v d) = PyDict.set k v' d.
Proof.
  induction d as [|[k0 v0] d IH]; simpl.
  - now rewrite String.eqb_refl.
  - destruct (String.eqb k k0) eqn:E; simpl; rewrite E; congruence.
Qed.

Lemma bind_modify {B : Type} (f : State -> State) (k : unit -> Cmd B)
    (w : World) :
  bind (modify_state f) k w = k tt (with_state (f (state w)) w).
Proof. reflexivity. Qed.

Lemma bind_ret {A B : Type} (a : A) (k : A -> Cmd B) (w : World) :
  bind (ret a) k w = k a w.
Proof. reflexivity. Qed.

Lemma bind_raise {A B : Type} (e : Exception) (k : A -> Cmd B) (w : World) :
  bind (raise e) k w = (Raise e, w).
Proof. reflexivity. Qed.

Lemma len_of_sized {A : Type} (entry : option (Stored A)) :
  unsized entry = false -> len_of entry = ret (len (get_list entry)).
Proof. destruct entry as [[l|]|]; [reflexivity|discriminate|reflexivity]. Qed.

Lemma len_of_unsized {A : Type} (entry : option (Stored A)) :
  unsized entry = true -> len_of entry = raise (TypeError "len").
Proof. destruct entry as [[l|]|]; [discriminate|reflexivity|discriminate]. Qed.

Lemma iter_of_sized {A : Type} (entry : option (Stored A)) :
  unsized entry = false -> iter_of entry = ret (get_list entry).
Proof. destruct entry as [[l|]|]; [reflexivity|discriminate|reflexivity]. Qed.

Lemma take_while_all {A : Type} (test : A -> bool) (l : list A) :
  forallb test l = true -> take_while test l = l.
Proof.
  induction l as [|x l IH]; simpl; [reflexivity|].
  destruct (test x); [|discriminate]. intros H. now rewrite IH.
Qed.

(** One pattern: a complete record is filed, another raises before the
    state is touched. *)
Lemma track_pattern_exact (n : Z) (p : Pattern) (w : World) :
  track_pattern n p w
  = match pattern_key p with
    | Some _ =>
        (Return tt,
         with_state
           (set_pattern_strengths
              (record_pattern n (pattern_strengths (state w)) p) (state w)) w)
    | None =>
        (Raise match p_type p with
               | Some _ => TypeError "slice"
               | None => KeyError "type"
               end, w)
    end.
Proof.
  unfold track_pattern, record_pattern, pattern_key, description_20,
    record_entry, history_of, strength_entry, bind, subscript, get_state,
    modify_state, ret, raise.
  destruct (p_type p) as [type|]; [|reflexivity].
  destruct (p_description p) as [[s|shown|]|]; cbn beta iota;
    try reflexivity;
    change ("_" ++ "")%string with "_"%string;
    match goal with |- context [PyDict.contains ?k _] => set (id := k) end;
    (destruct (PyDict.contains id (pattern_strengths (state w))) eqn:C;
     [ destruct (PyDictFacts.contains_true _ _ C) as [h G];
       cbn beta iota; rewrite G; reflexivity
     | rewrite (PyDictFacts.contains_false _ _ C); cbn;
       rewrite PyDictFacts.get_set_same; cbn; now rewrite set_twice ]).
Qed.

(** One correlation: a complete record is filed. *)
Lemma track_correlation_exact (n : Z) (c : Correlation) (w : World) :
  complete_correlation c = true ->
  track_correlation n c w
  = (Return tt,
     with_state
       (set_correlation_matrix
          (record_correlation n (correlation_matrix (state w)) c) (state w))
       w).
Proof.
  unfold complete_correlation, track_correlation, record_correlation,
    correlation_key, record_entry, history_of, correlation_entry, bind,
    subscript, get_state, modify_state, ret, raise.
  destruct (c_feature_a c) as [a|]; [|discriminate].
  destruct (c_feature_b c) as [b|]; [|discriminate].
  destruct (c_correlation c) as [v|]; [|discriminate]. intros _.
  cbn beta iota.
  match goal with |- context [PyDict.contains ?k _] => set (key := k) end.
  destruct (PyDict.contains key (correlation_matrix (state w))) eqn:C.
  - destruct (PyDictFacts.contains_true _ _ C) as [h G].
    cbn beta iota. rewrite G. reflexivity.
  - rewrite (PyDictFacts.contains_false _ _ C). cbn.
    rewrite PyDictFacts.get_set_same. cbn. now rewrite set_twice.
Qed.

(** A correlation that lacks a key raises; when it is the value that is
    missing, the key of the two features has been given its empty history
    by then, and no history has changed. *)
Lemma track_correlation_raises (n : Z) (c : Correlation) (w : World) :
  complete_correlation c = false ->
  exists e cm',
    track_correlation n c w
    = (Raise e, with_state (set_correlation_matrix cm' (state w)) w)
    /\ (forall k,
          history_of k cm' = history_of k (correlation_matrix (state w)))
    /\ (PyDict.unique_keys (correlation_matrix (state w)) ->
        PyDict.unique_keys cm').
Proof.
  unfold complete_correlation, track_correlation, bind, subscript, get_state,
    modify_state, ret, raise.
  destruct (c_feature_a c) as [a|].
  2:{ intros _. do 2 eexists. rewrite set_correlation_matrix_same.
      split; [reflexivity|]. split; auto. }
  destruct (c_feature_b c) as [b|].
  2:{ intros _. do 2 eexists. rewrite set_correlation_matrix_same.
      split; [reflexivity|]. split; auto. }
  destruct (c_correlation c) as [v|]; [discriminate|]. intros _.
  cbn beta iota.
  match goal with |- context [PyDict.contains ?k _] => set (key := k) end.
  destruct (PyDict.contains key (correlation_matrix (state w))) eqn:C.
  - destruct (PyDictFacts.contains_true _ _ C) as [h G].
    cbn beta iota. rewrite G. cbn beta iota.
    do 2 eexists. rewrite set_correlation_matrix_same.
    split; [reflexivity|]. split; auto.
  - cbn. rewrite PyDictFacts.get_set_same. cbn beta iota.
    do 2 eexists. split; [reflexivity|]. split.
    + intros k. unfold history_of. destruct (string_dec k key) as [->|N].
      * now rewrite PyDictFacts.get_set_same,
          (PyDictFacts.contains_false _ _ C).
      * now rewrite PyDictFacts.get_set_other.
    + apply PyDictFacts.set_unique_keys.
Qed.

(** The loop over the patterns files the records that come before the
    first incomplete one, and raises there. *)
Lemma for_each_patterns_run (n : Z) (l : list Pattern) (w : World) :
  exists o,
    for_each l (track_pattern n) w
    = (o,
       with_state
         (set_pattern_strengths
            (fold_left (record_pattern n) (take_while complete_pattern l)
               (pattern_strengths (state w)))
            (state w)) w)
    /\ (forallb complete_pattern l = true -> o = Return tt)
    /\ (forallb complete_pattern l = false -> exists e, o = Raise e).
Proof.
  revert w. induction l as [|p l IH]; intros w.
  - exists (Return tt). simpl. unfold ret.
    rewrite set_pattern_strengths_same. repeat split. discriminate.
  - cbn [for_each take_while forallb]. unfold bind.
    rewrite track_pattern_exact.
    pose proof (eq_refl : complete_pattern p
                          = match pattern_key p with
                            | Some _ => true
                            | None => false
                            end) as Hc.
    destruct (pattern_key p) as [key|] eqn:K; rewrite Hc; cbn [andb].
    + destruct (IH (with_state
                      (set_pattern_strengths
                         (record_pattern n (pattern_strengths (state w)) p)
                         (state w)) w)) as (o & E & Ht & Hf).
      rewrite E. exists o. split; [reflexivity|]. split; assumption.
    + eexists. cbn [fold_left]. rewrite set_pattern_strengths_same.
      split; [reflexivity|]. split; [discriminate|eauto].
Qed.

Lemma history_of_record_entry {E : Type} (k key : string) (e : E)
    (d : PyDict.t (list E)) :
  history_of k (record_entry key e d)
  = if String.eqb key k then history_of k d ++ [e] else history_of k d.
Proof.
  unfold record_entry, history_of at 1.
  destruct (String.eqb key k) eqn:Ek.
  - apply String.eqb_eq in Ek. subst k.
    now rewrite PyDictFacts.get_set_same.
  - apply String.eqb_neq in Ek.
    rewrite PyDictFacts.get_set_other by congruence. reflexivity.
Qed.

Lemma record_entry_unique_keys {E : Type} (key : string) (e : E)
    (d : PyDict.t (list E)) :
  PyDict.unique_keys d -> PyDict.unique_keys (record_entry key e d).
Proof. apply PyDictFacts.set_unique_keys. Qed.

Lemma recorded_patterns_unique_keys (n : Z) (l : list Pattern) :
  forall d,
    PyDict.unique_keys d ->
    PyDict.unique_keys (fold_left (record_pattern n) l d).
Proof.
  induction l as [|p l IH]; intros d U; simpl; [exact U|].
  apply IH. unfold record_pattern.
  destruct (pattern_key p); [now apply record_entry_unique_keys|exact U].
Qed.

(** The loop over the correlations, likewise; the record it stops at may
    have left its key with an empty history. *)
Lemma for_each_correlations_run (n : Z) (l : list Correlation) (w : World) :
  exists o cm',
    for_each l (track_correlation n) w
    = (o, with_state (set_correlation_matrix cm' (state w)) w)
    /\ (forall k,
          history_of k cm'
          = history_of k
              (fold_left (record_correlation n)
                 (take_while complete_correlation l)
                 (correlation_matrix (state w))))
    /\ (PyDict.unique_keys (correlation_matrix (state w)) ->
        PyDict.unique_keys cm')
    /\ (forallb complete_correlation l = true ->
        o = Return tt
        /\ cm' = fold_left (record_correlation n) l
                   (correlation_matrix (state w)))
    /\ (forallb complete_correlation l = false -> exists e, o = Raise e).
Proof.
  revert w. induction l as [|c l IH]; intros w.
  - exists (Return tt), (correlation_matrix (state w)). simpl. unfold ret.
    rewrite set_correlation_matrix_same. repeat split; auto. discriminate.
  - cbn [for_each take_while forallb]. unfold bind.
    destruct (complete_correlation c) eqn:Hc.
    + rewrite (track_correlation_exact n c w Hc).
      destruct (IH (with_state
                      (set_correlation_matrix
                         (record_correlation n (correlation_matrix (state w))
                            c) (state w)) w))
        as (o & cm' & E & H & U & Ht & Hf).
      rewrite E. exists o, cm'. split; [reflexivity|].
      split; [exact H|]. split; [|split; assumption].
      intros U0. apply U. simpl. unfold record_correlation.
      destruct (correlation_key c);
        [now apply record_entry_unique_keys|exact U0].
    + destruct (track_correlation_raises n c w Hc) as (e & cm' & E & H & U).
      rewrite E. exists (Raise e), cm'. split; [reflexivity|].
      split; [exact H|]. split; [exact U|]. split; [discriminate|eauto].
Qed.

(** What a call of [update_intelligence] leaves, whatever the discovery:
    it returns without raising, [True] exactly for a complete discovery;
    the counter of videos is advanced; the two totals are advanced by the
    lengths that were reached; the records that were reached are filed;
    and the timeline has its new row exactly when the call returns
    [True]. *)
Lemma update_intelligence_effect (d : Discoveries) (n : Z) (now : string)
    (w : World) :
  exists cm',
    update_intelligence d n now w
    = (Return (complete_discoveries d),
       with_state
         {| videos_processed := videos_processed (state w) + 1;
            total_patterns := total_patterns (state w) + counted_patterns d;
            total_correlations :=
              total_correlations (state w) + counted_correlations d;
            unknown_space_used := unknown_space_used (state w);
            creation_time := creation_time (state w);
            discoveries :=
              if complete_discoveries d
              then discoveries (state w) ++ [timeline_row d n now]
              else discoveries (state w);
            pattern_strengths :=
              fold_left (record_pattern n) (merged_patterns d)
                (pattern_strengths (state w));
            correlation_matrix := cm';
            meta_patterns := meta_patterns (state w);
            last_checkpoint := last_checkpoint (state w) |} w)
    /\ (forall k,
          history_of k cm'
          = history_of k
              (fold_left (record_correlation n) (merged_correlations d)
                 (correlation_matrix (state w))))
    /\ (PyDict.unique_keys (correlation_matrix (state w)) ->
        PyDict.unique_keys cm')
    /\ (complete_discoveries d = true ->
        cm' = fold_left (record_correlation n) (get_list (d_correlations d))
                (correlation_matrix (state w))).
Proof.
  unfold update_intelligence, update_intelligence_body, try_except,
    complete_discoveries, counted_patterns, counted_correlations,
    merged_patterns, merged_correlations, timeline_row.
  rewrite bind_modify.
  destruct (unsized (d_patterns d)) eqn:Up.
  { rewrite (len_of_unsized _ Up), bind_raise. simpl.
    exists (correlation_matrix (state w)).
    split; [|split; [reflexivity|split; [auto|discriminate]]].
    destruct w as [[] ? ?]. simpl. now rewrite !Z.add_0_r. }
  rewrite (len_of_sized _ Up), bind_ret, bind_modify.
  destruct (unsized (d_correlations d)) eqn:Uc.
  { rewrite (len_of_unsized _ Uc), bind_raise. simpl.
    exists (correlation_matrix (state w)).
    split; [|split; [reflexivity|split; [auto|discriminate]]].
    destruct w as [[] ? ?]. simpl. now rewrite !Z.add_0_r. }
  rewrite (len_of_sized _ Uc), bind_ret, bind_modify.
  rewrite (iter_of_sized _ Up), bind_ret.
  cbn [negb andb orb].
  match goal with
  | |- context [bind (for_each _ (track_pattern n)) _ ?x] => set (w1 := x)
  end.
  unfold bind at 1.
  destruct (for_each_patterns_run n (get_list (d_patterns d)) w1)
    as (o1 & E1 & T1 & F1).
  rewrite E1.
  destruct (forallb complete_pattern (get_list (d_patterns d))) eqn:P.
  2:{ destruct (F1 eq_refl) as [e ->]. rewrite andb_false_r. simpl.
      exists (correlation_matrix (state w)).
      split; [|split; [reflexivity|split; [auto|discriminate]]].
      destruct w as [[] ? ?]. reflexivity. }
  rewrite (T1 eq_refl), (take_while_all _ _ P). cbn beta iota.
  rewrite (iter_of_sized _ Uc), bind_ret.
  match goal with
  | |- context [bind (for_each _ (track_correlation n)) _ ?x] =>
      set (w2 := x)
  end.
  unfold bind at 1.
  destruct (for_each_correlations_run n (get_list (d_correlations d)) w2)
    as (o2 & cm' & E2 & H2 & U2 & T2 & F2).
  rewrite E2. exists cm'.
  destruct (forallb complete_correlation (get_list (d_correlations d)))
    eqn:C.
  2:{ destruct (F2 eq_refl) as [e ->]. rewrite !andb_false_r. simpl.
      split; [|split; [exact H2|split; [exact U2|discriminate]]].
      destruct w as [[] ? ?]. reflexivity. }
  destruct (T2 eq_refl) as [-> Ecm].
  cbn beta iota. rewrite !bind_ret, !andb_true_r.
  destruct (unsized (d_unknown d)) eqn:Uu.
  { rewrite (len_of_unsized _ Uu), bind_raise. simpl.
    split; [|split; [exact H2|split; [exact U2|discriminate]]].
    destruct w as [[] ? ?]. reflexivity. }
  rewrite (len_of_sized _ Uu), bind_ret, bind_modify. simpl.
  split; [|split; [exact H2|split; [exact U2|intros _; exact Ecm]]].
  destruct w as [[] ? ?]. reflexivity.
Qed.

Lemma history_of_recorded_patterns (n : Z) (k : string) (l : list Pattern) :
  forall d,
    history_of k (fold_left (record_pattern n) l d)
    = history_of k d ++ map (strength_entry n) (filter (pattern_under k) l).
Proof.
  induction l as [|p l IH]; intros d; simpl; [now rewrite app_nil_r|].
  rewrite IH. unfold record_pattern, pattern_under.
  destruct (pattern_key p) as [key|]; [|reflexivity].
  rewrite history_of_record_entry.
  destruct (String.eqb key k); [|reflexivity].
  simpl. now rewrite <- app_assoc.
Qed.

Lemma history_of_recorded_correlations (n : Z) (k : string)
    (l : list Correlation) :
  forall d,
    history_of k (fold_left (record_correlation n) l d)
    = history_of k d
      ++ map (correlation_entry n) (filter (correlation_under k) l).
Proof.
  induction l as [|c l IH]; intros d; simpl; [now rewrite app_nil_r|].
  rewrite IH. unfold record_correlation, correlation_under.
  destruct (correlation_key c) as [key|]; [|reflexivity].
  rewrite history_of_record_entry.
  destruct (String.eqb key k); [|reflexivity].
  simpl. now rewrite <- app_assoc.
Qed.

(** What a call of [update_intelligence] leaves, in short: the histories
    have grown by entries of the call's index, and stay the histories of
    dictionaries. *)
Lemma update_intelligence_run (d : Discoveries) (n : Z) (now : string)
    (w : World) :
  exists (b : bool) ps' cm',
    update_intelligence d n now w
    = (Return b,
       with_state
         {| videos_processed := videos_processed (state w) + 1;
            total_patterns := total_patterns (state w) + counted_patterns d;
            total_correlations :=
              total_correlations (state w) + counted_correlations d;
            unknown_space_used := unknown_space_used (state w);
            creation_time := creation_time (state w);
            discoveries :=
              if b then discoveries (state w) ++ [timeline_row d n now]
              else discoveries (state w);
            pattern_strengths := ps';
            correlation_matrix := cm';
            meta_patterns := meta_patterns (state w);
            last_checkpoint := last_checkpoint (state w) |} w)
    /\ extends se_video n (pattern_strengths (state w)) ps'
    /\ extends ce_video n (correlation_matrix (state w)) cm'.
Proof.
  destruct (update_intelligence_effect d n now w) as (cm' & E & H & U & _).
  do 3 eexists. split; [exact E|]. split; split.
  - intros k. eexists. split; [apply history_of_recorded_patterns|].
    apply Forall_map, Forall_forall. reflexivity.
  - apply recorded_patterns_unique_keys.
  - intros k. eexists. rewrite H.
    split; [apply history_of_recorded_correlations|].
    apply Forall_map, Forall_forall. reflexivity.
  - exact U.
Qed.

Lemma complete_discoveries_records (d : Discoveries) :
  complete_discoveries d = true ->
  forallb complete_pattern (get_list (d_patterns d)) = true
  /\ forallb complete_correlation (get_list (d_correlations d)) = true.
Proof.
  unfold complete_discoveries. intros H.
  repeat (apply andb_true_iff in H as [H ?]). now split.
Qed.

(** A call on a complete discovery. *)
Lemma update_intelligence_complete (d : Discoveries) (n : Z) (now : string)
    (w : World) :
  complete_discoveries d = true ->
  update_intelligence d n now w
  = (Return true,
     with_state
       {| videos_processed := videos_processed (state w) + 1;
          total_patterns :=
            total_patterns (state w) + len (get_list (d_patterns d));
          total_correlations :=
            total_correlations (state w) + len (get_list (d_correlations d));
          unknown_space_used := unknown_space_used (state w);
          creation_time := creation_time (state w);
          discoveries := discoveries (state w) ++ [timeline_row d n now];
          pattern_strengths :=
            fold_left (record_pattern n) (get_list (d_patterns d))
              (pattern_strengths (state w));
          correlation_matrix :=
            fold_left (record_correlation n) (get_list (d_correlations d))
              (correlation_matrix (state w));
          meta_patterns := meta_patterns (state w);
          last_checkpoint := last_checkpoint (state w) |} w).
Proof.
  intros H.
  destruct (update_intelligence_effect d n now w) as (cm' & E & _ & _ & C).
  rewrite E, (C H), H.
  unfold complete_discoveries in H.
  repeat (apply andb_true_iff in H as [H ?]).
  apply negb_true_iff in H.
  repeat match goal with
         | H : negb _ = true |- _ => apply negb_true_iff in H
         end.
  unfold counted_patterns, counted_correlations, merged_patterns.
  rewrite H. cbn [orb].
  repeat match goal with H : unsized _ = false |- _ => rewrite H end.
  rewrite take_while_all by assumption. reflexivity.
Qed.

Lemma update_intelligence_incomplete (d : Discoveries) (n : Z) (now : string)
    (w : World) :
  complete_discoveries d = false ->
  fst (update_intelligence d n now w) = Return false.
Proof.
  intros H.
  destruct (update_intelligence_effect d n now w) as (cm' & E & _).
  now rewrite E, H.
Qed.

End Merge.

Lemma update_intelligence_returns (d : Discoveries) (n : Z) (now : string)
    (w : World) :
  exists b, fst (update_intelligence d n now w) = Return b.
Proof.
  destruct (update_intelligence_run d n now w) as (b & ? & ? & E & _).
  exists b. now rewrite E.
Qed.

(** The two dictionaries of the state stay dictionaries. *)
Lemma update_intelligence_unique_keys (d : Discoveries) (n : Z)
    (now : string) (w : World) :
  let w' := snd (update_intelligence d n now w) in
  (PyDict.unique_keys (pattern_strengths (state w)) ->
   PyDict.unique_keys (pattern_strengths (state w')))
  /\ (PyDict.unique_keys (correlation_matrix (state w)) ->
      PyDict.unique_keys (correlation_matrix (state w'))).
Proof.
  cbv zeta.
  destruct (update_intelligence_run d n now w)
    as (b & ps' & cm' & E & [_ U1] & [_ U2]).
  rewrite E. simpl. now split.
Qed.

(** ** Monotonicity of the counter *)

Lemma run_updates_counts (calls : list Call) :
  forall (w : World) (i : nat) (r : Outcome bool) (wi : World),
    Forall (fun step => fst step = Return true) (run_updates calls w) ->
    nth_error (run_updates calls w) i = Some (r, wi) ->
    videos_processed (state wi)
    = videos_processed (state w) + (Z.of_nat i + 1)
    /\ len (discoveries (state wi))
       = len (discoveries (state w)) + (Z.of_nat i + 1).
Proof.
  induction calls as [|c rest IH]; intros w i r wi Ok Hi.
  - destruct i; discriminate.
  - simpl in Ok, Hi. inversion Ok as [|? ? Hc Hrest]; subst.
    destruct (update_intelligence_run (call_discoveries c)
                (call_video_number c) (call_now c) w)
      as (b & ps' & cm' & E & _).
    rewrite E in *. simpl in Hc. injection Hc as ->.
    destruct i as [|j].
    + simpl in Hi. injection Hi as <- <-. simpl. unfold len.
      rewrite length_app. simpl. lia.
    + simpl in Hi. destruct (IH _ j r wi Hrest Hi) as [V L].
      rewrite V, L. simpl. unfold len. rewrite length_app. simpl. lia.
Qed.

(** C1. In a sequence of calls of [update_intelligence] that all report
    success, the [i]-th call (from 0) leaves [videos_processed] at its
    starting value plus [i + 1], one more per call, and, when the sequence
    starts from a state whose counter equals the length of its discoveries
    timeline (as the fresh state does), the counter equals the length of
    the timeline after each call. *)
Theorem videos_processed_counts_discoveries (calls : list Call) (w : World)
    (i : nat) (r : Outcome bool) (wi : World) :
  Forall (fun step => fst step = Return true) (run_updates calls w) ->
  nth_error (run_updates calls w) i = Some (r, wi) ->
  videos_processed (state wi) = videos_processed (state w) + (Z.of_nat i + 1)
  /\ (videos_processed (state w) = len (discoveries (state w)) ->
      videos_processed (state wi) = len (discoveries (state wi))).
Proof.
  intros Ok Hi. destruct (run_updates_counts calls w i r wi Ok Hi) as [V L].
  split; [exact V|]. intros E. rewrite V, L, E. reflexivity.
Qed.

Lemma videos_processed_counts_discoveries_witness :
  let wi :=
    snd (nth 2 (run_updates Sample.three_calls Sample.cold_start)
           (Return true, Sample.cold_start)) in
  videos_processed (state wi) = 3
  /\ videos_processed (state wi) = len (discoveries (state wi)).
Proof.
  cbv zeta.
  pose proof
    (videos_processed_counts_discoveries
       Sample.three_calls Sample.cold_start 2 (Return true)
       (snd (nth 2 (run_updates Sample.three_calls Sample.cold_start)
               (Return true, Sample.cold_start)))
       ltac:(vm_compute; repeat constructor)
       ltac:(vm_compute; reflexivity)) as [V E].
  split; [exact V | exact (E eq_refl)].
Defined.

(** ** The merge step is not atomic *)

(** C2, as stated, fails: a discovery whose second pattern record has no
    [type] makes [update_intelligence] report failure, and the state it
    leaves is not the state it was given. *)
Lemma update_intelligence_not_atomic :
  fst (update_intelligence Sample.ill_formed 3 "2024-01-01T00:00:01"
         Sample.cold_start) = Return false
  /\ state (snd (update_intelligence Sample.ill_formed 3
                   "2024-01-01T00:00:01" Sample.cold_start))
     <> state Sample.cold_start.
Proof.
  split; [vm_compute; reflexivity|].
  intros E. apply (f_equal videos_processed) in E.
  vm_compute in E. discriminate E.
Qed.

(** C2, amended. A call of [update_intelligence] that does not report
    success returns [False] without raising; the discovery is then not
    complete (it has an entry without a length, or a record without a key
    the call reads or with a description it cannot slice). The call
    appends no row to the discoveries timeline and leaves the checkpoint
    files and every part of the world it does not merge into exactly as
    they were. It undoes nothing: [videos_processed] has been incremented;
    [total_patterns] and [total_correlations] have been advanced by the
    lengths that were taken before the exception, the one after the other;
    and every history of [pattern_strengths] and of [correlation_matrix]
    is its former self followed by one entry for each record filed under
    its key before the exception, in the order of the records, each with
    the index of the call: the loop over the patterns runs up to the first
    record that is not complete, the loop over the correlations runs when
    the first has come to its end, and neither starts when one of the two
    lengths could not be taken. ([pattern_strengths] is exactly what
    filing those records makes of it; in [correlation_matrix] a record
    that lacks only its value may have left the key of its two features
    with an empty history.) *)
Theorem update_intelligence_failure_keeps_partial_merge
    (d : Discoveries) (n : Z) (now : string) (w : World) :
  fst (update_intelligence d n now w) <> Return true ->
  let w' := snd (update_intelligence d n now w) in
  fst (update_intelligence d n now w) = Return false
  /\ complete_discoveries d = false
  /\ discoveries (state w') = discoveries (state w)
  /\ videos_processed (state w') = videos_processed (state w) + 1
  /\ total_patterns (state w')
     = total_patterns (state w)
       + (if unsized (d_patterns d) then 0
          else len (get_list (d_patterns d)))
  /\ total_correlations (state w')
     = total_correlations (state w)
       + (if unsized (d_patterns d) || unsized (d_correlations d) then 0
          else len (get_list (d_correlations d)))
  /\ (forall k,
        history_of k (pattern_strengths (state w'))
        = history_of k (pattern_strengths (state w))
          ++ map (strength_entry n)
               (filter (pattern_under k) (merged_patterns d)))
  /\ (forall k,
        history_of k (correlation_matrix (state w'))
        = history_of k (correlation_matrix (state w))
          ++ map (correlation_entry n)
               (filter (correlation_under k) (merged_correlations d)))
  /\ pattern_strengths (state w')
     = fold_left (record_pattern n) (merged_patterns d)
         (pattern_strengths (state w))
  /\ merged_patterns d
     = (if unsized (d_patterns d) || unsized (d_correlations d) then []
        else take_while complete_pattern (get_list (d_patterns d)))
  /\ merged_correlations d
     = (if unsized (d_patterns d) || unsized (d_correlations d)
           || negb (forallb complete_pattern (get_list (d_patterns d)))
        then []
        else take_while complete_correlation (get_list (d_correlations d)))
  /\ meta_patterns (state w') = meta_patterns (state w)
  /\ creation_time (state w') = creation_time (state w)
  /\ last_checkpoint (state w') = last_checkpoint (state w)
  /\ unknown_space_used (state w') = unknown_space_used (state w)
  /\ unknown_space w' = unknown_space w
  /\ filesystem w' = filesystem w.
Proof.
  intros F. cbv zeta.
  destruct (update_intelligence_effect d n now w) as (cm' & E & H & _).
  rewrite E in *. simpl in *.
  destruct (complete_discoveries d); [now elim F|].
  repeat split.
  - intros k. apply history_of_recorded_patterns.
  - intros k. rewrite H. apply history_of_recorded_correlations.
Qed.

Lemma update_intelligence_failure_keeps_partial_merge_witness :
  let w' :=
    snd (update_intelligence Sample.ill_formed 3 "2024-01-01T00:00:01"
           Sample.cold_start) in
  discoveries (state w') = []
  /\ videos_processed (state w') = 1
  /\ total_patterns (state w') = 2
  /\ total_correlations (state w') = 1
  /\ history_of "cross_modal_Voice pitch drop + s"
       (pattern_strengths (state w'))
     = [Sample.entry 3 0.9]
  /\ history_of "facial.landmarks[123]_audio.prosody[45]"
       (correlation_matrix (state w'))
     = [].
Proof.
  cbv zeta.
  pose proof
    (update_intelligence_failure_keeps_partial_merge
       Sample.ill_formed 3 "2024-01-01T00:00:01" Sample.cold_start
       ltac:(vm_compute; discriminate))
    as (_ & _ & D & V & P & C & Hp & Hc & _).
  split; [exact D|]. split; [exact V|]. split; [exact P|].
  split; [exact C|]. split.
  - exact (Hp "cross_modal_Voice pitch drop + s"%string).
  - exact (Hc "facial.landmarks[123]_audio.prosody[45]"%string).
Defined.

(** The same on entries and descriptions of the wrong type. With
    [correlations] set to [None] the call stops at the second length:
    [total_patterns] is advanced, [total_correlations] is not, and no
    record is filed. With a description set to [None] the loop over the
    patterns stops at that record: the one before it is filed, the one
    after it and the correlations are not. With a correlation that lacks
    its value, the correlation before it is filed and its own key is left
    with an empty history. With [unknown] set to [None] everything is
    merged, and the call fails at the row it does not append. *)
Example update_intelligence_stops_where_it_fails :
  let run d :=
    update_intelligence d 3 "2024-01-01T00:00:01" Sample.cold_start in
  let totals w :=
    (videos_processed (state w), total_patterns (state w),
     total_correlations (state w), len (discoveries (state w))) in
  (fst (run Fixture.correlations_none) = Return false
   /\ totals (snd (run Fixture.correlations_none)) = (1, 1, 0, 0)
   /\ pattern_strengths (state (snd (run Fixture.correlations_none))) = [])
  /\ (fst (run Fixture.description_none) = Return false
      /\ totals (snd (run Fixture.description_none)) = (1, 3, 1, 0)
      /\ pattern_strengths (state (snd (run Fixture.description_none)))
         = [("cross_modal_Voice pitch drop + s"%string, [Sample.entry 3 0.9])]
      /\ correlation_matrix (state (snd (run Fixture.description_none))) = [])
  /\ (fst (run Fixture.valueless) = Return false
      /\ totals (snd (run Fixture.valueless)) = (1, 1, 2, 0)
      /\ correlation_matrix (state (snd (run Fixture.valueless)))
         = [ ("facial.landmarks[123]_audio.prosody[45]"%string,
              [ {| ce_video := 3; ce_value := 0.25 |} ]);
             ("audio.energy_facial.head_pose"%string, []) ])
  /\ (fst (run Fixture.unknown_none) = Return false
      /\ totals (snd (run Fixture.unknown_none)) = (1, 1, 1, 0)
      /\ pattern_strengths (state (snd (run Fixture.unknown_none)))
         = [("cross_modal_Voice pitch drop + s"%string, [Sample.entry 3 0.9])]
      /\ correlation_matrix (state (snd (run Fixture.unknown_none)))
         = [ ("facial.landmarks[123]_audio.prosody[45]"%string,
              [ {| ce_video := 3; ce_value := 0.25 |} ]) ]).
Proof. cbv zeta. repeat split; vm_compute; reflexivity. Qed.

(** ** Order of the histories *)

Lemma run_updates_ordered (calls : list Call) :
  forall (w : World) (m : Z) (i : nat) (r : Outcome bool) (wi : World),
    Sorted Z.le (m :: map call_video_number calls) ->
    ordered_upto se_video m (pattern_strengths (state w)) ->
    ordered_upto ce_video m (correlation_matrix (state w)) ->
    nth_error (run_updates calls w) i = Some (r, wi) ->
    exists m',
      ordered_upto se_video m' (pattern_strengths (state wi))
      /\ ordered_upto ce_video m' (correlation_matrix (state wi)).
Proof.
  induction calls as [|c rest IH]; intros w m i r wi S Op Oc Hi.
  - destruct i; discriminate.
  - simpl in S, Hi. inversion S as [|? ? S' Hd]; subst.
    inversion Hd as [|? ? Le]; subst.
    destruct (update_intelligence_run (call_discoveries c)
                (call_video_number c) (call_now c) w)
      as (b & ps' & cm' & E & [G1 _] & [G2 _]).
    rewrite E in Hi.
    pose proof (ordered_grows se_video _ _ _ _ Le Op G1) as Op'.
    pose proof (ordered_grows ce_video _ _ _ _ Le Oc G2) as Oc'.
    destruct i as [|j].
    + simpl in Hi. injection Hi as <- <-.
      exists (call_video_number c). split; assumption.
    + simpl in Hi.
      refine (IH _ (call_video_number c) j r wi S' _ _ Hi);
        [exact Op' | exact Oc'].
Qed.

(** C7. Calls of [update_intelligence] made with non-decreasing indices,
    from a state whose histories are in index order and hold no index
    above the first call's (the fresh state has none), leave after every
    call every history of [pattern_strengths] and of [correlation_matrix]
    in non-decreasing index order, for successful calls as for any
    others; and entries are inserted in processing order: one call leaves
    each history as it was, with the entries of that call's index appended
    after it. *)
Theorem histories_in_processing_order (calls : list Call) (w : World)
    (m : Z) (i : nat) (r : Outcome bool) (wi : World) :
  Sorted Z.le (m :: map call_video_number calls) ->
  ordered_upto se_video m (pattern_strengths (state w)) ->
  ordered_upto ce_video m (correlation_matrix (state w)) ->
  nth_error (run_updates calls w) i = Some (r, wi) ->
  (forall k h, PyDict.get k (pattern_strengths (state wi)) = Some h ->
     Sorted Z.le (map se_video h))
  /\ (forall k h, PyDict.get k (correlation_matrix (state wi)) = Some h ->
        Sorted Z.le (map ce_video h))
  /\ (forall d n now w0,
        let w1 := snd (update_intelligence d n now w0) in
        grows se_video n (pattern_strengths (state w0))
          (pattern_strengths (state w1))
        /\ grows ce_video n (correlation_matrix (state w0))
             (correlation_matrix (state w1))).
Proof.
  intros S Op Oc Hi.
  destruct (run_updates_ordered calls w m i r wi S Op Oc Hi) as (m' & P & C).
  split; [|split].
  - intros k h G. now destruct (P k h G).
  - intros k h G. now destruct (C k h G).
  - intros d n now w0. cbv zeta.
    destruct (update_intelligence_run d n now w0)
      as (b & ps' & cm' & E & [G1 _] & [G2 _]).
    rewrite E. simpl. now split.
Qed.

Lemma histories_in_processing_order_witness :
  let wi :=
    snd (nth 2 (run_updates Sample.three_calls Sample.cold_start)
           (Return true, Sample.cold_start)) in
  Sorted Z.le
    (map se_video
       (history_of "cross_modal_Voice pitch drop + s"
          (pattern_strengths (state wi))))
  /\ Sorted Z.le
       (map ce_video
          (history_of "facial.landmarks[123]_audio.prosody[45]"
             (correlation_matrix (state wi)))).
Proof.
  cbv zeta.
  pose proof
    (histories_in_processing_order
       Sample.three_calls Sample.cold_start 0 2 (Return true)
       (snd (nth 2 (run_updates Sample.three_calls Sample.cold_start)
               (Return true, Sample.cold_start)))
       ltac:(vm_compute; repeat constructor; discriminate)
       ltac:(intros k h; discriminate)
       ltac:(intros k h; discriminate)
       ltac:(vm_compute; reflexivity)) as (P & C & _).
  split.
  - exact (P "cross_modal_Voice pitch drop + s"%string _ eq_refl).
  - exact (C "facial.landmarks[123]_audio.prosody[45]"%string _ eq_refl).
Defined.

(** ** Ranking *)

(** The comparisons of doubles are those of an order, NaN apart. *)
Module DoubleFacts.

Lemma gtb_leb (x y : double) :
  double_gtb y x = true -> double_leb x y = true.
Proof. revert x y. double_cases. Qed.

Lemma not_gtb_leb (x y : double) :
  is_nan x = false -> is_nan y = false ->
  double_gtb y x = false -> double_leb y x = true.
Proof. revert x y. double_cases. Qed.

Lemma leb_trans (x y z : double) :
  double_leb x y = true -> double_leb y z = true -> double_leb x z = true.
Proof. revert x y z. double_cases. Qed.

Lemma gtb_not_eqb (x y q : double) :
  double_gtb y x = true -> double_eqb x q = true -> double_eqb y q = true ->
  False.
Proof. revert x y q. double_cases. Qed.

End DoubleFacts.

Lemma Qgtb_true (x y : Q) : Qgtb x y = true <-> (y < x)%Q.
Proof.
  unfold Qgtb. rewrite negb_true_iff, <- not_true_iff_false, Qle_bool_iff.
  split; [apply Qnot_le_lt | apply Qlt_not_le].
Qed.

Lemma Qgtb_false (x y : Q) : Qgtb x y = false <-> (x <= y)%Q.
Proof. unfold Qgtb. now rewrite negb_false_iff, Qle_bool_iff. Qed.

Section SortFacts.

Context {A : Type} (key : A -> double).

Lemma insert_desc_perm (x : A) (l : list A) :
  Permutation (insert_desc key x l) (x :: l).
Proof.
  induction l as [|y l IH]; simpl; [reflexivity|].
  destruct (double_gtb (key y) (key x)); [|reflexivity].
  rewrite IH. apply perm_swap.
Qed.

Lemma sort_reverse_perm (l : list A) : Permutation (sort_reverse key l) l.
Proof.
  induction l as [|x l IH]; simpl; [reflexivity|].
  rewrite insert_desc_perm. now constructor.
Qed.

Lemma insert_desc_sorted (x : A) (l : list A) :
  Forall (fun a => is_nan (key a) = false) (x :: l) ->
  Sorted (not_below key) l -> Sorted (not_below key) (insert_desc key x l).
Proof.
  intros N S. inversion N as [|? ? Nx Nl]; subst. clear N.
  induction S as [|y l S IH H]; simpl; [repeat constructor|].
  inversion Nl as [|? ? Ny Nl']; subst.
  destruct (double_gtb (key y) (key x)) eqn:G.
  - apply DoubleFacts.gtb_leb in G. constructor; [now apply IH|].
    destruct l as [|z l]; simpl.
    + constructor. exact G.
    + inversion H; subst.
      destruct (double_gtb (key z) (key x)); constructor; assumption.
  - apply DoubleFacts.not_gtb_leb in G; [|assumption..].
    repeat constructor; assumption.
Qed.

Lemma sort_reverse_sorted (l : list A) :
  Forall (fun a => is_nan (key a) = false) l ->
  Sorted (not_below key) (sort_reverse key l).
Proof.
  induction l as [|x l IH]; intros N; simpl; [constructor|].
  inversion N as [|? ? Nx Nl]; subst.
  apply insert_desc_sorted; [|now apply IH].
  constructor; [exact Nx|].
  apply (Permutation_Forall (Permutation_sym (sort_reverse_perm l))).
  exact Nl.
Qed.

Lemma not_below_trans : Relations_1.Transitive (not_below key).
Proof.
  intros a b c Hab Hbc. unfold not_below in *.
  eapply DoubleFacts.leb_trans; eauto.
Qed.

Lemma sort_reverse_strongly_sorted (l : list A) :
  Forall (fun a => is_nan (key a) = false) l ->
  StronglySorted (not_below key) (sort_reverse key l).
Proof.
  intros N. apply Sorted_StronglySorted; [exact not_below_trans|].
  now apply sort_reverse_sorted.
Qed.

Lemma insert_desc_stable (q : double) (x : A) (l : list A) :
  of_key key q (insert_desc key x l) = of_key key q (x :: l).
Proof.
  induction l as [|y l IH]; [reflexivity|].
  simpl insert_desc.
  destruct (double_gtb (key y) (key x)) eqn:G; [|reflexivity].
  unfold of_key in *. simpl filter in *. rewrite IH.
  destruct (double_eqb (key x) q) eqn:Ex, (double_eqb (key y) q) eqn:Ey;
    try reflexivity.
  destruct (DoubleFacts.gtb_not_eqb _ _ _ G Ex Ey).
Qed.

Lemma sort_reverse_stable (q : double) (l : list A) :
  of_key key q (sort_reverse key l) = of_key key q l.
Proof.
  induction l as [|x l IH]; [reflexivity|].
  simpl sort_reverse. rewrite insert_desc_stable.
  unfold of_key in *. simpl. now rewrite IH.
Qed.

End SortFacts.

Lemma forall_firstn {A : Type} (P : A -> Prop) (n : nat) (l : list A) :
  Forall P l -> Forall P (firstn n l).
Proof.
  intros F. revert n. induction F as [|x l Hx F IH]; intros [|n]; simpl;
    constructor; auto.
Qed.

Lemma strongly_sorted_firstn {A : Type} (R : A -> A -> Prop) (n : nat)
    (l : list A) :
  StronglySorted R l -> StronglySorted R (firstn n l).
Proof.
  intros S. revert n. induction S as [|x l S IH F]; intros [|n]; simpl;
    constructor; [apply IH|now apply forall_firstn].
Qed.

Lemma slice_to_prefix {A : Type} (stop : Z) (l : list A) :
  exists rest, l = slice_to stop l ++ rest.
Proof.
  unfold slice_to. destruct (0 <=? stop);
    eexists; symmetry; apply firstn_skipn.
Qed.

Lemma slice_to_length {A : Type} (stop : Z) (l : list A) :
  len (slice_to stop l)
  = if 0 <=? stop then Z.min stop (len l) else Z.max 0 (len l + stop).
Proof.
  unfold slice_to, len. destruct (0 <=? stop) eqn:E;
    rewrite length_firstn; lia.
Qed.

Lemma pattern_with_strength_spec (item : string * list StrengthEntry)
    (r : TopPattern) :
  In r (pattern_with_strength item) ->
  snd item <> []
  /\ tp_pattern r = fst item
  /\ average_strength r = np_mean (map se_strength (snd item))
  /\ occurrences r = len (snd item).
Proof.
  destruct item as [k [|first h]]; simpl; [easy|].
  intros [<-|[]]. simpl. repeat split. discriminate.
Qed.

Lemma patterns_with_strength_keys (d : PyDict.t (list StrengthEntry)) :
  map tp_pattern (flat_map pattern_with_strength d)
  = map fst (filter (fun item => negb (Nat.eqb (List.length (snd item)) 0)) d).
Proof.
  induction d as [|[k [|first h]] d IH]; simpl; [reflexivity|exact IH|].
  now rewrite IH.
Qed.

(** C3, as stated, fails: after two successful calls that record the
    strength 0.5 once for ["once_"], inserted first, and twice for
    ["twice_"], the two keys have the same mean and
    [_get_top_patterns] lists ["once_"] first, where the documented
    tie-break (occurrence count descending) puts ["twice_"] first. *)
Lemma top_patterns_ties_not_by_count :
  pattern_strengths Sample.tied_patterns
  = [ ("once_"%string, [Sample.entry 0 0.5]);
      ("twice_"%string, [Sample.entry 0 0.5; Sample.entry 1 0.5]) ]
  /\ exists a b,
       _get_top_patterns Sample.tied_patterns 2 = [a; b]
       /\ tp_pattern a = "once_"%string
       /\ tp_pattern b = "twice_"%string
       /\ double_eqb (average_strength a) (average_strength b) = true
       /\ occurrences a = 1 /\ occurrences b = 2
       /\ documented_before b a = true.
Proof.
  split; [vm_compute; reflexivity|].
  do 2 eexists. split; [vm_compute; reflexivity|].
  repeat split; vm_compute; reflexivity.
Qed.

(** C3, amended. For every state and every limit, [_get_top_patterns]
    returns the first records of a ranking of the keys with a non-empty
    history, cut by the slice [[:limit]] ([limit] records when there are
    that many, all but the last [-limit] for a negative limit). The
    ranking holds one record per such key, with the mean [np.mean]
    computes of all recorded strengths of the key, a double rounded as
    numpy rounds it, and their count. Provided no mean is NaN, the ranking
    is sorted by that mean descending, and keys whose means are equal
    doubles keep the order in which [pattern_strengths] holds them, which
    is the order of first insertion: the sort is stable and consults
    neither the occurrence count nor the key. With strengths A:[0.9],
    B:[0.5,0.7], C:[0.95,0.95] and limit 2 the result is [C, A]; with
    B:[0.2], A:[0.1,0.2,0.3] it is [A, B], the second mean being
    0.20000000000000004. *)
Theorem top_patterns_sorted_by_mean_stably (s : State) (limit : Z) :
  Forall (fun r => is_nan (average_strength r) = false)
    (patterns_with_strength s) ->
  let candidates := patterns_with_strength s in
  let ranking := sort_reverse average_strength candidates in
  let top := _get_top_patterns s limit in
  (exists rest, ranking = top ++ rest)
  /\ len top
     = (if 0 <=? limit then Z.min limit (len ranking)
        else Z.max 0 (len ranking + limit))
  /\ StronglySorted (not_below average_strength) top
  /\ Permutation ranking candidates
  /\ (forall q,
        of_key average_strength q ranking
        = of_key average_strength q candidates)
  /\ map tp_pattern candidates
     = map fst
         (filter (fun item => negb (Nat.eqb (List.length (snd item)) 0))
            (PyDict.items (pattern_strengths s)))
  /\ (forall r, In r top ->
        exists h,
          In (tp_pattern r, h) (PyDict.items (pattern_strengths s))
          /\ h <> []
          /\ average_strength r = np_mean (map se_strength h)
          /\ occurrences r = len h)
  /\ map tp_pattern (_get_top_patterns Sample.three_patterns 2)
     = ["C"; "A"]%string
  /\ map tp_pattern (_get_top_patterns Fixture.rounded_means 2)
     = ["A"; "B"]%string.
Proof.
  intros N. cbv zeta. unfold _get_top_patterns.
  set (candidates := patterns_with_strength s) in *.
  set (ranking := sort_reverse average_strength candidates).
  pose proof (slice_to_prefix limit ranking) as [rest Hrest].
  repeat apply conj.
  - now exists rest.
  - apply slice_to_length.
  - unfold slice_to. destruct (0 <=? limit);
      apply strongly_sorted_firstn, sort_reverse_strongly_sorted; exact N.
  - apply sort_reverse_perm.
  - intros q. apply sort_reverse_stable.
  - apply patterns_with_strength_keys.
  - intros r Hr.
    assert (In r candidates) as Hc.
    { apply (Permutation_in r (sort_reverse_perm average_strength candidates)).
      fold ranking. rewrite Hrest. apply in_or_app. now left. }
    apply in_flat_map in Hc. destruct Hc as ([k h] & Hi & Hp).
    destruct (pattern_with_strength_spec _ _ Hp) as (N' & K & M & O).
    simpl in *. exists h. rewrite K. now repeat split.
  - vm_compute. reflexivity.
  - vm_compute. reflexivity.
Qed.

Lemma top_patterns_sorted_by_mean_stably_witness :
  StronglySorted (not_below average_strength)
    (_get_top_patterns Fixture.rounded_means 2)
  /\ map tp_pattern (_get_top_patterns Fixture.rounded_means 2)
     = ["A"; "B"]%string.
Proof.
  pose proof
    (top_patterns_sorted_by_mean_stably Fixture.rounded_means 2
       ltac:(vm_compute; repeat constructor))
    as (_ & _ & S & _ & _ & _ & _ & _ & R).
  split; [exact S | exact R].
Defined.

(** ** Emergence events *)

Lemma emergence_event_spec (item : string * list StrengthEntry)
    (ev : EmergenceEvent) :
  In ev (emergence_event item) <->
  exists first rest,
    snd item = first :: rest
    /\ (0.8 < se_strength first)%Q
    /\ ev = {| ev_video := se_video first;
               ev_pattern := fst item;
               ev_initial_strength := se_strength first |}.
Proof.
  destruct item as [k [|first rest]]; simpl.
  - split; [easy|]. now intros (? & ? & ? & _).
  - destruct (Qgtb (se_strength first) 0.8) eqn:G; simpl.
    + apply Qgtb_true in G. split.
      * intros [<-|[]]. now exists first, rest.
      * intros (f & r & E & _ & ->). injection E as <- <-. now left.
    + apply Qgtb_false in G. split; [easy|].
      intros (f & r & E & L & _). injection E as <- <-.
      now apply Qlt_not_le in L.
Qed.

(** C4. For every state, a key is reported among the emergence events of
    [_get_pattern_evolution_summary] if and only if [pattern_strengths]
    holds for it a history whose first entry has a strength above 0.8;
    and every event carries the index and the strength of that first
    entry of its key's history: the summary reads nothing but the state,
    so no index of the call that asks for it can enter. The history a
    dictionary holds for a key is the one its items list for it and the
    one a lookup finds, the keys being unique. *)
Theorem emergence_iff_first_strength_above_threshold (s : State) :
  let events := emergence_events (_get_pattern_evolution_summary s) in
  (forall k,
     (exists ev, In ev events /\ ev_pattern ev = k)
     <-> (exists first rest,
            In (k, first :: rest) (PyDict.items (pattern_strengths s))
            /\ (0.8 < se_strength first)%Q))
  /\ (forall ev, In ev events ->
        exists first rest,
          In (ev_pattern ev, first :: rest)
             (PyDict.items (pattern_strengths s))
          /\ (0.8 < se_strength first)%Q
          /\ ev_video ev = se_video first
          /\ ev_initial_strength ev = se_strength first)
  /\ (PyDict.unique_keys (pattern_strengths s) ->
      forall k,
        (exists ev, In ev events /\ ev_pattern ev = k)
        <-> (exists first rest,
               PyDict.get k (pattern_strengths s) = Some (first :: rest)
               /\ (0.8 < se_strength first)%Q)).
Proof.
  cbv zeta. simpl.
  assert (forall k,
            (exists ev,
               In ev (flat_map emergence_event
                        (PyDict.items (pattern_strengths s)))
               /\ ev_pattern ev = k)
            <-> (exists first rest,
                   In (k, first :: rest) (PyDict.items (pattern_strengths s))
                   /\ (0.8 < se_strength first)%Q)) as Iff.
  2:{ split; [exact Iff|]. split.
      2:{ intros U k. rewrite Iff. split;
            intros (first & rest & H & L); exists first, rest;
            (split; [|exact L]);
            now apply (PyDictFacts.in_items_get k (first :: rest) _ U). }
      intros ev Hin. apply in_flat_map in Hin.
      destruct Hin as ([k h] & Hi & He).
      apply emergence_event_spec in He. simpl in He.
      destruct He as (first & rest & -> & L & ->). simpl.
      now exists first, rest. }
  intros k. split.
  - intros (ev & Hin & <-). apply in_flat_map in Hin.
    destruct Hin as ([k h] & Hi & He).
    apply emergence_event_spec in He. simpl in He.
    destruct He as (first & rest & -> & L & ->). simpl.
    now exists first, rest.
  - intros (first & rest & Hi & L).
    exists {| ev_video := se_video first;
              ev_pattern := k;
              ev_initial_strength := se_strength first |}.
    split; [|reflexivity]. apply in_flat_map.
    exists (k, first :: rest). split; [exact Hi|].
    apply emergence_event_spec. now exists first, rest.
Qed.

(** The events of two histories that cross the threshold in opposite
    directions: only the one that starts above it is reported, at the
    index of its first entry. *)
Example emergence_events_early_and_late :
  emergence_events (_get_pattern_evolution_summary Sample.early_and_late)
  = [ {| ev_video := 4; ev_pattern := "early"; ev_initial_strength := 0.9 |} ].
Proof. reflexivity. Qed.

(** ** Discovery gating *)

(** C8. For every feature bundle, state and draws: [discover_patterns]
    returns pattern records or correlation records only when
    [videos_processed] is above 0, and meta-pattern records only when it
    is above 10; with the previous intelligence in use (as
    [process_video] calls it) the three analyses are what it returns as
    soon as the counter is above 0, the meta-pattern analysis giving its
    record exactly above 10; and the unknown-space exploration is its
    [unknown] entry on every call, whatever the counter. *)
Theorem discovery_gated_by_videos_processed (s : State) (features : Features)
    (n : Z) (use_previous_intelligence : bool) (r : Draws) :
  let d := discover_patterns s features n use_previous_intelligence r in
  (get_list (d_patterns d) <> [] -> videos_processed s > 0)
  /\ (get_list (d_correlations d) <> [] -> videos_processed s > 0)
  /\ (get_list (d_meta_patterns d) <> [] -> videos_processed s > 10)
  /\ (use_previous_intelligence = true -> videos_processed s > 0 ->
      d_patterns d = Some (Listed (_find_emergent_patterns features r))
      /\ d_correlations d = Some (Listed (_discover_correlations features r))
      /\ d_meta_patterns d = Some (Listed (_find_meta_patterns s features r)))
  /\ (use_previous_intelligence = true ->
      (len (get_list (d_meta_patterns d)) = 1 <-> videos_processed s > 10))
  /\ d_unknown d = Some (Listed (_explore_unknown_space features r)).
Proof.
  cbv zeta. unfold discover_patterns, _find_meta_patterns. simpl.
  destruct use_previous_intelligence; simpl;
    destruct (videos_processed s >? 0) eqn:G0;
    destruct (videos_processed s >? 10) eqn:G10;
    rewrite ?Z.gtb_gt, ?Z.gtb_ltb, ?Z.ltb_ge in *;
    repeat split; intros; try reflexivity; try easy; try lia;
    try discriminate.
Qed.

(** ** Recent discoveries *)

Lemma slice_from_last_entries {A : Type} (limit : Z) (log : list A) :
  0 < limit -> slice_from (- limit) log = last_entries (Z.to_nat limit) log.
Proof.
  intros L. unfold slice_from, last_entries.
  destruct (0 <=? - limit) eqn:E; [lia|].
  now rewrite Z.opp_involutive.
Qed.

(** For a positive limit the result is the window the document
    describes. *)
Lemma recent_discoveries_positive_limit (w : World) (limit : Z) :
  0 < limit ->
  get_recent_discoveries w limit
  = last_entries (Z.to_nat limit) (discoveries (state w)).
Proof.
  intros L. unfold get_recent_discoveries.
  destruct (discoveries (state w)) as [|e l] eqn:E;
    [now destruct (Z.to_nat limit)|].
  now apply slice_from_last_entries.
Qed.

(** C9, at the limit 0: after one successful call the timeline has one
    row; the last 0 entries of it are none, and
    [get_recent_discoveries] with limit 0 returns the row. *)
Theorem recent_discoveries_limit_zero_returns_a_row :
  len (discoveries (state Sample.after_one_call)) = 1
  /\ last_entries 0 (discoveries (state Sample.after_one_call)) = []
  /\ get_recent_discoveries Sample.after_one_call 0
     = discoveries (state Sample.after_one_call)
  /\ get_recent_discoveries Sample.after_one_call 0 <> [].
Proof.
  repeat split; try (vm_compute; reflexivity).
  vm_compute. discriminate.
Qed.

(** C10. With limit 0, [get_recent_discoveries] returns the whole
    discoveries timeline, [-0] being [0] and the slice [[-0:]] the whole
    list: for a non-empty timeline that is every entry and not the empty
    sequence, for an empty timeline it is the empty sequence. *)
Theorem recent_discoveries_limit_zero_is_whole_log (w : World) :
  get_recent_discoveries w 0 = discoveries (state w)
  /\ (discoveries (state w) <> [] -> get_recent_discoveries w 0 <> [])
  /\ (discoveries (state w) = [] -> get_recent_discoveries w 0 = []).
Proof.
  assert (get_recent_discoveries w 0 = discoveries (state w)) as E.
  { unfold get_recent_discoveries. now destruct (discoveries (state w)). }
  rewrite E. repeat split; auto.
Qed.

(** ** Checkpoints *)

Section Checkpoints.

Local Open Scope cmd_scope.

Lemma checkpoint_path_not_discoveries_path (n : Z) :
  discoveries_path n <> checkpoint_path n.
Proof.
  unfold checkpoint_path, discoveries_path, joinpath, checkpoint_dir.
  simpl. discriminate.
Qed.

(** What [save_checkpoint] does, by the faults of its two files. *)
Lemma save_checkpoint_run (n mtime : Z) (w : World) :
  let fs := filesystem w in
  let wrote path c files_ :=
    PyDict.set path {| st_mtime := mtime; content := c |} files_ in
  let summary :=
    Summary
      {| r_videos_processed := videos_processed (state w);
         r_total_patterns := total_patterns (state w);
         r_total_correlations := total_correlations (state w);
         r_top_patterns := _get_top_patterns (state w) 10;
         r_pattern_evolution := _get_pattern_evolution_summary (state w) |} in
  exists (b : bool) files',
    save_checkpoint n mtime w
    = (Return b, with_filesystem {| files := files'; fault := fault fs |} w)
    /\ (b = true <->
        fault fs (checkpoint_path n) = NoFault
        /\ fault fs (discoveries_path n) = NoFault)
    /\ (b = true ->
        files'
        = wrote (discoveries_path n) summary
            (wrote (checkpoint_path n) (Pickled (state w)) (files fs))).
Proof.
  cbv zeta.
  unfold save_checkpoint, try_except, bind, get_state, write_file, ret.
  simpl.
  destruct (fault (filesystem w) (checkpoint_path n)) eqn:Fc; simpl.
  - destruct (fault (filesystem w) (discoveries_path n)) eqn:Fd; simpl.
    + exists true. eexists. split; [reflexivity|]. split; [tauto|easy].
    + exists false. eexists. split; [reflexivity|].
      split; [|easy]. split; [easy|]. intros [_ H]. discriminate H.
    + exists false. eexists. split; [reflexivity|].
      split; [|easy]. split; [easy|]. intros [_ H]. discriminate H.
  - exists false, (files (filesystem w)). split.
    + destruct w as [s u [fl ft]]. reflexivity.
    + split; [|easy]. split; [easy|]. intros [H _]. discriminate H.
  - exists false. eexists. split; [reflexivity|].
    split; [|easy]. split; [easy|]. intros [H _]. discriminate H.
Qed.

Lemma store_raw_features_run (n : Z) (features : Features) (now : string)
    (mtime : Z) (w : World) :
  exists b,
    fst (store_raw_features n features now mtime w) = Return b
    /\ unknown_space (snd (store_raw_features n features now mtime w))
       = unknown_space w.
Proof.
  unfold store_raw_features, try_except, bind, write_file, ret.
  destruct (fault (filesystem w) _); simpl; eauto.
Qed.

(** [process_video], step by step: it answers with a response and leaves
    the world [save_checkpoint] left. *)
Lemma process_video_run (request : VideoProcessRequest) (env : Environment)
    (w : World) :
  let features := extract_everything (video_path request) (randn env) in
  let w1 :=
    if store_raw request
    then snd (store_raw_features (video_number request) features
                (now_raw env) (mtime_raw env) w)
    else w in
  let found :=
    discover_patterns (state w1) features (video_number request) true
      (draws env) in
  let merged :=
    update_intelligence found (video_number request) (now_update env) w1 in
  let saved :=
    save_checkpoint (video_number request) (mtime_checkpoint env)
      (snd merged) in
  exists response,
    process_video request env w = (Return response, snd saved)
    /\ Return (checkpoint_saved response) = fst saved
    /\ Return (intelligence_updated response) = fst merged
    /\ state (snd saved) = state (snd merged)
    /\ unknown_space (snd saved) = unknown_space w.
Proof.
  cbv zeta. unfold process_video, try_except.
  unfold bind at 1.
  set (features := extract_everything (video_path request) (randn env)).
  assert (exists w1,
            (if store_raw request
             then store_raw_features (video_number request) features
                    (now_raw env) (mtime_raw env) ;; ret tt
             else ret tt) w = (Return tt, w1)
            /\ unknown_space w1 = unknown_space w
            /\ w1 = if store_raw request
                    then snd (store_raw_features (video_number request)
                                features (now_raw env) (mtime_raw env) w)
                    else w) as (w1 & -> & U1 & <-).
  { destruct (store_raw request); [|now exists w].
    unfold bind, ret.
    destruct (store_raw_features_run (video_number request) features
                (now_raw env) (mtime_raw env) w) as (b & Hb & Ub).
    destruct (store_raw_features _ _ _ _ w) as [o w1]. simpl in Hb, Ub.
    subst o. now exists w1. }
  unfold bind at 1. unfold get_state. unfold bind at 1.
  set (found := discover_patterns (state w1) features _ true _).
  destruct (update_intelligence_run found (video_number request)
              (now_update env) w1) as (bu & ps' & cm' & Eu & _).
  rewrite Eu. unfold bind at 1.
  match goal with
  | |- context [save_checkpoint _ _ ?x] => set (w2 := x)
  end.
  destruct (save_checkpoint_run (video_number request)
              (mtime_checkpoint env) w2) as (bs & f' & E & _).
  simpl snd. rewrite E. simpl.
  eexists. repeat split. exact U1.
Qed.

(** [self.unknown_space] is empty in the engine [__init__] builds, and no
    method changes it. *)
Lemma unknown_space_kept (w : World) :
  (forall fs now w0, __init__ fs now = Return w0 -> unknown_space w0 = [])
  /\ (forall d n now,
        unknown_space (snd (update_intelligence d n now w)) = unknown_space w)
  /\ (forall n mtime,
        unknown_space (snd (save_checkpoint n mtime w)) = unknown_space w)
  /\ (forall request env,
        unknown_space (snd (process_video request env w)) = unknown_space w).
Proof.
  repeat split.
  - intros fs now w0. unfold __init__.
    destruct (_load_or_initialize_state fs now); [|discriminate].
    now intros [= <-].
  - intros d n now.
    destruct (update_intelligence_run d n now w) as (b & ? & ? & E & _).
    now rewrite E.
  - intros n mtime.
    destruct (save_checkpoint_run n mtime w) as (b & f' & E & _).
    now rewrite E.
  - intros request env.
    destruct (process_video_run request env w) as (r & E & _ & _ & _ & U).
    now rewrite E.
Qed.

(** C6. For every state and index [save_checkpoint] returns a boolean and
    never raises: [True] exactly when neither of its two files meets an i/o
    fault, [False] otherwise; either way it leaves [self.state] as it
    found it. [process_video] therefore always answers with a response,
    whose [checkpoint_saved] is what [save_checkpoint] returned and whose
    [intelligence_updated] is what [update_intelligence] returned, and the
    state it leaves is the state [update_intelligence] left, whether the
    checkpoint was saved or not. *)
Theorem checkpoint_failure_reported_and_merge_kept (n mtime : Z) (w : World)
    (request : VideoProcessRequest) (env : Environment) :
  (exists b : bool,
     fst (save_checkpoint n mtime w) = Return b
     /\ (b = true <->
         fault (filesystem w) (checkpoint_path n) = NoFault
         /\ fault (filesystem w) (discoveries_path n) = NoFault))
  /\ state (snd (save_checkpoint n mtime w)) = state w
  /\ unknown_space (snd (save_checkpoint n mtime w)) = unknown_space w
  /\ (let features := extract_everything (video_path request) (randn env) in
      let w1 :=
        if store_raw request
        then snd (store_raw_features (video_number request) features
                    (now_raw env) (mtime_raw env) w)
        else w in
      let found :=
        discover_patterns (state w1) features (video_number request) true
          (draws env) in
      let merged :=
        update_intelligence found (video_number request) (now_update env) w1 in
      let saved :=
        save_checkpoint (video_number request) (mtime_checkpoint env)
          (snd merged) in
      exists response,
        process_video request env w = (Return response, snd saved)
        /\ Return (checkpoint_saved response) = fst saved
        /\ Return (intelligence_updated response) = fst merged
        /\ state (snd saved) = state (snd merged)).
Proof.
  split; [|split; [|split]].
  - destruct (save_checkpoint_run n mtime w) as (b & f' & E & I & _).
    exists b. now rewrite E.
  - destruct (save_checkpoint_run n mtime w) as (b & f' & E & _).
    now rewrite E.
  - destruct (save_checkpoint_run n mtime w) as (b & f' & E & _).
    now rewrite E.
  - cbv zeta.
    destruct (process_video_run request env w) as (r & E & C & I & S & _).
    now exists r.
Qed.

(** C5. When [save_checkpoint] succeeds at index [n] on an engine (whose
    [unknown_space] is empty, as [__init__] leaves it and every method
    keeps it) and the files it leaves resolve the checkpoint of [n] as the
    latest, [__init__] on those files builds an engine and
    [get_current_state] of that engine is [get_current_state] of the
    engine before the save. *)
Theorem resume_from_checkpoint_same_snapshot (n mtime : Z) (now : string)
    (w : World) :
  fst (save_checkpoint n mtime w) = Return true ->
  _find_latest_checkpoint (filesystem (snd (save_checkpoint n mtime w)))
  = Some (checkpoint_path n) ->
  unknown_space w = [] ->
  exists resumed,
    __init__ (filesystem (snd (save_checkpoint n mtime w))) now
    = Return resumed
    /\ state resumed = state w
    /\ get_current_state resumed = get_current_state w.
Proof.
  intros Ok Latest U.
  destruct (save_checkpoint_run n mtime w) as (b & f' & E & I & F).
  rewrite E in *. simpl in Ok, Latest |- *. injection Ok as ->.
  destruct (proj1 I eq_refl) as [Fc _]. specialize (F eq_refl).
  unfold __init__, _load_or_initialize_state. rewrite Latest. simpl.
  rewrite Fc, F.
  rewrite PyDictFacts.get_set_other
    by (intros H; symmetry in H;
        exact (checkpoint_path_not_discoveries_path n H)).
  rewrite PyDictFacts.get_set_same. simpl.
  eexists. split; [reflexivity|]. split; [reflexivity|].
  unfold get_current_state. simpl. now rewrite U.
Qed.

Lemma resume_from_checkpoint_same_snapshot_witness :
  exists resumed,
    __init__
      (filesystem (snd (save_checkpoint 0 100 Sample.after_one_call)))
      "2024-01-02T00:00:00"
    = Return resumed
    /\ state resumed = state Sample.after_one_call
    /\ get_current_state resumed = get_current_state Sample.after_one_call.
Proof.
  apply (resume_from_checkpoint_same_snapshot 0 100 "2024-01-02T00:00:00"
           Sample.after_one_call);
    vm_compute; reflexivity.
Defined.

End Checkpoints.

(** ** The cold start of the design document *)

(** One request on an empty checkpoint directory: nothing is discovered
    but unknown signals, the counter is 1, the timeline has one row with
    the number of patterns returned, and the checkpoint of index 0 is the
    latest. *)
Example cold_start_then_one_request :
  let run := process_video Sample.request_zero Sample.environment
               Sample.cold_start in
  (exists response,
     fst run = Return response
     /\ rs_patterns_discovered response = []
     /\ features_extracted response = 5
     /\ intelligence_updated response = true
     /\ checkpoint_saved response = true)
  /\ videos_processed (state (snd run)) = 1
  /\ map de_patterns_found (discoveries (state (snd run))) = [0]
  /\ map de_unknown_signals (discoveries (state (snd run))) = [1]
  /\ _find_latest_checkpoint (filesystem (snd run))
     = Some (checkpoint_path 0)
  /\ map fst (files (filesystem (snd run)))
     = [ "data/discoveries/raw_features_v0000.json";
         "intelligence_checkpoints/intelligence_v0000.pkl";
         "intelligence_checkpoints/discoveries_v0000.json" ]%string.
Proof.
  cbv zeta. split; [eexists|]; repeat split; vm_compute; reflexivity.
Qed.

(** * Further properties of the engine and of its endpoints *)

(** ** Indices in file names *)

Module FormatFacts.

Lemma zeros_cons (k : nat) (s : string) :
  (String.concat "" (repeat "0" (S k)) ++ s
   = String "0" (String.concat "" (repeat "0" k) ++ s))%string.
Proof. destruct k; reflexivity. Qed.

Lemma uint_of_zeros (k : nat) (s : string) :
  NilEmpty.uint_of_string (String.concat "" (repeat "0" k) ++ s)%string
  = option_map (Nat.iter k Decimal.D0) (NilEmpty.uint_of_string s).
Proof.
  induction k as [|k IH].
  - simpl. now destruct (NilEmpty.uint_of_string s).
  - rewrite zeros_cons. simpl NilEmpty.uint_of_string. rewrite IH.
    now destruct (NilEmpty.uint_of_string s).
Qed.

Lemma of_uint_zeros (k : nat) (d : Decimal.uint) :
  N.of_uint (Nat.iter k Decimal.D0 d) = N.of_uint d.
Proof. induction k as [|k IH]; [reflexivity|exact IH]. Qed.

Lemma uint_of_zero_pad (width : nat) (d : Decimal.uint) :
  option_map N.of_uint
    (NilEmpty.uint_of_string (zero_pad width (NilEmpty.string_of_uint d)))
  = Some (N.of_uint d).
Proof.
  unfold zero_pad. rewrite uint_of_zeros, NilEmpty.usu. simpl.
  now rewrite of_uint_zeros.
Qed.

(** A padded number starts with a digit, never with the sign. *)
Lemma zero_pad_no_sign (width : nat) (d : Decimal.uint) (s : string) :
  zero_pad width (NilEmpty.string_of_uint d) <> String "-" s.
Proof.
  unfold zero_pad. destruct (width - _)%nat as [|k].
  - simpl. destruct d; discriminate.
  - rewrite zeros_cons. discriminate.
Qed.

Lemma read_format (n : Z) : read_04d (format_04d n) = Some n.
Proof.
  unfold format_04d.
  remember (N.to_uint (Z.abs_N n)) as d eqn:Ed.
  assert (N.of_uint d = Z.abs_N n) as Hd
    by (subst d; apply DecimalN.Unsigned.of_to).
  clear Ed. destruct (n <? 0) eqn:Neg.
  - apply Z.ltb_lt in Neg. cbn [read_04d append].
    pose proof (uint_of_zero_pad 3 d) as H.
    destruct (NilEmpty.uint_of_string _) as [u|]; [|discriminate].
    cbn [option_map] in *. injection H as H. rewrite H, Hd. f_equal. lia.
  - apply Z.ltb_ge in Neg. unfold read_04d.
    pose proof (uint_of_zero_pad 4 d) as H.
    pose proof (zero_pad_no_sign 4 d) as S.
    destruct (zero_pad 4 (NilEmpty.string_of_uint d)) as [|c s] eqn:Z4.
    + cbn in H |- *. injection H as H. rewrite <- H in Hd.
      f_equal. lia.
    + assert (c <> "-"%char) as Hc by (intros ->; now apply (S s)).
      assert (forall (A : Type) (x y : A),
                match c with "-"%char => x | _ => y end = y) as M.
      { intros A x y.
        destruct c as [[] [] [] [] [] [] [] []]; try reflexivity.
        now elim Hc. }
      rewrite M.
      destruct (NilEmpty.uint_of_string (String c s)) as [u|]; [|discriminate].
      cbn [option_map] in *. injection H as H. rewrite H, Hd. f_equal. lia.
Qed.

Lemma format_04d_injective (n m : Z) : format_04d n = format_04d m -> n = m.
Proof.
  intros E. pose proof (read_format n) as Hn. rewrite E, read_format in Hn.
  now injection Hn.
Qed.

Lemma length_append (s t : string) :
  String.length (s ++ t)%string = (String.length s + String.length t)%nat.
Proof. induction s as [|c s IH]; simpl; [reflexivity|now rewrite IH]. Qed.

Lemma append_inv_tail (s1 s2 t : string) :
  (s1 ++ t = s2 ++ t)%string -> s1 = s2.
Proof.
  revert s2. induction s1 as [|c s1 IH]; intros [|c2 s2] E; simpl in E.
  - reflexivity.
  - apply (f_equal String.length) in E. simpl in E.
    rewrite length_append in E. lia.
  - apply (f_equal String.length) in E. simpl in E.
    rewrite length_append in E. lia.
  - injection E as -> E. f_equal. now apply IH.
Qed.

Lemma append_assoc (s t u : string) :
  ((s ++ t) ++ u = s ++ (t ++ u))%string.
Proof. induction s as [|c s IH]; simpl; [reflexivity|now rewrite IH]. Qed.

Lemma prefix_append (s t : string) : prefix s (s ++ t) = true.
Proof.
  induction s as [|c s IH]; simpl; [now destruct t|].
  destruct (ascii_dec c c); [exact IH|contradiction].
Qed.

Lemma substring_after (s t : string) (m : nat) :
  substring (String.length s) m (s ++ t) = substring 0 m t.
Proof. induction s as [|c s IH]; simpl; [reflexivity|exact IH]. Qed.

Lemma substring_all (t : string) (m : nat) :
  (String.length t <= m)%nat -> substring 0 m t = t.
Proof.
  revert m. induction t as [|c t IH]; intros [|m] L; simpl in *;
    try reflexivity; try lia.
  f_equal. apply IH. lia.
Qed.

Lemma endswith_append (s t : string) : endswith t (s ++ t) = true.
Proof.
  unfold endswith. rewrite length_append.
  replace (String.length s + String.length t - String.length t)%nat
    with (String.length s) by lia.
  rewrite substring_after, substring_all by lia.
  rewrite String.eqb_refl, andb_true_r. apply Nat.leb_le. lia.
Qed.

Lemma no_slash_append (s t : string) :
  no_slash s -> no_slash t -> no_slash (s ++ t).
Proof.
  unfold no_slash. induction s as [|c s IH]; simpl; [auto|].
  intros H Ht. apply orb_false_iff in H as [Hc Hs].
  rewrite Hc. simpl. now apply IH.
Qed.

Lemma no_slash_digits (d : Decimal.uint) :
  no_slash (NilEmpty.string_of_uint d).
Proof. unfold no_slash. induction d; simpl; auto. Qed.

Lemma no_slash_zeros (k : nat) : no_slash (String.concat "" (repeat "0" k)).
Proof.
  induction k as [|k IH]; [reflexivity|].
  pose proof (zeros_cons k "") as E.
  assert (forall s, (s ++ "")%string = s) as R
    by (induction s as [|c s I]; simpl; [reflexivity|now rewrite I]).
  rewrite !R in E. rewrite E. unfold no_slash in *. simpl. exact IH.
Qed.

Lemma no_slash_format (n : Z) : no_slash (format_04d n).
Proof.
  unfold format_04d, zero_pad. destruct (n <? 0).
  - apply (no_slash_append "-"); [reflexivity|].
    apply no_slash_append; [apply no_slash_zeros|apply no_slash_digits].
  - apply no_slash_append; [apply no_slash_zeros|apply no_slash_digits].
Qed.

Lemma glob_matches (stem middle : string) :
  no_slash middle ->
  let path := (stem ++ middle ++ ".pkl")%string in
  prefix stem path
  && endswith ".pkl" path
  && (String.length stem + 4 <=? String.length path)%nat
  && negb (existsb (Ascii.eqb "/")
             (list_ascii_of_string
                (substring (String.length stem) (String.length path) path)))
  = true.
Proof.
  intros N. cbv zeta.
  assert ((stem ++ middle ++ ".pkl")%string
          = ((stem ++ middle) ++ ".pkl")%string) as E2
    by now rewrite append_assoc.
  rewrite prefix_append.
  rewrite E2 at 1. rewrite endswith_append.
  rewrite substring_after, !length_append.
  rewrite substring_all by (rewrite length_append; simpl; lia).
  assert (no_slash (middle ++ ".pkl")) as N'
    by (apply no_slash_append; [exact N|reflexivity]).
  unfold no_slash in N'. rewrite N'. simpl.
  rewrite andb_true_r. apply Nat.leb_le. lia.
Qed.

(** The checkpoint of every index is a match of the glob; the summary
    beside it and the raw features are not. *)
Lemma checkpoint_path_is_checkpoint (n : Z) :
  is_checkpoint (checkpoint_path n) = true.
Proof.
  exact (glob_matches (joinpath checkpoint_dir "intelligence_v")
           (format_04d n) (no_slash_format n)).
Qed.

Lemma discoveries_path_not_checkpoint (n : Z) :
  is_checkpoint (discoveries_path n) = false.
Proof. reflexivity. Qed.

Lemma raw_features_path_not_checkpoint (n : Z) :
  is_checkpoint
    (joinpath discovery_dir ("raw_features_v" ++ format_04d n ++ ".json"))
  = false.
Proof. reflexivity. Qed.

Lemma checkpoint_path_injective (n m : Z) :
  checkpoint_path n = checkpoint_path m -> n = m.
Proof.
  unfold checkpoint_path, joinpath, checkpoint_dir. simpl. intros E.
  injection E as E. apply append_inv_tail in E.
  now apply format_04d_injective.
Qed.

End FormatFacts.

(** ** Which checkpoint is the latest *)

Module LatestFacts.

Lemma max_by_spec {A : Type} (key : A -> Z) (l : list A) (best : A) :
  In (max_by key best l) (best :: l)
  /\ Forall (fun y => key y <= key (max_by key best l)) (best :: l).
Proof.
  revert best. induction l as [|x l IH]; intros best; simpl.
  - split; [now left|]. constructor; [lia|constructor].
  - destruct (IH (if key best <? key x then x else best)) as [I F].
    inversion F as [|? ? Hb Fl]; subst. split.
    + destruct I as [I|I]; [|now right; right].
      destruct (key best <? key x); [right; now left|now left].
    + destruct (key best <? key x) eqn:C.
      * apply Z.ltb_lt in C. constructor; [lia|]. now constructor.
      * apply Z.ltb_ge in C. constructor; [exact Hb|].
        constructor; [lia|exact Fl].
Qed.

Lemma in_set {V : Type} (k k0 : string) (v v0 : V) (d : PyDict.t V) :
  In (k, v) (PyDict.set k0 v0 d) -> (k = k0 /\ v = v0) \/ In (k, v) d.
Proof.
  induction d as [|[k' v'] d IH]; simpl.
  - intros [E|[]]. left. now injection E as <- <-.
  - destruct (String.eqb k0 k') eqn:E; simpl.
    + apply String.eqb_eq in E. subst k'. intros [H|H]; [|now right; right].
      left. now injection H as <- <-.
    + intros [H|H]; [now right; left|].
      destruct (IH H) as [?|?]; [now left|now right; right].
Qed.

Lemma in_set_self {V : Type} (k : string) (v : V) (d : PyDict.t V) :
  In (k, v) (PyDict.set k v d).
Proof.
  induction d as [|[k' v'] d IH]; simpl; [now left|].
  destruct (String.eqb k k') eqn:E; simpl.
  - apply String.eqb_eq in E. subst k'. now left.
  - now right.
Qed.

(** A write to a path the glob does not match leaves its matches. *)
Lemma checkpoints_kept (path : string) (f : File) (d : PyDict.t File) :
  is_checkpoint path = false ->
  filter (fun p => is_checkpoint (fst p)) (PyDict.set path f d)
  = filter (fun p => is_checkpoint (fst p)) d.
Proof.
  intros N. induction d as [|[k' v'] d IH]; simpl.
  - now rewrite N.
  - destruct (String.eqb path k') eqn:E; simpl.
    + apply String.eqb_eq in E. subst k'. now rewrite N.
    + now rewrite IH.
Qed.

Lemma latest_spec (fs : FileSystem) :
  match _find_latest_checkpoint fs with
  | None =>
      forall k f, In (k, f) (files fs) -> is_checkpoint k = false
  | Some latest =>
      is_checkpoint latest = true
      /\ exists f,
           In (latest, f) (files fs)
           /\ forall k f',
                In (k, f') (files fs) -> is_checkpoint k = true ->
                st_mtime f' <= st_mtime f
  end.
Proof.
  unfold _find_latest_checkpoint, PyDict.items.
  destruct (filter _ (files fs)) as [|p rest] eqn:E.
  - intros k f I. destruct (is_checkpoint k) eqn:C; [|reflexivity].
    assert (In (k, f) (filter (fun p => is_checkpoint (fst p)) (files fs)))
      as H by (apply filter_In; now split).
    rewrite E in H. destruct H.
  - destruct (max_by_spec (fun p => st_mtime (snd p)) rest p) as [I F].
    rewrite <- E in I, F. apply filter_In in I as [I C].
    destruct (max_by _ p rest) as [latest f]. simpl in *.
    split; [exact C|]. exists f. split; [exact I|].
    intros k f' I' C'. rewrite Forall_forall in F.
    apply (F (k, f')). apply filter_In. now split.
Qed.

(** A checkpoint written later than every checkpoint there is becomes the
    latest. *)
Lemma latest_after_write (path : string) (c : Content) (mtime : Z)
    (d : PyDict.t File) (flt : string -> Fault) :
  is_checkpoint path = true ->
  (forall k f, In (k, f) d -> is_checkpoint k = true -> st_mtime f < mtime) ->
  _find_latest_checkpoint
    {| files := PyDict.set path {| st_mtime := mtime; content := c |} d;
       fault := flt |}
  = Some path.
Proof.
  intros C Old.
  set (fs' := {| files := PyDict.set path _ d; fault := flt |}).
  assert (In (path, {| st_mtime := mtime; content := c |}) (files fs'))
    as New by apply in_set_self.
  pose proof (latest_spec fs') as S.
  destruct (_find_latest_checkpoint fs') as [latest|].
  - destruct S as (Cl & f & I & M). f_equal.
    pose proof (M _ _ New C) as Le. simpl in Le.
    apply in_set in I as [[-> _]|I]; [reflexivity|].
    pose proof (Old _ _ I Cl). lia.
  - rewrite (S _ _ New) in C. discriminate.
Qed.

Lemma latest_unmatched_write (path : string) (f : File) (d : PyDict.t File)
    (flt flt' : string -> Fault) :
  is_checkpoint path = false ->
  _find_latest_checkpoint {| files := PyDict.set path f d; fault := flt |}
  = _find_latest_checkpoint {| files := d; fault := flt' |}.
Proof.
  intros N. unfold _find_latest_checkpoint, PyDict.items. simpl.
  now rewrite checkpoints_kept.
Qed.

End LatestFacts.

(** X1. [_find_latest_checkpoint] finds nothing exactly when no file of
    the store is a match of the glob; what it finds is a match of the
    glob, is a file of the store, and no match of the glob was modified
    later. *)
Theorem latest_checkpoint_is_most_recent (fs : FileSystem) :
  (_find_latest_checkpoint fs = None
   <-> forall k f, In (k, f) (files fs) -> is_checkpoint k = false)
  /\ (forall latest,
        _find_latest_checkpoint fs = Some latest ->
        is_checkpoint latest = true
        /\ exists f,
             In (latest, f) (files fs)
             /\ forall k f',
                  In (k, f') (files fs) -> is_checkpoint k = true ->
                  st_mtime f' <= st_mtime f).
Proof.
  pose proof (LatestFacts.latest_spec fs) as S. split.
  - split.
    + intros E. now rewrite E in S.
    + intros N. destruct (_find_latest_checkpoint fs) as [latest|];
        [|reflexivity].
      destruct S as (C & f & I & _). rewrite (N _ _ I) in C. discriminate.
  - intros latest E. now rewrite E in S.
Qed.

(** X2. The file names carry the index without loss: [format_04d] writes
    different indices differently (no padding or sign makes two of them
    meet), so the checkpoints of two different indices are two different
    files, each a match of the glob of [_find_latest_checkpoint], while
    the summary written beside a checkpoint is not. *)
Theorem checkpoint_files_tell_indices_apart (n m : Z) :
  (format_04d n = format_04d m <-> n = m)
  /\ (checkpoint_path n = checkpoint_path m <-> n = m)
  /\ is_checkpoint (checkpoint_path n) = true
  /\ is_checkpoint (discoveries_path n) = false.
Proof.
  split; [|split; [|split]].
  - split; [apply FormatFacts.format_04d_injective|now intros ->].
  - split; [apply FormatFacts.checkpoint_path_injective|now intros ->].
  - apply FormatFacts.checkpoint_path_is_checkpoint.
  - apply FormatFacts.discoveries_path_not_checkpoint.
Qed.

(** ** What a save leaves in the store *)

Section SaveFacts.

Local Open Scope cmd_scope.

Lemma save_checkpoint_elsewhere (n mtime : Z) (w : World) (path : string) :
  path <> checkpoint_path n -> path <> discoveries_path n ->
  PyDict.get path (files (filesystem (snd (save_checkpoint n mtime w))))
  = PyDict.get path (files (filesystem w)).
Proof.
  intros Nc Nd.
  unfold save_checkpoint, try_except, bind, get_state, write_file, ret.
  simpl.
  destruct (fault (filesystem w) (checkpoint_path n)); simpl;
    [destruct (fault (filesystem w) (discoveries_path n)); simpl| |];
    rewrite ?PyDictFacts.get_set_other by assumption; reflexivity.
Qed.

Lemma save_checkpoint_torn (n mtime : Z) (w : World) :
  fault (filesystem w) (checkpoint_path n) = WriteFails ->
  save_checkpoint n mtime w
  = (Return false,
     with_filesystem
       {| files :=
            PyDict.set (checkpoint_path n)
              {| st_mtime := mtime; content := Torn |}
              (files (filesystem w));
          fault := fault (filesystem w) |} w).
Proof.
  intros F.
  unfold save_checkpoint, try_except, bind, get_state, write_file, ret.
  simpl. now rewrite F.
Qed.

(** A successful save later than every checkpoint of the store is what a
    new engine starts from. *)
Lemma save_then_init (n mtime : Z) (now : string) (w : World) :
  fst (save_checkpoint n mtime w) = Return true ->
  (forall k f, In (k, f) (files (filesystem w)) ->
     is_checkpoint k = true -> st_mtime f < mtime) ->
  let fs' := filesystem (snd (save_checkpoint n mtime w)) in
  _find_latest_checkpoint fs' = Some (checkpoint_path n)
  /\ __init__ fs' now
     = Return {| state := state w; unknown_space := []; filesystem := fs' |}.
Proof.
  intros Ok Old. cbv zeta.
  destruct (save_checkpoint_run n mtime w) as (b & f' & E & I & F).
  rewrite E in *. simpl in Ok |- *. injection Ok as ->.
  destruct (proj1 I eq_refl) as [Fc _]. specialize (F eq_refl). subst f'.
  assert (_find_latest_checkpoint
            {| files :=
                 PyDict.set (discoveries_path n)
                   {| st_mtime := mtime;
                      content :=
                        Summary
                          {| r_videos_processed := videos_processed (state w);
                             r_total_patterns := total_patterns (state w);
                             r_total_correlations :=
                               total_correlations (state w);
                             r_top_patterns := _get_top_patterns (state w) 10;
                             r_pattern_evolution :=
                               _get_pattern_evolution_summary (state w) |} |}
                   (PyDict.set (checkpoint_path n)
                      {| st_mtime := mtime; content := Pickled (state w) |}
                      (files (filesystem w)));
               fault := fault (filesystem w) |}
          = Some (checkpoint_path n)) as L.
  { rewrite (LatestFacts.latest_unmatched_write (discoveries_path n) _ _
               _ (fault (filesystem w)))
      by apply FormatFacts.discoveries_path_not_checkpoint.
    apply LatestFacts.latest_after_write;
      [apply FormatFacts.checkpoint_path_is_checkpoint|exact Old]. }
  split; [exact L|].
  unfold __init__, _load_or_initialize_state. rewrite L. simpl.
  rewrite Fc.
  rewrite PyDictFacts.get_set_other
    by (intros H; symmetry in H;
        exact (checkpoint_path_not_discoveries_path n H)).
  rewrite PyDictFacts.get_set_same. reflexivity.
Qed.

End SaveFacts.

(** X3. [save_checkpoint] at index [n] reads and writes two files only:
    every other path of the store, the checkpoint of any other index
    among them, holds after the call what it held before, whether the save
    succeeded or not; after a successful save the checkpoint of [n] holds
    the pickle of the current state with the time of the save, whatever
    was there before, so that a second save at the same index replaces
    the first. *)
Theorem save_checkpoint_writes_its_two_files_only (n m mtime : Z) (w : World)
    (path : string) :
  let w' := snd (save_checkpoint n mtime w) in
  (path <> checkpoint_path n -> path <> discoveries_path n ->
   PyDict.get path (files (filesystem w'))
   = PyDict.get path (files (filesystem w)))
  /\ (m <> n ->
      PyDict.get (checkpoint_path m) (files (filesystem w'))
      = PyDict.get (checkpoint_path m) (files (filesystem w)))
  /\ (fst (save_checkpoint n mtime w) = Return true ->
      PyDict.get (checkpoint_path n) (files (filesystem w'))
      = Some {| st_mtime := mtime; content := Pickled (state w) |})
  /\ fault (filesystem w') = fault (filesystem w).
Proof.
  cbv zeta. split; [|split; [|split]].
  - apply save_checkpoint_elsewhere.
  - intros N. apply save_checkpoint_elsewhere.
    + intros E. now apply FormatFacts.checkpoint_path_injective in E.
    + intros E. symmetry in E. revert E.
      unfold checkpoint_path, discoveries_path, joinpath, checkpoint_dir.
      simpl. discriminate.
  - intros Ok.
    destruct (save_checkpoint_run n mtime w) as (b & f' & E & I & F).
    rewrite E in *. simpl in Ok |- *. injection Ok as ->.
    rewrite (F eq_refl).
    rewrite PyDictFacts.get_set_other
      by (intros H; symmetry in H;
          exact (checkpoint_path_not_discoveries_path n H)).
    apply PyDictFacts.get_set_same.
  - destruct (save_checkpoint_run n mtime w) as (b & f' & E & _).
    now rewrite E.
Qed.

(** X4. A successful save at a time later than the modification time of
    every checkpoint of the store is resolved as the latest, and an engine
    built on the store then starts from exactly the state that was saved,
    with an empty [unknown_space]. *)
Theorem latest_save_is_resumed (n mtime : Z) (now : string) (w : World) :
  fst (save_checkpoint n mtime w) = Return true ->
  (forall k f, In (k, f) (files (filesystem w)) ->
     is_checkpoint k = true -> st_mtime f < mtime) ->
  let fs' := filesystem (snd (save_checkpoint n mtime w)) in
  _find_latest_checkpoint fs' = Some (checkpoint_path n)
  /\ __init__ fs' now
     = Return {| state := state w; unknown_space := []; filesystem := fs' |}.
Proof. apply save_then_init. Qed.

Lemma latest_save_is_resumed_witness :
  let fs' := filesystem (snd (save_checkpoint 1 100 Fixture.after_request)) in
  _find_latest_checkpoint fs' = Some (checkpoint_path 1)
  /\ __init__ fs' "2024-01-02T00:00:00"
     = Return {| state := state Fixture.after_request;
                 unknown_space := [];
                 filesystem := fs' |}.
Proof.
  apply (latest_save_is_resumed 1 100 "2024-01-02T00:00:00"
           Fixture.after_request).
  - vm_compute. reflexivity.
  - intros k f I C. vm_compute in I.
    destruct I as [E|[E|[E|[]]]]; injection E as <- <-;
      try discriminate C; vm_compute; reflexivity.
Defined.

(** X6. A save whose pickle is torn by an i/o fault during the write
    reports failure, and when it is later than every checkpoint of the
    store it still is the latest: an engine built on the store then does
    not start, [__init__] raising the unpickling error instead of
    returning a fresh state. *)
Theorem torn_checkpoint_stops_the_next_start (n mtime : Z) (now : string)
    (w : World) :
  fault (filesystem w) (checkpoint_path n) = WriteFails ->
  (forall k f, In (k, f) (files (filesystem w)) ->
     is_checkpoint k = true -> st_mtime f < mtime) ->
  fst (save_checkpoint n mtime w) = Return false
  /\ __init__ (filesystem (snd (save_checkpoint n mtime w))) now
     = Raise (UnpicklingError (checkpoint_path n)).
Proof.
  intros F Old. rewrite (save_checkpoint_torn n mtime w F). simpl.
  split; [reflexivity|].
  unfold __init__, _load_or_initialize_state.
  rewrite (LatestFacts.latest_after_write (checkpoint_path n) Torn mtime
             (files (filesystem w)) (fault (filesystem w))
             (FormatFacts.checkpoint_path_is_checkpoint n) Old).
  simpl. rewrite F, PyDictFacts.get_set_same. reflexivity.
Qed.

Lemma torn_checkpoint_stops_the_next_start_witness :
  fst (save_checkpoint 1 100 Fixture.tearing) = Return false
  /\ __init__ (filesystem (snd (save_checkpoint 1 100 Fixture.tearing)))
       "2024-01-02T00:00:00"
     = Raise (UnpicklingError (checkpoint_path 1)).
Proof.
  apply (torn_checkpoint_stops_the_next_start 1 100 "2024-01-02T00:00:00"
           Fixture.tearing).
  - vm_compute. reflexivity.
  - intros k f I C. vm_compute in I.
    destruct I as [E|[E|[E|[]]]]; injection E as <- <-;
      try discriminate C; vm_compute; reflexivity.
Defined.

(** ** Raw features *)

Lemma store_raw_features_effect (n : Z) (features : Features) (now : string)
    (mtime : Z) (w : World) :
  let raw_path :=
    joinpath discovery_dir ("raw_features_v" ++ format_04d n ++ ".json") in
  let w1 := snd (store_raw_features n features now mtime w) in
  (exists b : bool,
     fst (store_raw_features n features now mtime w) = Return b
     /\ (b = true <-> fault (filesystem w) raw_path = NoFault))
  /\ state w1 = state w
  /\ fault (filesystem w1) = fault (filesystem w)
  /\ _find_latest_checkpoint (filesystem w1)
     = _find_latest_checkpoint (filesystem w)
  /\ (forall k f, In (k, f) (files (filesystem w1)) ->
        is_checkpoint k = true -> In (k, f) (files (filesystem w)))
  /\ (forall m,
        PyDict.get (checkpoint_path m) (files (filesystem w1))
        = PyDict.get (checkpoint_path m) (files (filesystem w))).
Proof.
  cbv zeta.
  unfold store_raw_features, try_except, bind, write_file, ret.
  set (raw_path := joinpath discovery_dir _).
  assert (is_checkpoint raw_path = false) as N by reflexivity.
  assert (forall m, checkpoint_path m <> raw_path) as D.
  { intros m E. pose proof (FormatFacts.checkpoint_path_is_checkpoint m) as C.
    rewrite E, N in C. discriminate. }
  destruct (filesystem w) as [fl ft] eqn:Ef. simpl. rewrite ?Ef. simpl.
  destruct (ft raw_path) eqn:F; simpl; rewrite ?Ef, ?F; simpl.
  - split; [exists true; split; [reflexivity|tauto]|].
    repeat split.
    + apply LatestFacts.latest_unmatched_write. exact N.
    + intros k f I C. apply LatestFacts.in_set in I as [[-> _]|I];
        [rewrite N in C; discriminate|exact I].
    + intros m. apply PyDictFacts.get_set_other. apply D.
  - split; [exists false; split; [reflexivity|]|now repeat split].
    split; [discriminate|]. intros H. try rewrite F in H. discriminate H.
  - split; [exists false; split; [reflexivity|]|].
    { split; [discriminate|]. intros H. try rewrite F in H.
      discriminate H. }
    repeat split.
    + apply LatestFacts.latest_unmatched_write. exact N.
    + intros k f I C. apply LatestFacts.in_set in I as [[-> _]|I];
        [rewrite N in C; discriminate|exact I].
    + intros m. apply PyDictFacts.get_set_other. apply D.
Qed.

(** X5. [store_raw_features] returns a boolean and never raises: [True]
    exactly when its file meets no i/o fault. It leaves the state as it
    was and writes no file the checkpoint glob matches: the checkpoint of
    every index holds what it held, and the latest checkpoint is the same
    before and after. *)
Theorem store_raw_features_leaves_checkpoints (n m : Z) (features : Features)
    (now : string) (mtime : Z) (w : World) :
  let raw_path :=
    joinpath discovery_dir ("raw_features_v" ++ format_04d n ++ ".json") in
  let w1 := snd (store_raw_features n features now mtime w) in
  (exists b : bool,
     fst (store_raw_features n features now mtime w) = Return b
     /\ (b = true <-> fault (filesystem w) raw_path = NoFault))
  /\ state w1 = state w
  /\ _find_latest_checkpoint (filesystem w1)
     = _find_latest_checkpoint (filesystem w)
  /\ PyDict.get (checkpoint_path m) (files (filesystem w1))
     = PyDict.get (checkpoint_path m) (files (filesystem w)).
Proof.
  cbv zeta.
  destruct (store_raw_features_effect n features now mtime w)
    as (B & S & _ & L & _ & G).
  repeat split; try assumption. apply G.
Qed.

(** ** Restarting after a request *)

(** X7. When [process_video] answers that the checkpoint was saved, at a
    time later than the modification time of every checkpoint the store
    held before the request, an engine built on the store afterwards
    starts from exactly the state the request left: nothing the request
    merged is lost by a restart. *)
Theorem request_then_restart_keeps_state (request : VideoProcessRequest)
    (env : Environment) (now : string) (w : World)
    (response : DiscoveryResponse) :
  (forall k f, In (k, f) (files (filesystem w)) ->
     is_checkpoint k = true -> st_mtime f < mtime_checkpoint env) ->
  fst (process_video request env w) = Return response ->
  checkpoint_saved response = true ->
  let w' := snd (process_video request env w) in
  __init__ (filesystem w') now
  = Return {| state := state w';
              unknown_space := [];
              filesystem := filesystem w' |}.
Proof.
  intros Old R Saved. cbv zeta.
  destruct (process_video_run request env w) as (r & E & C & _ & S & _).
  rewrite E in R |- *. simpl in R. injection R as ->. simpl snd.
  rewrite Saved in C. symmetry in C.
  set (features := extract_everything (video_path request) (randn env)) in *.
  set (w1 := if store_raw request then _ else w) in *.
  set (found := discover_patterns (state w1) features _ true _) in *.
  set (merged := update_intelligence found _ _ w1) in *.
  assert (forall k f, In (k, f) (files (filesystem (snd merged))) ->
            is_checkpoint k = true -> st_mtime f < mtime_checkpoint env)
    as Old'.
  { assert (filesystem (snd merged) = filesystem w1) as ->.
    { unfold merged.
      destruct (update_intelligence_run found (video_number request)
                  (now_update env) w1) as (b & ? & ? & Eu & _).
      now rewrite Eu. }
    intros k f I Ck. apply (Old k f); [|exact Ck].
    unfold w1 in I. destruct (store_raw request); [|exact I].
    destruct (store_raw_features_effect (video_number request) features
                (now_raw env) (mtime_raw env) w) as (_ & _ & _ & _ & K & _).
    now apply K. }
  destruct (save_then_init (video_number request) (mtime_checkpoint env) now
              (snd merged) C Old') as [_ I].
  rewrite I, S. reflexivity.
Qed.

Lemma request_then_restart_keeps_state_witness :
  let w' :=
    snd (process_video Fixture.request_one Fixture.later
           Fixture.after_request) in
  __init__ (filesystem w') "2024-01-02T00:00:00"
  = Return {| state := state w';
              unknown_space := [];
              filesystem := filesystem w' |}.
Proof.
  refine (request_then_restart_keeps_state Fixture.request_one Fixture.later
            "2024-01-02T00:00:00" Fixture.after_request _ _ _ _).
  - intros k f I C. vm_compute in I.
    destruct I as [E|[E|[E|[]]]]; injection E as <- <-;
      try discriminate C; vm_compute; reflexivity.
  - vm_compute. reflexivity.
  - reflexivity.
Defined.

(** ** The merge, record by record *)

(** X8. [update_intelligence] reports success exactly when the discovery
    is complete: its entries [patterns], [correlations] and [unknown] are
    absent or have a length, every pattern record has the key [type] and
    a description that is absent or can be sliced, and every correlation
    record has the keys [feature_a], [feature_b] and [correlation]. With
    any other discovery, an entry or a description set to [None] among
    them, it returns [False]; and, the counter being advanced first,
    [videos_processed] is one more all the same. *)
Theorem update_succeeds_iff_records_complete (d : Discoveries) (n : Z)
    (now : string) (w : World) :
  (fst (update_intelligence d n now w) = Return true
   <-> complete_discoveries d = true)
  /\ (fst (update_intelligence d n now w) = Return false
      <-> complete_discoveries d = false)
  /\ videos_processed (state (snd (update_intelligence d n now w)))
     = videos_processed (state w) + 1
  /\ complete_discoveries d
     = negb (unsized (d_patterns d))
       && negb (unsized (d_correlations d))
       && negb (unsized (d_unknown d))
       && forallb complete_pattern (get_list (d_patterns d))
       && forallb complete_correlation (get_list (d_correlations d))
  /\ (forall p,
        complete_pattern p = true
        <-> p_type p <> None /\ p_description p <> Some Unsliceable)
  /\ (forall c,
        complete_correlation c = true
        <-> c_feature_a c <> None /\ c_feature_b c <> None
            /\ c_correlation c <> None).
Proof.
  destruct (update_intelligence_effect d n now w) as (cm' & E & _).
  rewrite E. simpl. split; [|split; [|split; [|split; [|split]]]].
  - split; congruence.
  - split; congruence.
  - reflexivity.
  - reflexivity.
  - intros p. unfold complete_pattern, pattern_key.
    destruct (p_type p), (p_description p) as [[| |]|];
      split; try easy; intros [H1 H2]; congruence.
  - intros c. unfold complete_correlation.
    destruct (c_feature_a c), (c_feature_b c), (c_correlation c);
      split; try easy; intros (H1 & H2 & H3); congruence.
Qed.

Example update_fails_on_none :
  complete_discoveries Fixture.correlations_none = false
  /\ complete_discoveries Fixture.description_none = false
  /\ complete_discoveries Fixture.unknown_none = false
  /\ complete_discoveries Fixture.valueless = false
  /\ complete_discoveries Sample.well_formed = true.
Proof. repeat split. Qed.

(** ** Looking up what was merged *)

Section Lookup.

Context {E : Type}.

Lemma total_entries_record_entry (key : string) (e : E)
    (d : PyDict.t (list E)) :
  total_entries (record_entry key e d) = total_entries d + 1.
Proof.
  unfold record_entry, history_of.
  induction d as [|[k' v'] d IH]; simpl.
  - unfold len. simpl. lia.
  - destruct (String.eqb key k') eqn:Ek; simpl.
    + unfold len. rewrite length_app. simpl. lia.
    + rewrite IH. lia.
Qed.

End Lookup.

(** X9. After a successful [update_intelligence], the history a key has
    in [pattern_strengths] is the history it had, followed by one entry
    for each pattern record of the discovery filed under that key, in the
    order of the records; a record is filed under its type, an underscore
    and the first 20 characters of its description (characters, not
    bytes; nothing for a record without a description), so that records
    whose descriptions differ only after the 20th character share a
    history;
    an entry carries the index of the call and the strength of the
    record, 0 when it has none. Likewise for [correlation_matrix], a
    correlation being filed under its two features joined by an
    underscore. *)
Theorem merged_histories_by_key (d : Discoveries) (n : Z) (now : string)
    (w : World) (k : string) :
  fst (update_intelligence d n now w) = Return true ->
  let w' := snd (update_intelligence d n now w) in
  history_of k (pattern_strengths (state w'))
  = history_of k (pattern_strengths (state w))
    ++ map (strength_entry n)
         (filter (pattern_under k) (get_list (d_patterns d)))
  /\ history_of k (correlation_matrix (state w'))
     = history_of k (correlation_matrix (state w))
       ++ map (correlation_entry n)
            (filter (correlation_under k) (get_list (d_correlations d))).
Proof.
  intros Ok. cbv zeta.
  destruct (complete_discoveries d) eqn:H.
  - destruct (complete_discoveries_records d H) as [P C].
    rewrite (update_intelligence_complete d n now w H). simpl.
    split; [apply history_of_recorded_patterns
           |apply history_of_recorded_correlations].
  - rewrite (update_intelligence_incomplete d n now w H) in Ok.
    discriminate.
Qed.

Lemma merged_histories_by_key_witness :
  history_of "cross_modal_Voice pitch drop + s"
    (pattern_strengths
       (state (snd (update_intelligence Fixture.colliding 5
                      "2024-01-01T00:00:05" Sample.after_one_call))))
  = [Sample.entry 0 0.9; Sample.entry 5 0.9; Sample.entry 5 0].
Proof.
  exact (proj1 (merged_histories_by_key Fixture.colliding 5
                  "2024-01-01T00:00:05" Sample.after_one_call
                  "cross_modal_Voice pitch drop + s" eq_refl)).
Defined.

(** The key counts characters: a pattern of type [t] described by 25
    accented letters is filed under [t_] and 20 of them, which are 40
    bytes of the 50. *)
Example accented_description_key :
  pattern_key Fixture.accented
  = Some ("t_" ++ String.concat "" (repeat Fixture.e_acute 20))%string
  /\ map fst
       (pattern_strengths
          (state (snd (update_intelligence
                         (Sample.only_patterns [Fixture.accented]) 0
                         "2024-01-01T00:00:01" Sample.cold_start))))
     = [("t_" ++ String.concat "" (repeat Fixture.e_acute 20))%string].
Proof. split; vm_compute; reflexivity. Qed.

(** ** The books *)

Lemma column_sum_app (column : DiscoveryEntry -> Z)
    (log : list DiscoveryEntry) (row : DiscoveryEntry) :
  column_sum column (log ++ [row]) = column_sum column log + column row.
Proof. induction log as [|r log IH]; simpl; [lia|rewrite IH; lia]. Qed.

Lemma total_entries_recorded_patterns (n : Z) (l : list Pattern) :
  forallb complete_pattern l = true ->
  forall d,
    total_entries (fold_left (record_pattern n) l d) = total_entries d + len l.
Proof.
  induction l as [|p l IH]; intros H d; simpl; [unfold len; simpl; lia|].
  simpl in H. apply andb_true_iff in H as [Hp Hl].
  rewrite (IH Hl). unfold record_pattern, complete_pattern in *.
  destruct (pattern_key p); [|discriminate].
  rewrite total_entries_record_entry. unfold len. simpl List.length. lia.
Qed.

Lemma total_entries_recorded_correlations (n : Z) (l : list Correlation) :
  forallb complete_correlation l = true ->
  forall d,
    total_entries (fold_left (record_correlation n) l d)
    = total_entries d + len l.
Proof.
  induction l as [|c l IH]; intros H d; simpl; [unfold len; simpl; lia|].
  simpl in H. apply andb_true_iff in H as [Hc Hl].
  rewrite (IH Hl).
  unfold record_correlation, correlation_key, complete_correlation in *.
  destruct (c_feature_a c); [|discriminate].
  destruct (c_feature_b c); [|discriminate].
  rewrite total_entries_record_entry. unfold len. simpl List.length. lia.
Qed.

Lemma update_keeps_balance (d : Discoveries) (n : Z) (now : string)
    (w : World) :
  fst (update_intelligence d n now w) = Return true ->
  balanced (state w) ->
  balanced (state (snd (update_intelligence d n now w))).
Proof.
  intros Ok (Bp & Bc & Ep & Ec).
  destruct (complete_discoveries d) eqn:H.
  - destruct (complete_discoveries_records d H) as [P C].
    rewrite (update_intelligence_complete d n now w H). simpl.
    unfold balanced. simpl. rewrite !column_sum_app. simpl.
    rewrite (total_entries_recorded_patterns n _ P).
    rewrite (total_entries_recorded_correlations n _ C).
    repeat split; lia.
  - rewrite (update_intelligence_incomplete d n now w H) in Ok.
    discriminate.
Qed.

(** X10. The totals add up: in a sequence of calls of
    [update_intelligence] that all report success, from a state whose
    books are balanced (the fresh state's are), after every call
    [total_patterns] is the sum of [patterns_found] over the discoveries
    timeline and the number of entries held by all the histories of
    [pattern_strengths], and [total_correlations] is the sum of
    [correlations_found] and the number of entries held by
    [correlation_matrix]. *)
Theorem totals_match_timeline_and_histories (calls : list Call) (w : World)
    (i : nat) (r : Outcome bool) (wi : World) :
  Forall (fun step => fst step = Return true) (run_updates calls w) ->
  balanced (state w) ->
  nth_error (run_updates calls w) i = Some (r, wi) ->
  total_patterns (state wi)
  = column_sum de_patterns_found (discoveries (state wi))
  /\ total_correlations (state wi)
     = column_sum de_correlations_found (discoveries (state wi))
  /\ total_entries (pattern_strengths (state wi)) = total_patterns (state wi)
  /\ total_entries (correlation_matrix (state wi))
     = total_correlations (state wi).
Proof.
  revert w i. induction calls as [|c rest IH]; intros w i Ok B Hi.
  - destruct i; discriminate.
  - simpl in Ok, Hi. inversion Ok as [|? ? Hc Hrest]; subst.
    pose proof (update_keeps_balance _ _ _ _ Hc B) as B'.
    destruct i as [|j].
    + simpl in Hi. injection Hi as Hi. rewrite Hi in B'. exact B'.
    + simpl in Hi. exact (IH _ j Hrest B' Hi).
Qed.

Lemma totals_match_timeline_and_histories_witness :
  let wi :=
    snd (nth 2 (run_updates Sample.three_calls Sample.cold_start)
           (Return true, Sample.cold_start)) in
  total_patterns (state wi) = 6
  /\ total_entries (pattern_strengths (state wi)) = total_patterns (state wi).
Proof.
  cbv zeta.
  pose proof
    (totals_match_timeline_and_histories
       Sample.three_calls Sample.cold_start 2 (Return true)
       (snd (nth 2 (run_updates Sample.three_calls Sample.cold_start)
               (Return true, Sample.cold_start)))
       ltac:(vm_compute; repeat constructor)
       ltac:(vm_compute; repeat split)
       ltac:(vm_compute; reflexivity)) as (P & _ & E & _).
  split; [exact P | exact E].
Defined.

(** ** What the ranking holds *)

Module RankingFacts.

Lemma last_in {A : Type} (l : list A) (x d : A) : In (last (x :: l) d) (x :: l).
Proof.
  revert x. induction l as [|y l IH]; intros x; [now left|].
  right. exact (IH y).
Qed.

Lemma first_before_last (h : list StrengthEntry) (first : StrengthEntry) :
  Sorted Z.le (map se_video (first :: h)) ->
  se_video first <= se_video (last (first :: h) first).
Proof.
  intros S. apply Sorted_StronglySorted in S; [|intros a b c; lia].
  simpl in S. inversion S as [|? ? _ F]; subst.
  destruct (last_in h first first) as [<-|I]; [lia|].
  rewrite Forall_forall in F. apply F. now apply in_map.
Qed.

Lemma sum_occurrences_perm (l l' : list TopPattern) :
  Permutation l l' -> sum_occurrences l = sum_occurrences l'.
Proof. induction 1; simpl; lia. Qed.

Lemma sum_occurrences_candidates (d : PyDict.t (list StrengthEntry)) :
  sum_occurrences (flat_map pattern_with_strength d) = total_entries d.
Proof.
  induction d as [|[k [|first h]] d IH]; simpl; [reflexivity|exact IH|].
  now rewrite IH.
Qed.

Lemma candidates_length (d : PyDict.t (list StrengthEntry)) :
  (List.length (flat_map pattern_with_strength d) <= List.length d)%nat.
Proof.
  induction d as [|[k [|first h]] d IH]; simpl; lia.
Qed.

Lemma slice_to_all {A : Type} (limit : Z) (l : list A) :
  len l <= limit -> slice_to limit l = l.
Proof.
  unfold len, slice_to. intros L.
  destruct (0 <=? limit) eqn:E; [|apply Z.leb_gt in E; lia].
  apply firstn_all2. lia.
Qed.

Lemma slice_to_shorter {A : Type} (limit : Z) (l : list A) :
  (List.length (slice_to limit l) <= List.length l)%nat.
Proof.
  unfold slice_to. destruct (0 <=? limit); rewrite length_firstn; lia.
Qed.

Lemma in_slice_to {A : Type} (limit : Z) (l : list A) (x : A) :
  In x (slice_to limit l) -> In x l.
Proof.
  destruct (slice_to_prefix limit l) as [rest E]. intros I.
  rewrite E. apply in_or_app. now left.
Qed.

(** A record of the ranking comes from an item of the dictionary. *)
Lemma ranked_from_item (s : State) (limit : Z) (r : TopPattern) :
  In r (_get_top_patterns s limit) ->
  exists first rest,
    In (tp_pattern r, first :: rest) (PyDict.items (pattern_strengths s))
    /\ average_strength r = np_mean (map se_strength (first :: rest))
    /\ occurrences r = len (first :: rest)
    /\ first_seen r = se_video first
    /\ last_seen r = se_video (last (first :: rest) first).
Proof.
  intros I. apply in_slice_to in I.
  apply (Permutation_in r (sort_reverse_perm average_strength _)) in I.
  apply in_flat_map in I as ([k [|first rest]] & Hi & Hp); [destruct Hp|].
  destruct Hp as [<-|[]]. now exists first, rest.
Qed.

End RankingFacts.

(** X11. [_get_top_patterns] never returns more records than
    [pattern_strengths] has keys, whatever the limit; with a limit that
    is not below the number of keys it returns every key that has a
    history, each once, and the occurrences it reports add up to the
    number of entries the histories hold. *)
Theorem ranking_covers_the_histories (s : State) (limit : Z) :
  len (_get_top_patterns s limit) <= PyDict.len (pattern_strengths s)
  /\ (PyDict.len (pattern_strengths s) <= limit ->
      Permutation (_get_top_patterns s limit) (patterns_with_strength s)
      /\ sum_occurrences (_get_top_patterns s limit)
         = total_entries (pattern_strengths s)).
Proof.
  pose proof (RankingFacts.candidates_length (pattern_strengths s)) as C.
  pose proof (Permutation_length
                (sort_reverse_perm average_strength
                   (patterns_with_strength s))) as P.
  unfold patterns_with_strength, PyDict.items in *.
  split.
  - unfold _get_top_patterns, len, PyDict.len, patterns_with_strength,
      PyDict.items.
    pose proof (RankingFacts.slice_to_shorter limit
                  (sort_reverse average_strength
                     (flat_map pattern_with_strength (pattern_strengths s)))).
    lia.
  - intros L. unfold _get_top_patterns, patterns_with_strength, PyDict.items.
    rewrite RankingFacts.slice_to_all
      by (unfold len, PyDict.len in *; lia).
    split; [apply sort_reverse_perm|].
    rewrite (RankingFacts.sum_occurrences_perm _ _
               (sort_reverse_perm average_strength _)).
    apply RankingFacts.sum_occurrences_candidates.
Qed.

(** X12. Every record [_get_top_patterns] returns summarises the history
    [pattern_strengths] holds for its key, which is not empty: it counts
    as many occurrences as the history has entries, at least one; its
    [average_strength] is the mean [np.mean] computes of the strengths of
    the history; its [first_seen] and [last_seen] are the indices of the
    first and of the last entry, so that, when the history is in index
    order, its [first_seen] is not after its [last_seen]. *)
Theorem ranked_record_within_its_history (s : State) (limit : Z)
    (r : TopPattern) :
  In r (_get_top_patterns s limit) ->
  exists first rest,
    In (tp_pattern r, first :: rest) (PyDict.items (pattern_strengths s))
    /\ occurrences r = len (first :: rest)
    /\ 1 <= occurrences r
    /\ average_strength r = np_mean (map se_strength (first :: rest))
    /\ first_seen r = se_video first
    /\ last_seen r = se_video (last (first :: rest) first)
    /\ (Sorted Z.le (map se_video (first :: rest)) ->
        first_seen r <= last_seen r).
Proof.
  intros I.
  destruct (RankingFacts.ranked_from_item s limit r I)
    as (first & rest & Hi & Ea & Eo & Ef & El).
  exists first, rest. split; [exact Hi|]. split; [exact Eo|]. split.
  - rewrite Eo. unfold len. simpl List.length. lia.
  - split; [exact Ea|]. split; [exact Ef|]. split; [exact El|].
    intros S. rewrite Ef, El. now apply RankingFacts.first_before_last.
Qed.

Lemma ranked_record_within_its_history_witness :
  let r := {| tp_pattern := "C";
              average_strength := np_mean [0.95; 0.95]%Q;
              occurrences := 2;
              first_seen := 0;
              last_seen := 1 |} in
  1 <= occurrences r /\ first_seen r <= last_seen r.
Proof.
  cbv zeta.
  destruct
    (ranked_record_within_its_history Sample.three_patterns 2
       {| tp_pattern := "C";
          average_strength := np_mean [0.95; 0.95]%Q;
          occurrences := 2;
          first_seen := 0;
          last_seen := 1 |}
       ltac:(vm_compute; left; reflexivity))
    as (first & rest & Hi & _ & O & _ & _ & _ & S).
  split; [exact O|]. apply S. vm_compute in Hi.
  destruct Hi as [E|[E|[E|[]]]]; try discriminate E.
  injection E as <- <-. vm_compute. repeat constructor. discriminate.
Defined.

(** ** A request, end to end *)

Section Requests.

Local Open Scope cmd_scope.

Lemma discover_patterns_complete (s : State) (features : Features) (n : Z)
    (use_previous_intelligence : bool) (r : Draws) :
  let d := discover_patterns s features n use_previous_intelligence r in
  complete_discoveries d = true
  /\ len (get_list (d_patterns d)) <= 2
  /\ len (get_list (d_correlations d)) <= 1
  /\ len (get_list (d_unknown d)) <= 1
  /\ (videos_processed s <= 0 ->
      get_list (d_patterns d) = [] /\ get_list (d_correlations d) = []).
Proof.
  cbv zeta. unfold discover_patterns, _find_emergent_patterns,
    _discover_correlations, _explore_unknown_space. simpl.
  destruct (videos_processed s >? 0) eqn:G.
  - apply Z.gtb_gt in G.
    destruct use_previous_intelligence, (Qgtb (micro_gate r) 0.3),
      (Qgtb (cross_gate r) 0.4), (Qgtb (unknown_std r) 1.5);
      simpl; unfold len; simpl; repeat split; try lia.
  - destruct use_previous_intelligence, (Qgtb (unknown_std r) 1.5);
      simpl; unfold len; simpl; repeat split; try lia.
Qed.

(** The response of [process_video], field by field. *)
Lemma process_video_exact (request : VideoProcessRequest) (env : Environment)
    (w : World) :
  let features := extract_everything (video_path request) (randn env) in
  let w1 :=
    if store_raw request
    then snd (store_raw_features (video_number request) features
                (now_raw env) (mtime_raw env) w)
    else w in
  let found :=
    discover_patterns (state w1) features (video_number request) true
      (draws env) in
  let merged :=
    update_intelligence found (video_number request) (now_update env) w1 in
  let saved :=
    save_checkpoint (video_number request) (mtime_checkpoint env)
      (snd merged) in
  exists saved_ : bool,
    fst merged = Return true
    /\ fst saved = Return saved_
    /\ state w1 = state w
    /\ state (snd saved) = state (snd merged)
    /\ process_video request env w
       = (Return {| rs_video_number := video_number request;
                    features_extracted := 5;
                    rs_patterns_discovered := get_list (d_patterns found);
                    rs_correlations_found := get_list (d_correlations found);
                    rs_unknown_signals := get_list (d_unknown found);
                    intelligence_updated := true;
                    checkpoint_saved := saved_ |},
          snd saved).
Proof.
  cbv zeta. unfold process_video, try_except.
  unfold bind at 1.
  set (features := extract_everything (video_path request) (randn env)).
  assert (exists w1,
            (if store_raw request
             then store_raw_features (video_number request) features
                    (now_raw env) (mtime_raw env) ;; ret tt
             else ret tt) w = (Return tt, w1)
            /\ state w1 = state w
            /\ w1 = if store_raw request
                    then snd (store_raw_features (video_number request)
                                features (now_raw env) (mtime_raw env) w)
                    else w) as (w1 & -> & S1 & <-).
  { destruct (store_raw request); [|now exists w].
    unfold bind, ret.
    destruct (store_raw_features_effect (video_number request) features
                (now_raw env) (mtime_raw env) w) as ((b & Hb & _) & Sb & _).
    destruct (store_raw_features _ _ _ _ w) as [o w1]. simpl in Hb, Sb.
    subst o. now exists w1. }
  unfold bind at 1. unfold get_state. unfold bind at 1.
  set (found := discover_patterns (state w1) features _ true _).
  destruct (discover_patterns_complete (state w1) features
              (video_number request) true (draws env)) as (P & _).
  fold found in P.
  rewrite (update_intelligence_complete found _ _ w1 P).
  unfold bind at 1. cbn [fst snd].
  match goal with
  | |- context [save_checkpoint _ _ ?x] => set (w2 := x)
  end.
  destruct (save_checkpoint_run (video_number request)
              (mtime_checkpoint env) w2) as (bs & f' & E & _).
  rewrite E. cbn [fst snd ret].
  exists bs. repeat split. exact S1.
Qed.

End Requests.

Lemma process_video_merges (request : VideoProcessRequest)
    (env : Environment) (w : World) :
  exists response,
    fst (process_video request env w) = Return response
    /\ intelligence_updated response = true
    /\ len (rs_patterns_discovered response) <= 2
    /\ len (rs_correlations_found response) <= 1
    /\ (videos_processed (state w) <= 0 ->
        rs_patterns_discovered response = []
        /\ rs_correlations_found response = [])
    /\ let s' := state (snd (process_video request env w)) in
       videos_processed s' = videos_processed (state w) + 1
       /\ total_patterns s'
          = total_patterns (state w) + len (rs_patterns_discovered response)
       /\ total_correlations s'
          = total_correlations (state w)
            + len (rs_correlations_found response)
       /\ discoveries s'
          = discoveries (state w)
            ++ [ {| de_video := video_number request;
                    de_timestamp := now_update env;
                    de_patterns_found := len (rs_patterns_discovered response);
                    de_correlations_found :=
                      len (rs_correlations_found response);
                    de_unknown_signals :=
                      len (rs_unknown_signals response) |} ].
Proof.
  destruct (process_video_exact request env w)
    as (bs & M & _ & S1 & S & E).
  cbv zeta in *.
  set (features := extract_everything (video_path request) (randn env)) in *.
  set (w1 := if store_raw request then _ else w) in *.
  set (found := discover_patterns (state w1) features _ true _) in *.
  destruct (discover_patterns_complete (state w1) features
              (video_number request) true (draws env))
    as (P & L2 & L1 & _ & Z0).
  fold found in P, L2, L1, Z0.
  eexists. rewrite E. simpl fst. simpl snd.
  split; [reflexivity|]. simpl.
  split; [reflexivity|]. split; [exact L2|]. split; [exact L1|].
  split; [rewrite <- S1; exact Z0|].
  rewrite S, (update_intelligence_complete found _ _ w1 P). simpl.
  rewrite S1. repeat split.
  unfold timeline_row, found. rewrite S1. reflexivity.
Qed.

(** X13. [process_video] always merges: whatever the request, the draws
    and the i/o faults, it answers with a response whose
    [intelligence_updated] is [True], [videos_processed] is one more, the
    totals grow by the numbers of patterns and correlations of the
    response, and the timeline gets one row for the request with those
    numbers. The response holds at most two patterns and one correlation,
    and none at all when no video had been processed before. *)
Theorem request_always_merges (request : VideoProcessRequest)
    (env : Environment) (w : World) :
  exists response,
    fst (process_video request env w) = Return response
    /\ intelligence_updated response = true
    /\ len (rs_patterns_discovered response) <= 2
    /\ len (rs_correlations_found response) <= 1
    /\ (videos_processed (state w) <= 0 ->
        rs_patterns_discovered response = []
        /\ rs_correlations_found response = [])
    /\ let s' := state (snd (process_video request env w)) in
       videos_processed s' = videos_processed (state w) + 1
       /\ total_patterns s'
          = total_patterns (state w) + len (rs_patterns_discovered response)
       /\ total_correlations s'
          = total_correlations (state w)
            + len (rs_correlations_found response)
       /\ discoveries s'
          = discoveries (state w)
            ++ [ {| de_video := video_number request;
                    de_timestamp := now_update env;
                    de_patterns_found := len (rs_patterns_discovered response);
                    de_correlations_found :=
                      len (rs_correlations_found response);
                    de_unknown_signals :=
                      len (rs_unknown_signals response) |} ].
Proof. apply process_video_merges. Qed.

Lemma run_requests_count (requests : list (VideoProcessRequest * Environment)) :
  forall (w : World) (i : nat) (r : Outcome DiscoveryResponse) (wi : World),
    nth_error (run_requests requests w) i = Some (r, wi) ->
    (exists response,
       r = Return response /\ intelligence_updated response = true)
    /\ videos_processed (state wi)
       = videos_processed (state w) + (Z.of_nat i + 1)
    /\ len (discoveries (state wi))
       = len (discoveries (state w)) + (Z.of_nat i + 1).
Proof.
  induction requests as [|[request env] rest IH]; intros w i r wi Hi.
  - destruct i; discriminate.
  - simpl in Hi.
    destruct (process_video_merges request env w)
      as (response & R & U & _ & _ & _ & V & _ & _ & D).
    cbv zeta in V, D. destruct i as [|j].
    + simpl in Hi. injection Hi as Hi. rewrite Hi in R, V, D.
      simpl in R, V, D. split; [exists response; now split|].
      split; [rewrite V; lia|].
      rewrite D. unfold len. rewrite length_app. simpl. lia.
    + simpl in Hi. destruct (IH _ j r wi Hi) as (X & V' & D').
      split; [exact X|]. rewrite V', D', V, D. unfold len.
      rewrite length_app. simpl. lia.
Qed.

(** X14. Every request counts: in any sequence of requests handled one
    after the other, whatever their indices, draws and i/o faults, each
    request is answered with [intelligence_updated] [True], and after the
    [i]-th request (from 0) [videos_processed] and the length of the
    discoveries timeline are both [i + 1] more than at the start. *)
Theorem every_request_counts
    (requests : list (VideoProcessRequest * Environment)) (w : World)
    (i : nat) (r : Outcome DiscoveryResponse) (wi : World) :
  nth_error (run_requests requests w) i = Some (r, wi) ->
  (exists response,
     r = Return response /\ intelligence_updated response = true)
  /\ videos_processed (state wi)
     = videos_processed (state w) + (Z.of_nat i + 1)
  /\ len (discoveries (state wi))
     = len (discoveries (state w)) + (Z.of_nat i + 1).
Proof. apply run_requests_count. Qed.

Lemma every_request_counts_witness :
  let wi :=
    snd (nth 1 (run_requests Fixture.two_requests Sample.cold_start)
           (Raise (KeyError ""), Sample.cold_start)) in
  videos_processed (state wi) = 2 /\ len (discoveries (state wi)) = 2.
Proof.
  cbv zeta.
  pose proof
    (every_request_counts Fixture.two_requests Sample.cold_start 1
       (fst (nth 1 (run_requests Fixture.two_requests Sample.cold_start)
               (Raise (KeyError ""), Sample.cold_start)))
       (snd (nth 1 (run_requests Fixture.two_requests Sample.cold_start)
               (Raise (KeyError ""), Sample.cold_start)))
       ltac:(vm_compute; reflexivity)) as (_ & V & D).
  split; [exact V | exact D].
Defined.

(** ** Recent discoveries, for every limit *)

Lemma slice_from_suffix {A : Type} (start : Z) (l : list A) :
  exists older, l = older ++ slice_from start l.
Proof.
  unfold slice_from. destruct (0 <=? start);
    eexists; symmetry; apply firstn_skipn.
Qed.

Lemma slice_from_length {A : Type} (start : Z) (l : list A) :
  len (slice_from start l)
  = if 0 <=? start then Z.max 0 (len l - start) else Z.min (- start) (len l).
Proof.
  unfold slice_from, len. destruct (0 <=? start) eqn:E;
    rewrite length_skipn; lia.
Qed.

(** X15. For every limit, [get_recent_discoveries] returns an end of the
    discoveries timeline, in the order of the timeline: its last [limit]
    rows when [limit] is positive (all of them when there are fewer), all
    rows when [limit] is 0, and all but the first [-limit] rows when
    [limit] is negative. The endpoint answers with that list and its
    length as [count], and never with an error. *)
Theorem recent_discoveries_for_every_limit (w : World) (limit : Z) :
  let log := discoveries (state w) in
  let recent := get_recent_discoveries w limit in
  (exists older, log = older ++ recent)
  /\ len recent
     = (if 0 <? limit then Z.min limit (len log)
        else Z.max 0 (len log + limit))
  /\ Endpoint.get_recent_discoveries limit w
     = (Return {| Endpoint.count := len recent;
                  Endpoint.rd_discoveries := recent |}, w).
Proof.
  cbv zeta. split; [|split; [|reflexivity]].
  - unfold get_recent_discoveries.
    destruct (discoveries (state w)) as [|e l] eqn:E; [now exists []|].
    apply slice_from_suffix.
  - unfold get_recent_discoveries.
    destruct (discoveries (state w)) as [|e l] eqn:E.
    + unfold len. simpl. destruct (0 <? limit) eqn:L; lia.
    + rewrite slice_from_length.
      destruct (0 <=? - limit) eqn:L1, (0 <? limit) eqn:L2; lia.
Qed.

(** ** A checkpoint on demand *)

Lemma create_checkpoint_exact (now : string) (mtime : Z) (w : World) :
  Endpoint.create_checkpoint now mtime w
  = (Return {| Endpoint.success := true;
               Endpoint.cc_checkpoint_path :=
                 checkpoint_path (videos_processed (state w));
               Endpoint.cc_timestamp := now |},
     snd (save_checkpoint (videos_processed (state w)) mtime w)).
Proof.
  unfold Endpoint.create_checkpoint, create_checkpoint, try_except, bind,
    get_state, ret.
  destruct (save_checkpoint_run (videos_processed (state w)) mtime w)
    as (b & f' & E & _).
  now rewrite E.
Qed.

Lemma save_checkpoint_unopened (n mtime : Z) (w : World) :
  fault (filesystem w) (checkpoint_path n) = OpenFails ->
  save_checkpoint n mtime w = (Return false, w).
Proof.
  intros F.
  unfold save_checkpoint, try_except, bind, get_state, write_file, ret.
  simpl. now rewrite F.
Qed.

(** X16. The checkpoint endpoint saves at the index [videos_processed]
    and always answers [success] [True] with the path of that checkpoint,
    whatever [save_checkpoint] returned: when the file cannot be opened the
    answer is the same and the store is left as it was, so that the path
    answered may name no file; when the save succeeds the path holds the
    pickle of the state. The state is never changed. *)
Theorem checkpoint_endpoint_always_reports_success (now : string)
    (mtime : Z) (w : World) :
  let n := videos_processed (state w) in
  let run := Endpoint.create_checkpoint now mtime w in
  fst run
  = Return {| Endpoint.success := true;
              Endpoint.cc_checkpoint_path := checkpoint_path n;
              Endpoint.cc_timestamp := now |}
  /\ state (snd run) = state w
  /\ (fault (filesystem w) (checkpoint_path n) = OpenFails ->
      fst (save_checkpoint n mtime w) = Return false /\ snd run = w)
  /\ (fst (save_checkpoint n mtime w) = Return true ->
      PyDict.get (checkpoint_path n) (files (filesystem (snd run)))
      = Some {| st_mtime := mtime; content := Pickled (state w) |}).
Proof.
  cbv zeta. rewrite create_checkpoint_exact. simpl fst. simpl snd.
  split; [reflexivity|]. split; [|split].
  - destruct (save_checkpoint_run (videos_processed (state w)) mtime w)
      as (b & f' & E & _).
    now rewrite E.
  - intros F. now rewrite (save_checkpoint_unopened _ mtime w F).
  - intros Ok.
    destruct (save_checkpoint_run (videos_processed (state w)) mtime w)
      as (b & f' & E & I & F).
    rewrite E in *. simpl in Ok |- *. injection Ok as ->.
    rewrite (F eq_refl).
    rewrite PyDictFacts.get_set_other
      by (intros H; symmetry in H;
          exact (checkpoint_path_not_discoveries_path _ H)).
    apply PyDictFacts.get_set_same.
Qed.

(** The endpoint on a disk where no file can be opened: success is
    answered, and the path answered names no file. *)
Example checkpoint_endpoint_on_read_only_disk :
  let run :=
    Endpoint.create_checkpoint "2024-01-03T00:00:00" 200 Fixture.read_only in
  fst run
  = Return {| Endpoint.success := true;
              Endpoint.cc_checkpoint_path :=
                "intelligence_checkpoints/intelligence_v0001.pkl";
              Endpoint.cc_timestamp := "2024-01-03T00:00:00" |}
  /\ PyDict.get "intelligence_checkpoints/intelligence_v0001.pkl"
       (files (filesystem (snd run)))
     = None.
Proof. split; vm_compute; reflexivity. Qed.

(** ** The range of a correlation *)

(** X17. A draw in [0, 1) gives [_discover_correlations] one correlation
    record, complete, whose value lies in [-1, 1). *)
Theorem discovered_correlation_in_range (features : Features) (r : Draws) :
  (0 <= correlation_draw r /\ correlation_draw r < 1)%Q ->
  exists c v,
    _discover_correlations features r = [c]
    /\ complete_correlation c = true
    /\ c_correlation c = Some v
    /\ (-1 <= v /\ v < 1)%Q.
Proof.
  intros [L U]. unfold _discover_correlations.
  do 2 eexists. split; [reflexivity|]. split; [reflexivity|].
  split; [reflexivity|]. simpl. split; Lqa.lra.
Qed.

Lemma discovered_correlation_in_range_witness :
  exists c v,
    _discover_correlations [] (draws Sample.environment) = [c]
    /\ complete_correlation c = true
    /\ c_correlation c = Some v
    /\ (-1 <= v /\ v < 1)%Q.
Proof.
  apply (discovered_correlation_in_range [] (draws Sample.environment)).
  split; vm_compute; [discriminate|reflexivity].
Defined.

(** ** Emergence events and the ranking *)

Lemma emergence_events_length (d : PyDict.t (list StrengthEntry)) :
  (List.length (flat_map emergence_event d) <= List.length d)%nat.
Proof.
  induction d as [|[k [|first h]] d IH]; simpl; [lia|lia|].
  destruct (Qgtb (se_strength first) 0.8); simpl; lia.
Qed.

(** X18. The two analyses a checkpoint summary holds agree: there are
    never more emergence events than [pattern_strengths] has keys, and
    every emergence event is about a pattern of the ranking (taken with a
    limit of the number of keys), whose [first_seen] is the index of the
    event and whose history starts with the strength of the event. *)
Theorem emergence_events_are_ranked (s : State) :
  let events := emergence_events (_get_pattern_evolution_summary s) in
  let ranking := _get_top_patterns s (PyDict.len (pattern_strengths s)) in
  len events <= PyDict.len (pattern_strengths s)
  /\ forall ev, In ev events ->
       exists r,
         In r ranking
         /\ tp_pattern r = ev_pattern ev
         /\ first_seen r = ev_video ev
         /\ 1 <= occurrences r
         /\ (0.8 < ev_initial_strength ev)%Q.
Proof.
  cbv zeta. simpl. split.
  - pose proof (emergence_events_length (pattern_strengths s)).
    unfold len, PyDict.len, PyDict.items. lia.
  - intros ev I. apply in_flat_map in I as ([k h] & Hi & He).
    apply emergence_event_spec in He. simpl in He.
    destruct He as (first & rest & -> & L & ->). simpl.
    set (r := {| tp_pattern := k;
                 average_strength := np_mean (map se_strength (first :: rest));
                 occurrences := len (first :: rest);
                 first_seen := se_video first;
                 last_seen := se_video (last (first :: rest) first) |}).
    exists r. split; [|repeat split; try exact L].
    + unfold _get_top_patterns.
      rewrite RankingFacts.slice_to_all.
      * apply (Permutation_in r
                 (Permutation_sym (sort_reverse_perm average_strength _))).
        apply in_flat_map. exists (k, first :: rest).
        split; [exact Hi|now left].
      * pose proof (Permutation_length
                      (sort_reverse_perm average_strength
                         (patterns_with_strength s))) as P.
        pose proof (RankingFacts.candidates_length (pattern_strengths s)).
        unfold len, PyDict.len, patterns_with_strength, PyDict.items in *.
        lia.
    + unfold r, len. simpl List.length. simpl occurrences. lia.
Qed.

(** ** Starting without a checkpoint *)

(** X19. An engine built on a store none of whose files is a match of
    the checkpoint glob starts fresh, whatever else the store holds (raw
    features, summaries, torn files): nothing processed, no history, no
    discovery, and the creation time of the start. *)
Theorem start_without_checkpoint_is_fresh (fs : FileSystem) (now : string) :
  (forall k f, In (k, f) (files fs) -> is_checkpoint k = false) ->
  __init__ fs now
  = Return {| state := fresh_state now;
              unknown_space := [];
              filesystem := fs |}.
Proof.
  intros N. pose proof (LatestFacts.latest_spec fs) as S.
  unfold __init__, _load_or_initialize_state.
  destruct (_find_latest_checkpoint fs) as [latest|]; [|reflexivity].
  destruct S as (C & f & I & _). rewrite (N _ _ I) in C. discriminate.
Qed.

Lemma start_without_checkpoint_is_fresh_witness :
  __init__ Fixture.no_checkpoint "2024-01-02T00:00:00"
  = Return {| state := fresh_state "2024-01-02T00:00:00";
              unknown_space := [];
              filesystem := Fixture.no_checkpoint |}.
Proof.
  apply (start_without_checkpoint_is_fresh Fixture.no_checkpoint).
  intros k f I. vm_compute in I.
  destruct I as [E|[E|[]]]; injection E as <- <-; reflexivity.
Defined.

(** ** The summary beside a checkpoint *)

(** X20. The readable summary a successful save writes beside the
    checkpoint agrees with what the endpoints answer at that moment: its
    three counters are those of the state endpoint, its emergence events
    those of the evolution endpoint, and its top patterns the ranking
    with limit 10, so at most 10 records; the two endpoints answer without
    error and leave the world as it is. *)
Theorem summary_agrees_with_endpoints (n mtime : Z) (w : World) :
  fst (save_checkpoint n mtime w) = Return true ->
  exists summary view evolution,
    PyDict.get (discoveries_path n)
      (files (filesystem (snd (save_checkpoint n mtime w))))
    = Some {| st_mtime := mtime; content := Summary summary |}
    /\ Endpoint.get_intelligence_state w = (Return view, w)
    /\ Endpoint.get_pattern_evolution w = (Return evolution, w)
    /\ r_videos_processed summary = Endpoint.is_videos_processed view
    /\ r_total_patterns summary = Endpoint.is_total_patterns view
    /\ r_total_correlations summary = Endpoint.is_total_correlations view
    /\ emergence_events (r_pattern_evolution summary)
       = Endpoint.ev_emergence_events evolution
    /\ r_top_patterns summary = _get_top_patterns (state w) 10
    /\ len (r_top_patterns summary) <= 10.
Proof.
  intros Ok.
  destruct (save_checkpoint_run n mtime w) as (b & f' & E & I & F).
  rewrite E in *. simpl in Ok |- *. injection Ok as ->.
  rewrite (F eq_refl), PyDictFacts.get_set_same.
  do 3 eexists. split; [reflexivity|].
  split; [reflexivity|]. split; [reflexivity|]. simpl.
  repeat split.
  unfold _get_top_patterns. rewrite slice_to_length.
  change (0 <=? 10) with true. cbv iota. lia.
Qed.

Lemma summary_agrees_with_endpoints_witness :
  exists summary view evolution,
    PyDict.get (discoveries_path 1)
      (files (filesystem (snd (save_checkpoint 1 100 Fixture.after_request))))
    = Some {| st_mtime := 100; content := Summary summary |}
    /\ Endpoint.get_intelligence_state Fixture.after_request
       = (Return view, Fixture.after_request)
    /\ Endpoint.get_pattern_evolution Fixture.after_request
       = (Return evolution, Fixture.after_request)
    /\ r_videos_processed summary = Endpoint.is_videos_processed view
    /\ r_total_patterns summary = Endpoint.is_total_patterns view
    /\ r_total_correlations summary = Endpoint.is_total_correlations view
    /\ emergence_events (r_pattern_evolution summary)
       = Endpoint.ev_emergence_events evolution
    /\ r_top_patterns summary
       = _get_top_patterns (state Fixture.after_request) 10
    /\ len (r_top_patterns summary) <= 10.
Proof.
  apply (summary_agrees_with_endpoints 1 100 Fixture.after_request).
  vm_compute. reflexivity.
Defined.
